(** * mcp-hue-server: the Hue control service, its REST client and its tools

    A shallow embedding of [hue-service.ts] (class [PhillipsHueService]),
    [hue-api-client.ts] (the axios based resource clients) and [index.ts]
    (the registered tools).

    - Promises are computations in the monad [Async]: a function from the
      [World] to an [Outcome] (resolved, rejected with an error, or never
      settled) and the world afterwards.  [await] is [bind].
    - Everything outside the process is part of the [World]: the service
      object ([this]), the environment variables, the file system, the
      DNS-SD browser, the bridge, and the list of HTTP requests issued so far.
    - Built-ins of the JavaScript runtime whose result depends on Unicode
      tables or on the engine ([localeCompare], [toLowerCase], [JSON.parse],
      [JSON.stringify], [new URL]) are the fields of the class [Runtime].
    - [console.error]/[console.log] output and the ten second pause of
      [createNewHueUser] are not modelled.
    - The optional [customApiKey] argument of the resource clients is never
      passed by the service, so [getConfig] always returns the empty
      configuration and the argument is left out. *)

From Stdlib Require Import List String Ascii ZArith Bool Lia.
From Stdlib Require Import Sorted Permutation DecimalString.
Import ListNotations.
Open Scope string_scope.

(** ** JavaScript values *)

(** The values that [JSON.parse] can produce, request bodies, and
    [undefined].  A JS [number] is an integer here: the code only stores and
    forwards numbers. *)
#[warnings="-register-all"] Inductive JsValue : Type :=
| JsUndefined
| JsNull
| JsBool (b : bool)
| JsNumber (n : Z)
| JsString (s : string)
| JsArray (items : list JsValue)
| JsObject (props : list (string * JsValue)).

(** [ToBoolean]. *)
Definition truthy (v : JsValue) : bool :=
  match v with
  | JsUndefined | JsNull => false
  | JsBool b => b
  | JsNumber n => negb (n =? 0)%Z
  | JsString s => negb (s =? "")
  | JsArray _ | JsObject _ => true
  end.

(** Truthiness of a value of TypeScript type [string | undefined]. *)
Definition truthyStr (o : option string) : bool :=
  match o with
  | Some s => negb (s =? "")
  | None => false
  end.

Fixpoint lookupProp (key : string) (props : list (string * JsValue)) : JsValue :=
  match props with
  | [] => JsUndefined
  | (k, v) :: rest => if k =? key then v else lookupProp key rest
  end.

(** [v.key] for a key that is no built-in property of strings, arrays,
    numbers or booleans (the code reads [username], [clientKey]).
    [None] is the [TypeError] of reading a property of [null] or
    [undefined]. *)
Definition getProp (v : JsValue) (key : string) : option JsValue :=
  match v with
  | JsUndefined | JsNull => None
  | JsObject props => Some (lookupProp key props)
  | _ => Some JsUndefined
  end.

(** [`${n}`] for an integer. *)
Definition numberToString (n : Z) : string :=
  NilZero.string_of_int (Z.to_int n).

(** [`${s}`] for a value of type [string | undefined]. *)
Definition templateStr (o : option string) : string :=
  match o with
  | Some s => s
  | None => "undefined"
  end.

(** ** The runtime's built-ins *)

Class Runtime : Type := {
  (** [a.localeCompare(b)]: negative, zero or positive. *)
  localeCompare : string -> string -> Z;
  (** [s.toLowerCase()]. *)
  toLowerCase : string -> string;
  (** [JSON.parse(text)]; [None] is the [SyntaxError]. *)
  JSON_parse : string -> option JsValue;
  (** [JSON.stringify(value, null, 2)]. *)
  JSON_stringify : JsValue -> string;
  (** [new URL(text).hostname]; [None] is the [TypeError] of an invalid URL. *)
  URL_hostname : string -> option string
}.

(** [Array.prototype.sort(comparefn)].  ECMAScript requires a stable sort
    and fixes the result when [comparefn] is a consistent comparator; this is
    the stable insertion sort that yields it. *)
Section Sort.
Variable comparefn : string -> string -> Z.

Fixpoint sortInsert (x : string) (l : list string) : list string :=
  match l with
  | [] => [x]
  | y :: rest =>
      if (comparefn x y <=? 0)%Z then x :: y :: rest
      else y :: sortInsert x rest
  end.

Definition sort (l : list string) : list string :=
  fold_right sortInsert [] l.
End Sort.

(** ** Bridge resources, as far as the code reads them *)

Record Metadata : Type := mkMetadata {
  name : option string
}.

Record Service : Type := mkService {
  rtype : string;
  rid : option string
}.

(** An element of the [data] array of [/clip/v2/resource/{light,room}].
    The code types it [any]; [metadata], [metadata.name] and [services]
    may be missing. *)
Record Resource : Type := mkResource {
  id : string;
  metadata : option Metadata;
  services : option (list Service)
}.

(** [r.metadata?.name]. *)
Definition metadataName (r : Resource) : option string :=
  match metadata r with
  | Some m => name m
  | None => None
  end.

(** One element of the answer of the v1 registration endpoint. *)
Record RegistrationFailure : Type := mkRegistrationFailure {
  description : option string
}.

Record RegistrationSuccess : Type := mkRegistrationSuccess {
  success_username : option string
}.

Record RegistrationEntry : Type := mkRegistrationEntry {
  error : option RegistrationFailure;
  success : option RegistrationSuccess
}.

(** [interface HueCredentials]. *)
Record HueCredentials : Type := mkHueCredentials {
  username : string;
  clientKey : string
}.

(** The credentials as the JavaScript object they are at run time. *)
Definition credentialsObject (c : HueCredentials) : JsValue :=
  JsObject [("username", JsString (username c));
            ("clientKey", JsString (clientKey c))].

(** ** Errors *)

(** Every error of the code is an [Error] with a message; [HueApiError]
    adds the status and the body.  The other constructors record which
    [throw] raised the error, named after the error taxonomy of the
    specification; [FileError], [JsonSyntaxError] and [RuntimeTypeError] are
    the errors of [fs], [JSON.parse] and of reading a property of a nullish
    value. *)
Inductive HueError : Type :=
| NotFoundError (message : string)
| NoGroupedLightError (message : string)
| DiscoveryError (message : string)
| RegistrationError (message : string)
| ConfigurationError (message : string)
| HueApiError (message : string) (statusCode : Z) (response : JsValue)
| TransportError (message : string)
| FileError (message : string) (code : string)
| JsonSyntaxError (message : string)
| RuntimeTypeError (message : string).

Definition message (e : HueError) : string :=
  match e with
  | NotFoundError m | NoGroupedLightError m | DiscoveryError m
  | RegistrationError m | ConfigurationError m | HueApiError m _ _
  | TransportError m | FileError m _ | JsonSyntaxError m
  | RuntimeTypeError m => m
  end.

(** ** The world *)

Inductive Method : Type := GET | PUT | POST | DELETE.

Record Request : Type := mkRequest {
  method : Method;
  url : string;
  data : option JsValue;
  applicationKey : JsValue
}.

(** What axios reports for a request. *)
Inductive HttpOutcome (A : Type) : Type :=
| Http2xx (payload : A)
| HttpStatus (status : Z) (statusText : string) (body : JsValue)
| HttpNoResponse
| HttpSetupFailure (reason : string)
| HttpSilent.
Arguments Http2xx {A} payload.
Arguments HttpStatus {A} status statusText body.
Arguments HttpNoResponse {A}.
Arguments HttpSetupFailure {A} reason.
Arguments HttpSilent {A}.

(** The bridge answers by URL (and body). *)
Record Bridge : Type := mkBridge {
  getResponse : string -> HttpOutcome (list Resource);
  putResponse : string -> JsValue -> HttpOutcome JsValue;
  postResponse : string -> JsValue -> HttpOutcome (list RegistrationEntry)
}.

(** What the DNS-SD browser for [_hue._tcp] does first. *)
Inductive Discovery : Type :=
| ServiceUp (serviceName : string) (addresses : list string)
| BrowserError (reason : string)
| NoAnnouncement.

(** What [readFile] finds at a path: nothing, a directory, a file that
    may not be read (for instance a write-only one), or a readable file with
    its text. *)
Inductive FileState : Type :=
| Absent
| Directory
| Unreadable (reason : string)
| Content (text : string).

Record FileSystem : Type := mkFileSystem {
  files : string -> FileState;
  (** for a file path, the missing directories that
      [mkdir(path.dirname(path), { recursive: true })] creates, also when it
      then fails *)
  mkdirCreates : string -> list string;
  (** file paths whose directory [mkdir] cannot create *)
  mkdirFails : string -> bool;
  (** file paths at which [writeFile] fails *)
  writeFails : string -> bool;
  (** paths of devices such as [/dev/null], which take a write and keep
      nothing of it *)
  devices : string -> bool
}.

Record Env : Type := mkEnv {
  HUE_BRIDGE_IP : option string;
  HUE_USERNAME : option string;
  HUE_CLIENT_KEY : option string;
  HUE_CREDENTIALS_PATH : option string;
  (** [path.join(os.homedir(), '.hue-credentials.json')] *)
  homeCredentialsPath : string
}.

(** [class HueApiClient]: the axios instance it creates. *)
Record HueApiClient : Type := mkHueApiClient {
  baseUrl : string;
  apiKey : JsValue
}.

(** The fields of [class PhillipsHueService]. *)
Record PhillipsHueService : Type := mkPhillipsHueService {
  bridgeIp : option string;
  hueUsername : JsValue;
  hueClientKey : JsValue;
  apiClient : option HueApiClient
}.

Record World : Type := mkWorld {
  env : Env;
  this : PhillipsHueService;
  fs : FileSystem;
  mdns : Discovery;
  bridge : Bridge;
  (** requests handed to axios so far, oldest first *)
  trace : list Request
}.

Definition withThis (s : PhillipsHueService) (w : World) : World :=
  mkWorld (env w) s (fs w) (mdns w) (bridge w) (trace w).

Definition withFs (f : FileSystem) (w : World) : World :=
  mkWorld (env w) (this w) f (mdns w) (bridge w) (trace w).

Definition withRequest (r : Request) (w : World) : World :=
  mkWorld (env w) (this w) (fs w) (mdns w) (bridge w) (trace w ++ [r])%list.

(** ** Promises *)

Inductive Outcome (A : Type) : Type :=
| Resolved (value : A)
| Rejected (reason : HueError)
| Pending.
Arguments Resolved {A} value.
Arguments Rejected {A} reason.
Arguments Pending {A}.

Definition Async (A : Type) : Type := World -> Outcome A * World.

Definition ret {A} (a : A) : Async A := fun w => (Resolved a, w).

Definition throw {A} (e : HueError) : Async A := fun w => (Rejected e, w).

Definition bind {A B} (m : Async A) (k : A -> Async B) : Async B :=
  fun w =>
    match m w with
    | (Resolved a, w') => k a w'
    | (Rejected e, w') => (Rejected e, w')
    | (Pending, w') => (Pending, w')
    end.

Definition tryCatch {A} (m : Async A) (handler : HueError -> Async A) : Async A :=
  fun w =>
    match m w with
    | (Rejected e, w') => handler e w'
    | r => r
    end.

Definition gets {A} (f : World -> A) : Async A := fun w => (Resolved (f w), w).

Definition modify (f : World -> World) : Async unit := fun w => (Resolved tt, f w).

Declare Scope async_scope.
Delimit Scope async_scope with async.
Notation "x <- m ;; k" := (bind m (fun x => k))
  (at level 61, m at next level, right associativity) : async_scope.
Notation "m ;;; k" := (bind m (fun _ => k))
  (at level 61, right associativity) : async_scope.
Open Scope async_scope.

(** The requests a computation adds to the trace. *)
Definition issued {A} (m : Async A) (w : World) : list Request :=
  skipn (List.length (trace w)) (trace (snd (m w))).

Definition isUpdate (r : Request) : bool :=
  match method r with PUT => true | _ => false end.

Definition updateRequests {A} (m : Async A) (w : World) : list Request :=
  filter isUpdate (issued m w).

(** ** hue-api-client.ts *)

(** The response interceptor of the axios instance. *)
Definition interceptor {A} (o : HttpOutcome A) : Outcome A :=
  match o with
  | Http2xx payload => Resolved payload
  | HttpStatus status statusText body =>
      Rejected (HueApiError
                  ("Hue API Error: " ++ numberToString status ++ " " ++ statusText)
                  status body)
  | HttpNoResponse =>
      Rejected (TransportError "No response received from Hue Bridge")
  | HttpSetupFailure reason =>
      Rejected (TransportError ("Error setting up request: " ++ reason))
  | HttpSilent => Pending
  end.

(** [new HueApiClient({ bridgeIp, apiKey })]. *)
Definition newHueApiClient (ip : string) (key : JsValue) : HueApiClient :=
  mkHueApiClient ("https://" ++ ip ++ "/clip/v2") key.

Module Axios.
(** [axios.get(url)]; [target] is the URL after [baseURL] is applied. *)
Definition get (c : HueApiClient) (target : string) : Async (list Resource) :=
  fun w =>
    (interceptor (getResponse (bridge w) target),
     withRequest (mkRequest GET target None (apiKey c)) w).

Definition put (c : HueApiClient) (target : string) (body : JsValue)
  : Async JsValue :=
  fun w =>
    (interceptor (putResponse (bridge w) target body),
     withRequest (mkRequest PUT target (Some body) (apiKey c)) w).

Definition post (c : HueApiClient) (target : string) (body : JsValue)
  : Async (list RegistrationEntry) :=
  fun w =>
    (interceptor (postResponse (bridge w) target body),
     withRequest (mkRequest POST target (Some body) (apiKey c)) w).
End Axios.

(** [abstract class ResourceClient]: [getAll] and [update]. *)
Module ResourceClient.
Record t : Type := mk {
  axios : HueApiClient;
  endpoint : string
}.

Definition getAll (rc : t) : Async (list Resource) :=
  Axios.get (axios rc) (baseUrl (axios rc) ++ endpoint rc).

Definition update (rc : t) (resourceId : string) (body : JsValue)
  : Async JsValue :=
  Axios.put (axios rc)
    (baseUrl (axios rc) ++ endpoint rc ++ "/" ++ resourceId) body.
End ResourceClient.

Module LightClient.
Definition new (c : HueApiClient) : ResourceClient.t :=
  ResourceClient.mk c "/resource/light".

Definition turnOn (rc : ResourceClient.t) (lightId : string)
    (brightness : option Z) : Async JsValue :=
  let body := [("on", JsObject [("on", JsBool true)])] in
  let body :=
    match brightness with
    | Some b => (body ++ [("dimming", JsObject [("brightness", JsNumber b)])])%list
    | None => body
    end in
  ResourceClient.update rc lightId (JsObject body).

Definition turnOff (rc : ResourceClient.t) (lightId : string) : Async JsValue :=
  ResourceClient.update rc lightId
    (JsObject [("on", JsObject [("on", JsBool false)])]).
End LightClient.

Module RoomClient.
Definition new (c : HueApiClient) : ResourceClient.t :=
  ResourceClient.mk c "/resource/room".
End RoomClient.

Module GroupedLightClient.
Definition new (c : HueApiClient) : ResourceClient.t :=
  ResourceClient.mk c "/resource/grouped_light".

Definition turnOn (rc : ResourceClient.t) (groupId : string)
    (brightness : option Z) : Async JsValue :=
  let body := [("on", JsObject [("on", JsBool true)])] in
  let body :=
    match brightness with
    | Some b => (body ++ [("dimming", JsObject [("brightness", JsNumber b)])])%list
    | None => body
    end in
  ResourceClient.update rc groupId (JsObject body).

Definition turnOff (rc : ResourceClient.t) (groupId : string) : Async JsValue :=
  ResourceClient.update rc groupId
    (JsObject [("on", JsObject [("on", JsBool false)])]).
End GroupedLightClient.

(** [class UserClient extends BaseV1Client]. *)
Module UserClient.
Record t : Type := mk {
  axios : HueApiClient;
  v1BaseUrl : string
}.

(** The constructor of [BaseV1Client]; [baseURL] is never empty. *)
Definition new `{Runtime} (c : HueApiClient) : Async t :=
  match URL_hostname (baseUrl c) with
  | Some host => ret (mk c ("http://" ++ host ++ "/api"))
  | None => throw (RuntimeTypeError "Invalid URL")
  end.

Definition createUser (uc : t) (deviceType : string)
  : Async (list RegistrationEntry) :=
  Axios.post (axios uc) (v1BaseUrl uc)
    (JsObject [("devicetype", JsString deviceType)]).
End UserClient.

(** The getters [light], [room], [groupedLight] and [user] of [HueApiClient]. *)
Definition light (c : HueApiClient) : ResourceClient.t := LightClient.new c.
Definition room (c : HueApiClient) : ResourceClient.t := RoomClient.new c.
Definition groupedLight (c : HueApiClient) : ResourceClient.t :=
  GroupedLightClient.new c.
Definition user `{Runtime} (c : HueApiClient) : Async UserClient.t :=
  UserClient.new c.

(** ** hue-service.ts: file access *)

Module Fs.
(** [fs.readFile(path, 'utf-8')]. *)
Definition readFile (path : string) : Async string :=
  fun w =>
    match files (fs w) path with
    | Content text => (Resolved text, w)
    | Absent =>
        (Rejected (FileError "ENOENT: no such file or directory" "ENOENT"), w)
    | Directory =>
        (Rejected (FileError "EISDIR: illegal operation on a directory, read"
                     "EISDIR"), w)
    | Unreadable reason => (Rejected (FileError reason "EACCES"), w)
    end.

(** The file system after the directories [created] were made: a missing
    one is a directory now.  The file [path] itself is none of its parent
    directories. *)
Definition withDirectories (created : list string) (path : string)
    (f : FileSystem) : FileSystem :=
  mkFileSystem
    (fun p =>
       if existsb (String.eqb p) created && negb (p =? path) then
         match files f p with
         | Absent => Directory
         | state => state
         end
       else files f p)
    (mkdirCreates f) (mkdirFails f) (writeFails f) (devices f).

(** [fs.mkdir(path.dirname(path), { recursive: true })]: the missing
    parent directories are created, as far as it gets. *)
Definition mkdirParent (path : string) : Async unit :=
  fun w =>
    let w' := withFs (withDirectories (mkdirCreates (fs w) path) path (fs w)) w in
    if mkdirFails (fs w) path
    then (Rejected (FileError "EACCES: permission denied, mkdir" "EACCES"), w')
    else (Resolved tt, w').

(** [fs.writeFile(path, text, 'utf-8')].  A missing file is created and a
    regular file replaced; what can be read of a file that may not be read,
    or of a device, is as before. *)
Definition writeFile (path : string) (text : string) : Async unit :=
  fun w =>
    if writeFails (fs w) path
    then (Rejected (FileError "EACCES: permission denied, open" "EACCES"), w)
    else
      match files (fs w) path with
      | Directory =>
          (Rejected (FileError "EISDIR: illegal operation on a directory, open"
                       "EISDIR"), w)
      | Unreadable _ => (Resolved tt, w)
      | Absent | Content _ =>
          if devices (fs w) path then (Resolved tt, w)
          else
            (Resolved tt,
             withFs (mkFileSystem
                       (fun p => if p =? path then Content text
                                 else files (fs w) p)
                       (mkdirCreates (fs w)) (mkdirFails (fs w))
                       (writeFails (fs w)) (devices (fs w))) w)
      end.
End Fs.

(** ** hue-service.ts: [class PhillipsHueService] *)

Record ServiceArgs : Type := mkServiceArgs {
  argBridgeIp : string;
  argHueUsername : string;
  argHueClientKey : string
}.

Definition envValue (o : option string) : JsValue :=
  match o with
  | Some s => JsString s
  | None => JsUndefined
  end.

(** [constructor(args?)]. *)
Definition newPhillipsHueService (args : option ServiceArgs) (e : Env)
  : PhillipsHueService :=
  match args with
  | Some a =>
      mkPhillipsHueService (Some (argBridgeIp a)) (JsString (argHueUsername a))
        (JsString (argHueClientKey a)) None
  | None =>
      mkPhillipsHueService (HUE_BRIDGE_IP e) (envValue (HUE_USERNAME e))
        (envValue (HUE_CLIENT_KEY e)) None
  end.

Definition setBridgeIp (ip : option string) (w : World) : World :=
  withThis (mkPhillipsHueService ip (hueUsername (this w))
              (hueClientKey (this w)) (apiClient (this w))) w.

Definition setCredentials (u k : JsValue) (w : World) : World :=
  withThis (mkPhillipsHueService (bridgeIp (this w)) u k (apiClient (this w))) w.

Definition setApiClient (c : HueApiClient) (w : World) : World :=
  withThis (mkPhillipsHueService (bridgeIp (this w)) (hueUsername (this w))
              (hueClientKey (this w)) (Some c)) w.

Definition discoverBridge : Async (option string) :=
  ip <- gets (fun w => bridgeIp (this w)) ;;
  if truthyStr ip then ret ip
  else
    announcement <- gets mdns ;;
    match announcement with
    | ServiceUp _ addresses =>
        modify (setBridgeIp (nth_error addresses 0)) ;;;
        ret (nth_error addresses 0)
    | BrowserError reason =>
        throw (DiscoveryError ("Failed to discover bridge: " ++ reason))
    | NoAnnouncement => fun w => (Pending, w)
    end.

Definition createNewHueUser `{Runtime} : Async HueCredentials :=
  ip <- gets (fun w => bridgeIp (this w)) ;;
  (if truthyStr ip then ret ip else discoverBridge) ;;;
  ip <- gets (fun w => bridgeIp (this w)) ;;
  if negb (truthyStr ip) then
    throw (ConfigurationError "Cannot create credentials: Bridge IP not available")
  else
    tryCatch
      (let tempClient := newHueApiClient (templateStr ip) (JsString "") in
       userClient <- user tempClient ;;
       response <- UserClient.createUser userClient "hue-mcp-server#server" ;;
       match nth_error response 0 with
       | None =>
           throw (RuntimeTypeError
                    "Cannot read properties of undefined (reading 'error')")
       | Some entry =>
           match error entry with
           | Some failure =>
               throw (RegistrationError
                        ("Failed to create Hue user: "
                           ++ templateStr (description failure)))
           | None =>
               let registered :=
                 match success entry with
                 | Some s => success_username s
                 | None => None
                 end in
               if negb (truthyStr registered) then
                 throw (RegistrationError
                          "Failed to create Hue user: Unexpected response format")
               else
                 ret (mkHueCredentials (templateStr registered)
                                       (templateStr registered))
           end
       end)
      (fun e =>
         throw (RegistrationError ("Failed to create Hue user: " ++ message e))).

(** [process.env.HUE_CREDENTIALS_PATH || path.join(os.homedir(), ...)]. *)
Definition getCredentialsPath (e : Env) : string :=
  if truthyStr (HUE_CREDENTIALS_PATH e)
  then templateStr (HUE_CREDENTIALS_PATH e)
  else homeCredentialsPath e.

(** [property v key]: [v.key], raising the [TypeError] of a nullish [v]. *)
Definition property (v : JsValue) (key : string) : Async JsValue :=
  match getProp v key with
  | Some x => ret x
  | None =>
      throw (RuntimeTypeError
               ("Cannot read properties of null (reading '" ++ key ++ "')"))
  end.

Definition readCredentialsFromFile `{Runtime} : Async (option JsValue) :=
  credentialsPath <- gets (fun w => getCredentialsPath (env w)) ;;
  tryCatch
    (fileContent <- Fs.readFile credentialsPath ;;
     credentials <-
       match JSON_parse fileContent with
       | Some v => ret v
       | None => throw (JsonSyntaxError "Unexpected token in JSON")
       end ;;
     u <- property credentials "username" ;;
     if truthy u then
       k <- property credentials "clientKey" ;;
       if truthy k then ret (Some credentials) else ret None
     else ret None)
    (fun _ => ret None).

Definition saveCredentialsToFile `{Runtime} (credentials : HueCredentials)
  : Async unit :=
  credentialsPath <- gets (fun w => getCredentialsPath (env w)) ;;
  tryCatch
    (Fs.mkdirParent credentialsPath ;;;
     Fs.writeFile credentialsPath (JSON_stringify (credentialsObject credentials)))
    (fun _ => ret tt).

Definition getHueCredentials `{Runtime} : Async JsValue :=
  existingCredentials <- readCredentialsFromFile ;;
  match existingCredentials with
  | Some c => ret c
  | None =>
      newCredentials <- createNewHueUser ;;
      saveCredentialsToFile newCredentials ;;;
      ret (credentialsObject newCredentials)
  end.

Definition getApiClient `{Runtime} : Async HueApiClient :=
  cached <- gets (fun w => apiClient (this w)) ;;
  match cached with
  | Some c => ret c
  | None =>
      ip <- gets (fun w => bridgeIp (this w)) ;;
      (if negb (truthyStr ip) then discoverBridge else ret ip) ;;;
      s <- gets this ;;
      (if negb (truthy (hueUsername s)) || negb (truthy (hueClientKey s)) then
         credentials <- getHueCredentials ;;
         u <- property credentials "username" ;;
         k <- property credentials "clientKey" ;;
         modify (setCredentials u k)
       else ret tt) ;;;
      s <- gets this ;;
      if negb (truthyStr (bridgeIp s)) || negb (truthy (hueClientKey s)) then
        throw (ConfigurationError
                 "Bridge IP or API key not available. Please ensure they are provided.")
      else
        let c := newHueApiClient (templateStr (bridgeIp s)) (hueClientKey s) in
        modify (setApiClient c) ;;;
        ret c
  end.

(** [=== lightName] on a value of type [string | undefined]. *)
Definition strictEquals (o : option string) (s : string) : bool :=
  match o with
  | Some n => n =? s
  | None => false
  end.

Definition findLightByName `{Runtime} (lightName : string) : Async Resource :=
  client <- getApiClient ;;
  lights <- ResourceClient.getAll (light client) ;;
  match find (fun l => strictEquals (metadataName l) lightName) lights with
  | None =>
      throw (NotFoundError ("Light with name '" ++ lightName ++ "' not found"))
  | Some l => ret l
  end.

(** A default parameter [brightness = 100]. *)
Definition orDefault (brightness : option Z) : Z :=
  match brightness with
  | Some b => b
  | None => 100%Z
  end.

Definition turnLightOn `{Runtime} (lightName : string) (brightness : option Z)
  : Async unit :=
  let brightness := orDefault brightness in
  l <- findLightByName lightName ;;
  client <- getApiClient ;;
  LightClient.turnOn (light client) (id l) (Some brightness) ;;;
  ret tt.

Definition turnLightOff `{Runtime} (lightName : string) : Async unit :=
  l <- findLightByName lightName ;;
  client <- getApiClient ;;
  LightClient.turnOff (light client) (id l) ;;;
  ret tt.

(** [r.metadata?.name || `${kind} ${r.id}`]. *)
Definition nameOrDefault (kind : string) (r : Resource) : string :=
  if truthyStr (metadataName r) then templateStr (metadataName r)
  else kind ++ " " ++ id r.

Definition listAllLights `{Runtime} : Async (list string) :=
  client <- getApiClient ;;
  lights <- ResourceClient.getAll (light client) ;;
  ret (sort localeCompare (map (nameOrDefault "Light") lights)).

Definition findRoomByName `{Runtime} (roomName : string) : Async Resource :=
  client <- getApiClient ;;
  rooms <- ResourceClient.getAll (room client) ;;
  match find (fun r => strictEquals (option_map toLowerCase (metadataName r))
                         (toLowerCase roomName)) rooms with
  | None =>
      throw (NotFoundError ("Room with name '" ++ roomName ++ "' not found"))
  | Some r => ret r
  end.

(** [room.services?.find((service) => service.rtype === 'grouped_light')]. *)
Definition findGroupedLightService (r : Resource) : option Service :=
  match services r with
  | Some l => find (fun service => rtype service =? "grouped_light") l
  | None => None
  end.

(** [groupedLightService?.rid]. *)
Definition groupedLightRid (service : option Service) : option string :=
  match service with
  | Some s => rid s
  | None => None
  end.

Definition turnOnRoomLights `{Runtime} (roomName : string) (brightness : option Z)
  : Async unit :=
  let brightness := orDefault brightness in
  r <- findRoomByName roomName ;;
  client <- getApiClient ;;
  let groupedLightService := findGroupedLightService r in
  if negb (truthyStr (groupedLightRid groupedLightService)) then
    throw (NoGroupedLightError
             ("No grouped light service found for room '" ++ roomName ++ "'"))
  else
    GroupedLightClient.turnOn (groupedLight client)
      (templateStr (groupedLightRid groupedLightService)) (Some brightness) ;;;
    ret tt.

Definition turnOffRoomLights `{Runtime} (roomName : string) : Async unit :=
  r <- findRoomByName roomName ;;
  client <- getApiClient ;;
  let groupedLightService := findGroupedLightService r in
  if negb (truthyStr (groupedLightRid groupedLightService)) then
    throw (NoGroupedLightError
             ("No grouped light service found for room '" ++ roomName ++ "'"))
  else
    GroupedLightClient.turnOff (groupedLight client)
      (templateStr (groupedLightRid groupedLightService)) ;;;
    ret tt.

Definition listAllRooms `{Runtime} : Async (list string) :=
  client <- getApiClient ;;
  rooms <- ResourceClient.getAll (room client) ;;
  ret (sort localeCompare (map (nameOrDefault "Room") rooms)).

(** ** index.ts: the tools *)

Record ContentItem : Type := mkContentItem {
  contentType : string;
  text : string
}.

Record ToolResult : Type := mkToolResult {
  content : list ContentItem
}.

(** [{ content: [{ type: 'text', text: s }] }]. *)
Definition textResult (s : string) : ToolResult :=
  mkToolResult [mkContentItem "text" s].

Module Tools.
Definition turnLightOn `{Runtime} (name : string) : Async ToolResult :=
  tryCatch
    (turnLightOn name None ;;;
     ret (textResult ("Successfully turned on light: " ++ name)))
    (fun e => ret (textResult ("Failed to turn on light: " ++ message e))).

Definition turnLightOff `{Runtime} (name : string) : Async ToolResult :=
  tryCatch
    (turnLightOff name ;;;
     ret (textResult ("Successfully turned on light: " ++ name)))
    (fun e => ret (textResult ("Failed to turn off light: " ++ message e))).

Definition listAllLights `{Runtime} : Async ToolResult :=
  tryCatch
    (lights <- listAllLights ;;
     ret (textResult ("The available lights are: " ++ String.concat ", " lights)))
    (fun e => ret (textResult ("Failed to list lights: " ++ message e))).

Definition listAllRooms `{Runtime} : Async ToolResult :=
  tryCatch
    (rooms <- listAllRooms ;;
     ret (textResult ("The available rooms are: " ++ String.concat ", " rooms)))
    (fun e => ret (textResult ("Failed to list rooms: " ++ message e))).

Definition turnRoomLightsOn `{Runtime} (name : string) (brightness : option Z)
  : Async ToolResult :=
  tryCatch
    (turnOnRoomLights name brightness ;;;
     ret (textResult ("Successfully turned on all lights in room: " ++ name)))
    (fun e => ret (textResult ("Failed to turn on room lights: " ++ message e))).

Definition turnRoomLightsOff `{Runtime} (name : string) : Async ToolResult :=
  tryCatch
    (turnOffRoomLights name ;;;
     ret (textResult ("Successfully turned off all lights in room: " ++ name)))
    (fun e => ret (textResult ("Failed to turn off room lights: " ++ message e))).
End Tools.

(** ** A reference runtime

    A small, executable instance of [Runtime] for strings of code units
    below 256: comparison by code unit, ASCII lower-casing, a JSON printer
    and parser for the values above, and host extraction for
    [https://host/...] URLs.  The theorems below hold for every runtime;
    this one runs them on concrete inputs. *)
Module Reference.
Fixpoint compareCodeUnits (a b : string) : Z :=
  match a, b with
  | EmptyString, EmptyString => 0%Z
  | EmptyString, String _ _ => (-1)%Z
  | String _ _, EmptyString => 1%Z
  | String x a', String y b' =>
      if (N_of_ascii x =? N_of_ascii y)%N then compareCodeUnits a' b'
      else if (N_of_ascii x <? N_of_ascii y)%N then (-1)%Z else 1%Z
  end.

Definition lowerAscii (c : ascii) : ascii :=
  let n := N_of_ascii c in
  if ((65 <=? n) && (n <=? 90))%N then ascii_of_N (n + 32) else c.

Fixpoint lower (s : string) : string :=
  match s with
  | EmptyString => EmptyString
  | String c rest => String (lowerAscii c) (lower rest)
  end.

Definition newline : string := String (ascii_of_N 10) EmptyString.
Definition quoteChar : ascii := ascii_of_N 34.
Definition backslash : ascii := ascii_of_N 92.

Definition hexDigit (n : N) : ascii :=
  if (n <? 10)%N then ascii_of_N (48 + n) else ascii_of_N (87 + n).

(** [QuoteJSONString], one code unit. *)
Definition escapeChar (c : ascii) : string :=
  let n := N_of_ascii c in
  if (n =? 34)%N then String backslash (String quoteChar EmptyString)
  else if (n =? 92)%N then String backslash (String backslash EmptyString)
  else if (n =? 8)%N then String backslash "b"
  else if (n =? 12)%N then String backslash "f"
  else if (n =? 10)%N then String backslash "n"
  else if (n =? 13)%N then String backslash "r"
  else if (n =? 9)%N then String backslash "t"
  else if (n <? 32)%N then
    String backslash
      ("u00" ++ String (hexDigit (n / 16)) (String (hexDigit (n mod 16)) EmptyString))
  else String c EmptyString.

Fixpoint escape (s : string) : string :=
  match s with
  | EmptyString => EmptyString
  | String c rest => escapeChar c ++ escape rest
  end.

Definition quote (s : string) : string :=
  String quoteChar (escape s ++ String quoteChar EmptyString).

Fixpoint stringifyAt (indent : string) (v : JsValue) : string :=
  let inner := indent ++ "  " in
  match v with
  | JsUndefined | JsNull => "null"
  | JsBool true => "true"
  | JsBool false => "false"
  | JsNumber n => numberToString n
  | JsString s => quote s
  | JsArray items =>
      let fix elements (l : list JsValue) : list string :=
        match l with
        | [] => []
        | x :: rest => (inner ++ stringifyAt inner x) :: elements rest
        end in
      match elements items with
      | [] => "[]"
      | es => "[" ++ newline ++ String.concat ("," ++ newline) es
                  ++ newline ++ indent ++ "]"
      end
  | JsObject props =>
      let fix members (l : list (string * JsValue)) : list string :=
        match l with
        | [] => []
        | (k, JsUndefined) :: rest => members rest
        | (k, x) :: rest =>
            (inner ++ quote k ++ ": " ++ stringifyAt inner x) :: members rest
        end in
      match members props with
      | [] => "{}"
      | ms => "{" ++ newline ++ String.concat ("," ++ newline) ms
                  ++ newline ++ indent ++ "}"
      end
  end.

Definition stringify (v : JsValue) : string := stringifyAt "" v.

Definition isWhitespace (c : ascii) : bool :=
  let n := N_of_ascii c in
  ((n =? 32) || (n =? 10) || (n =? 13) || (n =? 9))%N.

Fixpoint skipWhitespace (s : string) : string :=
  match s with
  | String c rest => if isWhitespace c then skipWhitespace rest else s
  | EmptyString => EmptyString
  end.

Definition hexValue (c : ascii) : option N :=
  let n := N_of_ascii c in
  if ((48 <=? n) && (n <=? 57))%N then Some (n - 48)%N
  else if ((97 <=? n) && (n <=? 102))%N then Some (n - 87)%N
  else if ((65 <=? n) && (n <=? 70))%N then Some (n - 55)%N
  else None.

Definition unescape (c : ascii) : option ascii :=
  let n := N_of_ascii c in
  if (n =? 34)%N then Some quoteChar
  else if (n =? 92)%N then Some backslash
  else if (n =? 47)%N then Some (ascii_of_N 47)
  else if (n =? 98)%N then Some (ascii_of_N 8)
  else if (n =? 102)%N then Some (ascii_of_N 12)
  else if (n =? 110)%N then Some (ascii_of_N 10)
  else if (n =? 114)%N then Some (ascii_of_N 13)
  else if (n =? 116)%N then Some (ascii_of_N 9)
  else None.

Definition consChar (c : ascii) (r : option (string * string))
  : option (string * string) :=
  match r with
  | Some (body, rest) => Some (String c body, rest)
  | None => None
  end.

(** The characters after an opening quote, up to the closing one. *)
Fixpoint parseStringBody (s : string) : option (string * string) :=
  match s with
  | EmptyString => None
  | String c rest =>
      if (N_of_ascii c =? 34)%N then Some (EmptyString, rest)
      else if (N_of_ascii c =? 92)%N then
        match rest with
        | String e rest' =>
            if (N_of_ascii e =? 117)%N then
              match rest' with
              | String h1 (String h2 (String h3 (String h4 rest''))) =>
                  match hexValue h1, hexValue h2, hexValue h3, hexValue h4 with
                  | Some 0%N, Some 0%N, Some d3, Some d4 =>
                      consChar (ascii_of_N (16 * d3 + d4)) (parseStringBody rest'')
                  | _, _, _, _ => None
                  end
              | _ => None
              end
            else
              match unescape e with
              | Some x => consChar x (parseStringBody rest')
              | None => None
              end
        | EmptyString => None
        end
      else if (N_of_ascii c <? 32)%N then None
      else consChar c (parseStringBody rest)
  end.

Definition isDigit (c : ascii) : bool :=
  let n := N_of_ascii c in ((48 <=? n) && (n <=? 57))%N.

Fixpoint parseDigits (acc : Z) (s : string) : Z * string :=
  match s with
  | String c rest =>
      if isDigit c
      then parseDigits (10 * acc + Z.of_N (N_of_ascii c - 48)) rest
      else (acc, s)
  | EmptyString => (acc, EmptyString)
  end.

Definition stripPrefix (prefix s : string) : option string :=
  if String.prefix prefix s
  then Some (substring (String.length prefix)
               (String.length s - String.length prefix) s)
  else None.

Fixpoint parseValue (fuel : nat) (s : string) : option (JsValue * string) :=
  match fuel with
  | O => None
  | S fuel' =>
      match skipWhitespace s with
      | EmptyString => None
      | String c rest =>
          let n := N_of_ascii c in
          if (n =? 34)%N then
            match parseStringBody rest with
            | Some (body, rest') => Some (JsString body, rest')
            | None => None
            end
          else if (n =? 91)%N then
            match skipWhitespace rest with
            | String c' rest' =>
                if (N_of_ascii c' =? 93)%N then Some (JsArray [], rest')
                else
                  match parseElements fuel' rest with
                  | Some (items, rest'') => Some (JsArray items, rest'')
                  | None => None
                  end
            | EmptyString => None
            end
          else if (n =? 123)%N then
            match skipWhitespace rest with
            | String c' rest' =>
                if (N_of_ascii c' =? 125)%N then Some (JsObject [], rest')
                else
                  match parseMembers fuel' rest with
                  | Some (props, rest'') => Some (JsObject props, rest'')
                  | None => None
                  end
            | EmptyString => None
            end
          else if (n =? 45)%N then
            match rest with
            | String d _ =>
                if isDigit d
                then let (v, rest') := parseDigits 0 rest in
                     Some (JsNumber (- v), rest')
                else None
            | EmptyString => None
            end
          else if isDigit c then
            let (v, rest') := parseDigits 0 (String c rest) in
            Some (JsNumber v, rest')
          else
            match stripPrefix "null" (String c rest),
                  stripPrefix "true" (String c rest),
                  stripPrefix "false" (String c rest) with
            | Some rest', _, _ => Some (JsNull, rest')
            | _, Some rest', _ => Some (JsBool true, rest')
            | _, _, Some rest' => Some (JsBool false, rest')
            | _, _, _ => None
            end
      end
  end
with parseElements (fuel : nat) (s : string) : option (list JsValue * string) :=
  match fuel with
  | O => None
  | S fuel' =>
      match parseValue fuel' s with
      | Some (v, rest) =>
          match skipWhitespace rest with
          | String c rest' =>
              if (N_of_ascii c =? 44)%N then
                match parseElements fuel' rest' with
                | Some (vs, rest'') => Some (v :: vs, rest'')
                | None => None
                end
              else if (N_of_ascii c =? 93)%N then Some ([v], rest')
              else None
          | EmptyString => None
          end
      | None => None
      end
  end
with parseMembers (fuel : nat) (s : string)
  : option (list (string * JsValue) * string) :=
  match fuel with
  | O => None
  | S fuel' =>
      match skipWhitespace s with
      | String q afterQuote =>
          if (N_of_ascii q =? 34)%N then
            match parseStringBody afterQuote with
            | Some (key, afterKey) =>
                match skipWhitespace afterKey with
                | String colon afterColon =>
                    if (N_of_ascii colon =? 58)%N then
                      match parseValue fuel' afterColon with
                      | Some (v, rest) =>
                          match skipWhitespace rest with
                          | String c rest' =>
                              if (N_of_ascii c =? 44)%N then
                                match parseMembers fuel' rest' with
                                | Some (ps, rest'') => Some ((key, v) :: ps, rest'')
                                | None => None
                                end
                              else if (N_of_ascii c =? 125)%N
                                   then Some ([(key, v)], rest')
                                   else None
                          | EmptyString => None
                          end
                      | None => None
                      end
                    else None
                | EmptyString => None
                end
            | None => None
            end
          else None
      | EmptyString => None
      end
  end.

Definition parse (s : string) : option JsValue :=
  match parseValue (2 * String.length s + 2) s with
  | Some (v, rest) =>
      match skipWhitespace rest with
      | EmptyString => Some v
      | String _ _ => None
      end
  | None => None
  end.

Fixpoint hostPart (s : string) : string :=
  match s with
  | EmptyString => EmptyString
  | String c rest =>
      if ((N_of_ascii c =? 47) || (N_of_ascii c =? 58))%N then EmptyString
      else String c (hostPart rest)
  end.

Definition hostname (u : string) : option string :=
  match stripPrefix "https://" u with
  | Some rest =>
      match hostPart rest with
      | EmptyString => None
      | host => Some host
      end
  | None => None
  end.

(** The text that [stringify] prints for credentials. *)
Definition credentialsText (u k : string) : string :=
  "{" ++ newline ++ "  " ++ String quoteChar "username"
      ++ String quoteChar ": "
      ++ String quoteChar
           (escape u
              ++ String quoteChar
                   ("," ++ newline ++ "  "
                        ++ String quoteChar "clientKey"
                        ++ String quoteChar ": "
                        ++ String quoteChar
                             (escape k ++ String quoteChar (newline ++ "}")))).

Definition runtime : Runtime := {|
  localeCompare := compareCodeUnits;
  toLowerCase := lower;
  JSON_parse := parse;
  JSON_stringify := stringify;
  URL_hostname := hostname
|}.
End Reference.

(** The first two statements of [findLightByName] and [listAllLights]
    (respectively [findRoomByName] and [listAllRooms]): the list the bridge
    returns. *)
Definition fetchLights `{Runtime} : Async (list Resource) :=
  client <- getApiClient ;;
  ResourceClient.getAll (light client).

Definition fetchRooms `{Runtime} : Async (list Resource) :=
  client <- getApiClient ;;
  ResourceClient.getAll (room client).

(** A computation that only appends to the trace, and no update request. *)
Definition Quiet {A} (m : Async A) : Prop :=
  forall w, exists t,
    trace (snd (m w)) = (trace w ++ t)%list /\ filter isUpdate t = [].

(** ascending in the order of the comparator *)
Definition ascending `{Runtime} (a b : string) : Prop :=
  (localeCompare a b <= 0)%Z.

(** ** A concrete installation

    A bridge at 192.168.1.2 with three lights (one without a display name)
    and two rooms (one without a grouped light), seen by a process that
    starts without credentials ([firstStart]) and by one that was given
    them ([configured]). *)
Module Home.
Definition kitchen : Resource :=
  mkResource "light-1" (Some (mkMetadata (Some "Kitchen"))) None.
Definition unnamed : Resource := mkResource "light-2" None None.
Definition desk : Resource :=
  mkResource "light-3" (Some (mkMetadata (Some "Desk"))) None.

Definition office : Resource :=
  mkResource "room-1" (Some (mkMetadata (Some "Office")))
    (Some [mkService "device" (Some "device-1")]).
Definition living : Resource :=
  mkResource "room-2" (Some (mkMetadata (Some "Living Room")))
    (Some [mkService "device" (Some "device-2");
           mkService "grouped_light" (Some "group-2")]).

Definition hueBridge : Bridge := {|
  getResponse := fun target =>
    if target =? "https://192.168.1.2/clip/v2/resource/light"
    then Http2xx [kitchen; unnamed; desk]
    else if target =? "https://192.168.1.2/clip/v2/resource/room"
    then Http2xx [office; living]
    else HttpStatus 404 "Not Found" JsNull;
  putResponse := fun _ _ => Http2xx (JsObject [("data", JsArray [])]);
  postResponse := fun _ _ =>
    Http2xx [mkRegistrationEntry None
               (Some (mkRegistrationSuccess (Some "user-83b7780291a6")))]
|}.

Definition emptyEnv : Env :=
  mkEnv None None None None "/home/hue/.hue-credentials.json".

(** The directories of a home directory [/home/hue], and no files. *)
Definition homeDirectories (p : string) : FileState :=
  if (p =? "/") || (p =? "/home") || (p =? "/home/hue") then Directory
  else Absent.

Definition emptyDisk : FileSystem :=
  mkFileSystem homeDirectories (fun _ => []) (fun _ => false) (fun _ => false)
    (fun _ => false).

Definition firstStart : World := {|
  env := emptyEnv;
  this := newPhillipsHueService None emptyEnv;
  fs := emptyDisk;
  mdns := ServiceUp "Hue Bridge" ["192.168.1.2"];
  bridge := hueBridge;
  trace := []
|}.

Definition configured : World := {|
  env := emptyEnv;
  this := newPhillipsHueService
            (Some (mkServiceArgs "192.168.1.2" "user-1" "key-1")) emptyEnv;
  fs := emptyDisk;
  mdns := NoAnnouncement;
  bridge := hueBridge;
  trace := []
|}.
(** The same process with a credentials file that is no JSON. *)
Definition garbled : World := {|
  env := emptyEnv;
  this := newPhillipsHueService None emptyEnv;
  fs := mkFileSystem
          (fun p => if p =? "/home/hue/.hue-credentials.json"
                    then Content "{username: oops" else homeDirectories p)
          (fun _ => []) (fun _ => false) (fun _ => false) (fun _ => false);
  mdns := ServiceUp "Hue Bridge" ["192.168.1.2"];
  bridge := hueBridge;
  trace := []
|}.

(** A process whose home directory cannot be written. *)
Definition readOnlyHome : World := {|
  env := emptyEnv;
  this := newPhillipsHueService None emptyEnv;
  fs := mkFileSystem homeDirectories (fun _ => []) (fun _ => false)
          (fun _ => true) (fun _ => false);
  mdns := ServiceUp "Hue Bridge" ["192.168.1.2"];
  bridge := hueBridge;
  trace := []
|}.
End Home.

(** ** hue-api-client.ts: operations the service does not call

    These take the optional [customApiKey].  [getConfig] returns no headers
    for a missing or empty key, so the request then carries the key of the
    axios instance. *)
Module Api.
(** The [hue-application-key] header that a request made with
    [getConfig(customApiKey)] carries. *)
Definition getConfig (c : HueApiClient) (customApiKey : option string) : JsValue :=
  if negb (truthyStr customApiKey) then apiKey c
  else JsString (templateStr customApiKey).

Definition get (c : HueApiClient) (customApiKey : option string) (target : string)
  : Async (list Resource) :=
  fun w =>
    (interceptor (getResponse (bridge w) target),
     withRequest (mkRequest GET target None (getConfig c customApiKey)) w).

Definition put (c : HueApiClient) (customApiKey : option string) (target : string)
    (body : JsValue) : Async JsValue :=
  fun w =>
    (interceptor (putResponse (bridge w) target body),
     withRequest (mkRequest PUT target (Some body) (getConfig c customApiKey)) w).

(** [ResourceClient.getById]: [response.data.data[0]], [undefined] for an
    empty [data] array. *)
Definition getById (rc : ResourceClient.t) (resourceId : string)
    (customApiKey : option string) : Async (option Resource) :=
  l <- get (ResourceClient.axios rc) customApiKey
         (baseUrl (ResourceClient.axios rc) ++ ResourceClient.endpoint rc
            ++ "/" ++ resourceId) ;;
  ret (nth_error l 0).

(** [ResourceClient.update] with its optional key. *)
Definition update (rc : ResourceClient.t) (resourceId : string) (body : JsValue)
    (customApiKey : option string) : Async JsValue :=
  put (ResourceClient.axios rc) customApiKey
    (baseUrl (ResourceClient.axios rc) ++ ResourceClient.endpoint rc
       ++ "/" ++ resourceId) body.

(** [RoomClient.getLights]. *)
Definition getLights (rc : ResourceClient.t) (roomId : string)
    (customApiKey : option string) : Async (list Service) :=
  found <- getById rc roomId customApiKey ;;
  match found with
  | None =>
      throw (RuntimeTypeError
               "Cannot read properties of undefined (reading 'services')")
  | Some r =>
      match services r with
      | None =>
          throw (RuntimeTypeError
                   "Cannot read properties of undefined (reading 'filter')")
      | Some l => ret (filter (fun service => rtype service =? "light") l)
      end
  end.

(** The [options] of [LightClient.setColor]. *)
Record ColorOptions : Type := mkColorOptions {
  xy : option (Z * Z);
  hue : option Z;
  saturation : option Z
}.

(** [LightClient.setColor]. *)
Definition setColor (rc : ResourceClient.t) (lightId : string)
    (options : ColorOptions) (customApiKey : option string) : Async JsValue :=
  let body :=
    match xy options with
    | Some (x, y) =>
        [("color", JsObject [("xy", JsObject [("x", JsNumber x); ("y", JsNumber y)])])]
    | None =>
        match hue options, saturation options with
        | Some h, Some s =>
            [("color", JsObject [("hue", JsNumber h); ("saturation", JsNumber s)])]
        | _, _ => []
        end
    end in
  update rc lightId (JsObject body) customApiKey.
End Api.

(** How an update ends for the caller. *)
Definition settle (o : Outcome JsValue) : Outcome unit :=
  match o with
  | Resolved _ => Resolved tt
  | Rejected e => Rejected e
  | Pending => Pending
  end.

(** ** Further installations *)
Module Cases.
(** No address configured and nothing announced on the network. *)
Definition silentNetwork : World := {|
  env := Home.emptyEnv;
  this := newPhillipsHueService None Home.emptyEnv;
  fs := Home.emptyDisk;
  mdns := NoAnnouncement;
  bridge := Home.hueBridge;
  trace := []
|}.

(** No address configured and a failing DNS-SD browser. *)
Definition brokenBrowser : World := {|
  env := Home.emptyEnv;
  this := newPhillipsHueService None Home.emptyEnv;
  fs := Home.emptyDisk;
  mdns := BrowserError "socket closed";
  bridge := Home.hueBridge;
  trace := []
|}.

(** A bridge whose link button was not pressed and that refuses updates. *)
Definition lockedBridge : Bridge := {|
  getResponse := getResponse Home.hueBridge;
  putResponse := fun _ _ => HttpStatus 503 "Service Unavailable" JsNull;
  postResponse := fun _ _ =>
    Http2xx [mkRegistrationEntry
               (Some (mkRegistrationFailure (Some "link button not pressed")))
               None]
|}.

Definition locked : World := {|
  env := Home.emptyEnv;
  this := newPhillipsHueService
            (Some (mkServiceArgs "192.168.1.2" "user-1" "key-1")) Home.emptyEnv;
  fs := Home.emptyDisk;
  mdns := NoAnnouncement;
  bridge := lockedBridge;
  trace := []
|}.

(** Only [HUE_BRIDGE_IP] and [HUE_USERNAME] are set, and a credentials
    file from an earlier start is on disk. *)
Definition usernameOnlyEnv : Env :=
  mkEnv (Some "192.168.1.2") (Some "user-from-env") None None
    "/home/hue/.hue-credentials.json".

Definition savedText : string :=
  Reference.stringify (credentialsObject (mkHueCredentials "user-9" "key-9")).

Definition secondStart : World := {|
  env := usernameOnlyEnv;
  this := newPhillipsHueService None usernameOnlyEnv;
  fs := mkFileSystem
          (fun p => if p =? "/home/hue/.hue-credentials.json"
                    then Content savedText else Home.homeDirectories p)
          (fun _ => []) (fun _ => false) (fun _ => false) (fun _ => false);
  mdns := NoAnnouncement;
  bridge := Home.hueBridge;
  trace := []
|}.

(** A bridge that lists the lights in another order and a room whose
    grouped light has no id. *)
Definition hall : Resource :=
  mkResource "room-3" (Some (mkMetadata (Some "Hall")))
    (Some [mkService "light" (Some "light-1");
           mkService "grouped_light" None;
           mkService "light" (Some "light-3")]).
Definition attic : Resource :=
  mkResource "room-4" (Some (mkMetadata (Some "Attic"))) None.

Definition otherBridge : Bridge := {|
  getResponse := fun target =>
    if target =? "https://192.168.1.2/clip/v2/resource/light"
    then Http2xx [Home.desk; Home.kitchen; Home.unnamed]
    else if target =? "https://192.168.1.2/clip/v2/resource/room"
    then Http2xx [hall; attic; Home.living]
    else if target =? "https://192.168.1.2/clip/v2/resource/room/room-3"
    then Http2xx [hall]
    else if target =? "https://192.168.1.2/clip/v2/resource/room/room-4"
    then Http2xx [attic]
    else Http2xx [];
  putResponse := putResponse Home.hueBridge;
  postResponse := postResponse Home.hueBridge
|}.

Definition reordered : World := {|
  env := Home.emptyEnv;
  this := newPhillipsHueService
            (Some (mkServiceArgs "192.168.1.2" "user-1" "key-1")) Home.emptyEnv;
  fs := Home.emptyDisk;
  mdns := NoAnnouncement;
  bridge := otherBridge;
  trace := []
|}.

(** Credentials come from the environment, the address from the network. *)
Definition keysOnlyEnv : Env :=
  mkEnv None (Some "user-1") (Some "key-1") None "/home/hue/.hue-credentials.json".

Definition announced : World := {|
  env := keysOnlyEnv;
  this := newPhillipsHueService None keysOnlyEnv;
  fs := Home.emptyDisk;
  mdns := ServiceUp "Hue Bridge" ["192.168.1.2"; "fe80::217:88ff:fe01:2"];
  bridge := Home.hueBridge;
  trace := []
|}.

(** A credentials file that may be written but not read. *)
Definition writeOnlyFile : World := {|
  env := Home.emptyEnv;
  this := newPhillipsHueService None Home.emptyEnv;
  fs := mkFileSystem
          (fun p => if p =? "/home/hue/.hue-credentials.json"
                    then Unreadable "EACCES: permission denied, open"
                    else Home.homeDirectories p)
          (fun _ => []) (fun _ => false) (fun _ => false) (fun _ => false);
  mdns := ServiceUp "Hue Bridge" ["192.168.1.2"];
  bridge := Home.hueBridge;
  trace := []
|}.

(** [HUE_CREDENTIALS_PATH=/dev/null]. *)
Definition nullDeviceEnv : Env :=
  mkEnv None None None (Some "/dev/null") "/home/hue/.hue-credentials.json".

Definition nullDevice : World := {|
  env := nullDeviceEnv;
  this := newPhillipsHueService None nullDeviceEnv;
  fs := mkFileSystem
          (fun p => if p =? "/dev/null" then Content ""
                    else if p =? "/dev" then Directory
                    else Home.homeDirectories p)
          (fun _ => []) (fun _ => false) (fun _ => false)
          (fun p => p =? "/dev/null");
  mdns := ServiceUp "Hue Bridge" ["192.168.1.2"];
  bridge := Home.hueBridge;
  trace := []
|}.

(** [HUE_CREDENTIALS_PATH] points below directories that do not exist yet;
    on [fullDisk] they can be made but the file cannot be written. *)
Definition statePathEnv : Env :=
  mkEnv None None None (Some "/srv/hue/state/credentials.json")
    "/home/hue/.hue-credentials.json".

Definition freshPath : World := {|
  env := statePathEnv;
  this := newPhillipsHueService None statePathEnv;
  fs := mkFileSystem
          (fun p => if (p =? "/") || (p =? "/srv") then Directory else Absent)
          (fun p => if p =? "/srv/hue/state/credentials.json"
                    then ["/srv/hue"; "/srv/hue/state"] else [])
          (fun _ => false) (fun _ => false) (fun _ => false);
  mdns := ServiceUp "Hue Bridge" ["192.168.1.2"];
  bridge := Home.hueBridge;
  trace := []
|}.


Definition roomClient : ResourceClient.t :=
  room (newHueApiClient "192.168.1.2" (JsString "key-1")).
Definition lightClient : ResourceClient.t :=
  light (newHueApiClient "192.168.1.2" (JsString "key-1")).
End Cases.

(** * Properties *)

(** ** Promises *)

Lemma bind_resolved {A B} (m : Async A) (k : A -> Async B) w b w' :
  bind m k w = (Resolved b, w') ->
  exists a w1, m w = (Resolved a, w1) /\ k a w1 = (Resolved b, w').
Proof.
  unfold bind. destruct (m w) as [[a | e |] w1]; intro E.
  - exists a, w1. split; [reflexivity | exact E].
  - discriminate E.
  - discriminate E.
Qed.

Lemma bind_step {A B} (m : Async A) (k : A -> Async B) w a w1 :
  m w = (Resolved a, w1) -> bind m k w = k a w1.
Proof. unfold bind. intros ->. reflexivity. Qed.

Lemma bind_rejected {A B} (m : Async A) (k : A -> Async B) w e w1 :
  m w = (Rejected e, w1) -> bind m k w = (Rejected e, w1).
Proof. unfold bind. intros ->. reflexivity. Qed.

Lemma issued_app {A} (m : Async A) w t :
  trace (snd (m w)) = (trace w ++ t)%list -> issued m w = t.
Proof.
  unfold issued. intros ->.
  rewrite skipn_app, skipn_all, Nat.sub_diag. reflexivity.
Qed.

(** ** Quiet computations *)

Lemma Quiet_ret {A} (a : A) : Quiet (ret a).
Proof. intro w. exists []. simpl. rewrite app_nil_r. auto. Qed.

Lemma Quiet_throw {A} e : Quiet (@throw A e).
Proof. intro w. exists []. simpl. rewrite app_nil_r. auto. Qed.

Lemma Quiet_gets {A} (f : World -> A) : Quiet (gets f).
Proof. intro w. exists []. simpl. rewrite app_nil_r. auto. Qed.

Lemma Quiet_modify f :
  (forall w, trace (f w) = trace w) -> Quiet (modify f).
Proof. intros Hf w. exists []. simpl. rewrite app_nil_r, Hf. auto. Qed.

Lemma Quiet_pending {A} : Quiet (fun w => (@Pending A, w)).
Proof. intro w. exists []. simpl. rewrite app_nil_r. auto. Qed.

Lemma Quiet_bind {A B} (m : Async A) (k : A -> Async B) :
  Quiet m -> (forall a, Quiet (k a)) -> Quiet (bind m k).
Proof.
  intros Hm Hk w. destruct (Hm w) as (t1 & E1 & F1).
  unfold bind. destruct (m w) as [[a | e |] w1]; simpl in E1.
  - destruct (Hk a w1) as (t2 & E2 & F2).
    exists (t1 ++ t2)%list. rewrite E2, E1, app_assoc, filter_app, F1, F2. auto.
  - exists t1. auto.
  - exists t1. auto.
Qed.

Lemma Quiet_tryCatch {A} (m : Async A) handler :
  Quiet m -> (forall e, Quiet (handler e)) -> Quiet (tryCatch m handler).
Proof.
  intros Hm Hh w. destruct (Hm w) as (t1 & E1 & F1).
  unfold tryCatch. destruct (m w) as [[a | e |] w1]; simpl in E1.
  - exists t1. auto.
  - destruct (Hh e w1) as (t2 & E2 & F2).
    exists (t1 ++ t2)%list. rewrite E2, E1, app_assoc, filter_app, F1, F2. auto.
  - exists t1. auto.
Qed.

Lemma Quiet_get c target : Quiet (Axios.get c target).
Proof. intro w. exists [mkRequest GET target None (apiKey c)]. auto. Qed.

Lemma Quiet_post c target body : Quiet (Axios.post c target body).
Proof. intro w. exists [mkRequest POST target (Some body) (apiKey c)]. auto. Qed.

Lemma Quiet_readFile path : Quiet (Fs.readFile path).
Proof.
  intro w. exists []. unfold Fs.readFile.
  destruct (files (fs w) path); simpl; rewrite app_nil_r; auto.
Qed.

Lemma Quiet_mkdirParent path : Quiet (Fs.mkdirParent path).
Proof.
  intro w. exists []. unfold Fs.mkdirParent. cbv zeta.
  destruct (mkdirFails (fs w) path); simpl; rewrite app_nil_r; auto.
Qed.

Lemma Quiet_writeFile path content : Quiet (Fs.writeFile path content).
Proof.
  intro w. exists []. unfold Fs.writeFile.
  destruct (writeFails (fs w) path); [ simpl; rewrite app_nil_r; auto | ].
  destruct (files (fs w) path); try destruct (devices (fs w) path);
    simpl; rewrite app_nil_r; auto.
Qed.

Create HintDb quiet.
#[local] Hint Resolve Quiet_get Quiet_post Quiet_readFile Quiet_mkdirParent
  Quiet_writeFile : quiet.

(** Follows the shape of a computation down to its primitive steps. *)
Ltac quiet :=
  repeat first
    [ solve [ auto with quiet nocore ]
    | progress cbv zeta
    | apply Quiet_bind; [ | intro ]
    | apply Quiet_tryCatch; [ | intro ]
    | apply Quiet_ret | apply Quiet_throw | apply Quiet_gets
    | apply Quiet_pending
    | apply Quiet_modify; intro; reflexivity
    | match goal with
      | |- Quiet (if ?c then _ else _) => destruct c
      | |- Quiet (match ?x with _ => _ end) => destruct x
      end ].

Lemma Quiet_discoverBridge : Quiet discoverBridge.
Proof. unfold discoverBridge. quiet. Qed.
#[local] Hint Resolve Quiet_discoverBridge : quiet.

Lemma Quiet_user `{Runtime} c : Quiet (user c).
Proof. unfold user, UserClient.new. quiet. Qed.

Lemma Quiet_createUser uc deviceType : Quiet (UserClient.createUser uc deviceType).
Proof. unfold UserClient.createUser. quiet. Qed.
#[local] Hint Resolve Quiet_user Quiet_createUser : quiet.

Lemma Quiet_createNewHueUser `{Runtime} : Quiet createNewHueUser.
Proof. unfold createNewHueUser. quiet. Qed.

Lemma Quiet_property v key : Quiet (property v key).
Proof. unfold property. quiet. Qed.
#[local] Hint Resolve Quiet_createNewHueUser Quiet_property : quiet.

Lemma Quiet_readCredentialsFromFile `{Runtime} : Quiet readCredentialsFromFile.
Proof. unfold readCredentialsFromFile. quiet. Qed.

Lemma Quiet_saveCredentialsToFile `{Runtime} c : Quiet (saveCredentialsToFile c).
Proof. unfold saveCredentialsToFile. quiet. Qed.
#[local] Hint Resolve Quiet_readCredentialsFromFile Quiet_saveCredentialsToFile
  : quiet.

Lemma Quiet_getHueCredentials `{Runtime} : Quiet getHueCredentials.
Proof. unfold getHueCredentials. quiet. Qed.
#[local] Hint Resolve Quiet_getHueCredentials : quiet.

Lemma Quiet_getApiClient `{Runtime} : Quiet getApiClient.
Proof. unfold getApiClient. quiet. Qed.

Lemma Quiet_getAll rc : Quiet (ResourceClient.getAll rc).
Proof. unfold ResourceClient.getAll. quiet. Qed.
#[local] Hint Resolve Quiet_getApiClient Quiet_getAll : quiet.

Lemma Quiet_findLightByName `{Runtime} lightName : Quiet (findLightByName lightName).
Proof. unfold findLightByName. quiet. Qed.

Lemma Quiet_findRoomByName `{Runtime} roomName : Quiet (findRoomByName roomName).
Proof. unfold findRoomByName. quiet. Qed.
#[local] Hint Resolve Quiet_findLightByName Quiet_findRoomByName : quiet.

Lemma Quiet_updateRequests {A} (m : Async A) w :
  Quiet m -> updateRequests m w = [].
Proof.
  intro Hm. destruct (Hm w) as (t & E & F).
  unfold updateRequests. rewrite (issued_app m w t E). exact F.
Qed.

(** ** The cached API client *)

Lemma getApiClient_cached `{Runtime} w c :
  apiClient (this w) = Some c -> getApiClient w = (Resolved c, w).
Proof.
  intro E. unfold getApiClient, bind, gets. rewrite E. reflexivity.
Qed.

Lemma getApiClient_caches `{Runtime} w c w1 :
  getApiClient w = (Resolved c, w1) -> apiClient (this w1) = Some c.
Proof.
  unfold getApiClient. intro E.
  apply bind_resolved in E as (cached & w0 & E0 & E).
  unfold gets in E0. injection E0 as <- <-.
  destruct (apiClient (this w)) as [c0 |] eqn:Ec.
  - unfold ret in E. injection E as <- <-. exact Ec.
  - apply bind_resolved in E as (ip & w2 & _ & E).
    apply bind_resolved in E as (? & w3 & _ & E).
    apply bind_resolved in E as (s & w4 & _ & E).
    apply bind_resolved in E as (? & w5 & _ & E).
    apply bind_resolved in E as (s' & w6 & _ & E).
    destruct (negb (truthyStr (bridgeIp s')) || negb (truthy (hueClientKey s'))).
    + discriminate E.
    + apply bind_resolved in E as (? & w7 & E7 & E).
      unfold modify in E7. injection E7 as _ <-.
      unfold ret in E. injection E as <- <-. reflexivity.
Qed.

Lemma getAll_this rc w :
  this (snd (ResourceClient.getAll rc w)) = this w.
Proof. reflexivity. Qed.

Lemma getAll_resolved rc w l w1 :
  ResourceClient.getAll rc w = (Resolved l, w1) ->
  getResponse (bridge w) (baseUrl (ResourceClient.axios rc) ++ ResourceClient.endpoint rc)
    = Http2xx l
  /\ w1 = withRequest
            (mkRequest GET
               (baseUrl (ResourceClient.axios rc) ++ ResourceClient.endpoint rc)
               None (apiKey (ResourceClient.axios rc))) w.
Proof.
  unfold ResourceClient.getAll, Axios.get. intro E.
  injection E as E <-. split; [ | reflexivity ].
  destruct (getResponse (bridge w) _); simpl in E; try discriminate E.
  injection E as <-. reflexivity.
Qed.

(** After a list was fetched the client is cached, so the next
    [getApiClient] returns it and changes nothing. *)
Lemma fetch_client_cached `{Runtime} (kind : HueApiClient -> ResourceClient.t) w l w1 :
  bind getApiClient (fun client => ResourceClient.getAll (kind client)) w
    = (Resolved l, w1) ->
  exists c, apiClient (this w1) = Some c /\ getApiClient w1 = (Resolved c, w1).
Proof.
  intro E. apply bind_resolved in E as (c & w0 & Ec & E).
  apply getApiClient_caches in Ec.
  apply getAll_resolved in E as (_ & ->).
  exists c. split; [ exact Ec | ].
  apply getApiClient_cached. exact Ec.
Qed.

Lemma findLightByName_fetch `{Runtime} lightName w :
  findLightByName lightName w =
  bind fetchLights
    (fun lights =>
       match find (fun l => strictEquals (metadataName l) lightName) lights with
       | None =>
           throw (NotFoundError ("Light with name '" ++ lightName ++ "' not found"))
       | Some l => ret l
       end) w.
Proof.
  unfold findLightByName, fetchLights, bind.
  destruct (getApiClient w) as [[c | e |] w0]; reflexivity.
Qed.

Lemma findRoomByName_fetch `{Runtime} roomName w :
  findRoomByName roomName w =
  bind fetchRooms
    (fun rooms =>
       match find (fun r => strictEquals (option_map toLowerCase (metadataName r))
                              (toLowerCase roomName)) rooms with
       | None =>
           throw (NotFoundError ("Room with name '" ++ roomName ++ "' not found"))
       | Some r => ret r
       end) w.
Proof.
  unfold findRoomByName, fetchRooms, bind.
  destruct (getApiClient w) as [[c | e |] w0]; reflexivity.
Qed.

Lemma listAllLights_fetch `{Runtime} w :
  listAllLights w =
  bind fetchLights
    (fun lights => ret (sort localeCompare (map (nameOrDefault "Light") lights))) w.
Proof.
  unfold listAllLights, fetchLights, bind.
  destruct (getApiClient w) as [[c | e |] w0]; reflexivity.
Qed.

Lemma listAllRooms_fetch `{Runtime} w :
  listAllRooms w =
  bind fetchRooms
    (fun rooms => ret (sort localeCompare (map (nameOrDefault "Room") rooms))) w.
Proof.
  unfold listAllRooms, fetchRooms, bind.
  destruct (getApiClient w) as [[c | e |] w0]; reflexivity.
Qed.

Lemma findLightByName_resolved `{Runtime} lightName w l w1 :
  findLightByName lightName w = (Resolved l, w1) ->
  exists lights,
    fetchLights w = (Resolved lights, w1)
    /\ find (fun x => strictEquals (metadataName x) lightName) lights = Some l.
Proof.
  rewrite findLightByName_fetch. intro E.
  apply bind_resolved in E as (lights & w0 & Ef & E).
  exists lights.
  destruct (find _ lights) as [l0 |]; [ | discriminate E ].
  unfold ret in E. injection E as <- <-. auto.
Qed.

Lemma findRoomByName_resolved `{Runtime} roomName w r w1 :
  findRoomByName roomName w = (Resolved r, w1) ->
  exists rooms,
    fetchRooms w = (Resolved rooms, w1)
    /\ find (fun x => strictEquals (option_map toLowerCase (metadataName x))
                        (toLowerCase roomName)) rooms = Some r.
Proof.
  rewrite findRoomByName_fetch. intro E.
  apply bind_resolved in E as (rooms & w0 & Ef & E).
  exists rooms.
  destruct (find _ rooms) as [r0 |]; [ | discriminate E ].
  unfold ret in E. injection E as <- <-. auto.
Qed.

Lemma strictEquals_true o s : strictEquals o s = true <-> o = Some s.
Proof.
  destruct o as [n |]; simpl.
  - rewrite String.eqb_eq. split; [ intros -> | intros [= ->] ]; reflexivity.
  - split; discriminate.
Qed.

Lemma tryCatch_resolved {A} (m : Async A) handler w a w' :
  tryCatch m handler w = (Resolved a, w') ->
  m w = (Resolved a, w')
  \/ exists e w1, m w = (Rejected e, w1) /\ handler e w1 = (Resolved a, w').
Proof.
  unfold tryCatch. destruct (m w) as [[x | e |] w1]; intro E.
  - left. exact E.
  - right. exists e, w1. auto.
  - discriminate E.
Qed.

(** ** The tools *)

(** C2: whenever the service call [turnLightOff(name)] succeeds, the
    [turnLightOff] tool answers [{content: [{type: 'text', text:
    "Successfully turned on light: {name}"}]}] -- the message of the
    [turnLightOn] tool, not a "turned off" message. *)
Theorem turnLightOff_tool_reports_turned_on `{Runtime} (name : string) (w w' : World) :
  turnLightOff name w = (Resolved tt, w') ->
  Tools.turnLightOff name w
    = (Resolved
         (mkToolResult
            [mkContentItem "text" ("Successfully turned on light: " ++ name)]),
       w').
Proof.
  intro E. unfold Tools.turnLightOff, tryCatch.
  rewrite (bind_step _ _ _ _ _ E). reflexivity.
Qed.

Lemma turnLightOff_tool_reports_turned_on_witness :
  turnLightOff (H := Reference.runtime) "Kitchen" Home.configured
    = (Resolved tt,
       snd (turnLightOff (H := Reference.runtime) "Kitchen" Home.configured))
  /\ Tools.turnLightOff (H := Reference.runtime) "Kitchen" Home.configured
     = (Resolved
          (mkToolResult
             [mkContentItem "text" "Successfully turned on light: Kitchen"]),
        snd (turnLightOff (H := Reference.runtime) "Kitchen" Home.configured)).
Proof.
  split.
  - vm_compute. reflexivity.
  - apply (turnLightOff_tool_reports_turned_on (H := Reference.runtime)
             "Kitchen" Home.configured).
    vm_compute. reflexivity.
Defined.

(** The same success text is what the [turnLightOn] tool answers. *)
Lemma turnLightOn_tool_success_text `{Runtime} (name : string) (w w' : World) :
  turnLightOn name None w = (Resolved tt, w') ->
  Tools.turnLightOn name w
    = (Resolved
         (mkToolResult
            [mkContentItem "text" ("Successfully turned on light: " ++ name)]),
       w').
Proof.
  intro E. unfold Tools.turnLightOn, tryCatch.
  rewrite (bind_step _ _ _ _ _ E). reflexivity.
Qed.

(** A failing service call is reported as text, never as a rejection. *)
Lemma turnLightOff_tool_failure_text `{Runtime} (name : string) (w w' : World) e :
  turnLightOff name w = (Rejected e, w') ->
  Tools.turnLightOff name w
    = (Resolved
         (mkToolResult
            [mkContentItem "text" ("Failed to turn off light: " ++ message e)]),
       w').
Proof.
  intro E. unfold Tools.turnLightOff, tryCatch.
  rewrite (bind_rejected _ _ _ _ _ E). reflexivity.
Qed.

(** ** Credentials *)

(** What a successful registration returns: the registered name, twice. *)
Lemma createNewHueUser_resolved `{Runtime} (w w' : World) (c : HueCredentials) :
  createNewHueUser w = (Resolved c, w') ->
  exists registered, registered <> "" /\ c = mkHueCredentials registered registered.
Proof.
  unfold createNewHueUser. intro E.
  apply bind_resolved in E as (ip & w1 & _ & E).
  apply bind_resolved in E as (? & w2 & _ & E).
  apply bind_resolved in E as (ip' & w3 & _ & E).
  destruct (negb (truthyStr ip')); [ discriminate E | ].
  apply tryCatch_resolved in E as [E | (e & w4 & _ & E)]; [ | discriminate E ].
  apply bind_resolved in E as (userClient & w4 & _ & E).
  apply bind_resolved in E as (response & w5 & _ & E).
  destruct (nth_error response 0) as [entry |]; [ | discriminate E ].
  destruct (error entry); [ discriminate E | ].
  cbv zeta in E.
  destruct (match success entry with Some s => success_username s | None => None end)
    as [registered |]; [ | discriminate E ].
  simpl in E. destruct (registered =? "") eqn:Er; [ discriminate E | ].
  unfold ret in E. injection E as <- _.
  exists registered. split; [ apply String.eqb_neq; exact Er | reflexivity ].
Qed.

(** C10: the credentials that [createNewHueUser] returns have their
    [clientKey] equal to their [username]. *)
Theorem createNewHueUser_clientKey_is_username `{Runtime}
    (w w' : World) (c : HueCredentials) :
  createNewHueUser w = (Resolved c, w') ->
  clientKey c = username c.
Proof.
  intro E. apply createNewHueUser_resolved in E as (registered & _ & ->).
  reflexivity.
Qed.

Lemma createNewHueUser_clientKey_is_username_witness :
  createNewHueUser (H := Reference.runtime) Home.configured
    = (Resolved (mkHueCredentials "user-83b7780291a6" "user-83b7780291a6"),
       snd (createNewHueUser (H := Reference.runtime) Home.configured))
  /\ clientKey (mkHueCredentials "user-83b7780291a6" "user-83b7780291a6")
     = username (mkHueCredentials "user-83b7780291a6" "user-83b7780291a6").
Proof.
  split.
  - vm_compute. reflexivity.
  - apply (createNewHueUser_clientKey_is_username (H := Reference.runtime)
             Home.configured
             (snd (createNewHueUser (H := Reference.runtime) Home.configured))).
    vm_compute. reflexivity.
Defined.

(** The credentials that the bootstrap path of [getHueCredentials] hands
    to the service carry the same value in both fields. *)
Lemma getHueCredentials_bootstrap_fields `{Runtime} (w w1 w' : World) v :
  readCredentialsFromFile w = (Resolved None, w1) ->
  getHueCredentials w = (Resolved v, w') ->
  exists u, v = credentialsObject (mkHueCredentials u u).
Proof.
  intros Er E. unfold getHueCredentials in E.
  rewrite (bind_step _ _ _ _ _ Er) in E.
  apply bind_resolved in E as (c & w2 & Ec & E).
  apply createNewHueUser_resolved in Ec as (registered & _ & ->).
  apply bind_resolved in E as (? & w3 & _ & E).
  unfold ret in E. injection E as <- _.
  exists registered. reflexivity.
Qed.

(** C7: when the credentials file is missing, or exists but does not
    parse as JSON, [readCredentialsFromFile] resolves to [null]; it does not
    reject and it leaves the world as it was. *)
Theorem readCredentialsFromFile_missing_or_malformed `{Runtime} (w : World) :
  files (fs w) (getCredentialsPath (env w)) = Absent
  \/ (exists content,
        files (fs w) (getCredentialsPath (env w)) = Content content
        /\ JSON_parse content = None) ->
  readCredentialsFromFile w = (Resolved None, w).
Proof.
  unfold readCredentialsFromFile, bind, gets, tryCatch, Fs.readFile.
  intros [E | (content & E & Ep)]; rewrite E.
  - reflexivity.
  - rewrite Ep. reflexivity.
Qed.

(** Whatever the file holds, loading never rejects. *)
Lemma readCredentialsFromFile_never_rejects `{Runtime} (w : World) :
  exists o, readCredentialsFromFile w = (Resolved o, w).
Proof.
  unfold readCredentialsFromFile, bind, gets, tryCatch, Fs.readFile, property,
    ret, throw.
  destruct (files (fs w) _) as [ | | reason | fileContent ];
    [ eexists; reflexivity .. | ].
  destruct (JSON_parse fileContent) as [v |]; [ | eexists; reflexivity ].
  destruct (getProp v "username") as [u |]; [ | eexists; reflexivity ].
  destruct (truthy u); [ | eexists; reflexivity ].
  destruct (getProp v "clientKey") as [k |]; [ | eexists; reflexivity ].
  destruct (truthy k); eexists; reflexivity.
Qed.

Lemma readCredentialsFromFile_missing_or_malformed_witness :
  (files (fs Home.firstStart) (getCredentialsPath (env Home.firstStart))
     = Absent
   /\ readCredentialsFromFile (H := Reference.runtime) Home.firstStart
      = (Resolved None, Home.firstStart))
  /\ ((exists content,
         files (fs Home.garbled) (getCredentialsPath (env Home.garbled))
           = Content content
         /\ JSON_parse (Runtime := Reference.runtime) content = None)
      /\ readCredentialsFromFile (H := Reference.runtime) Home.garbled
         = (Resolved None, Home.garbled)).
Proof.
  split; split.
  - reflexivity.
  - apply (readCredentialsFromFile_missing_or_malformed
             (H := Reference.runtime) Home.firstStart).
    left. reflexivity.
  - exists "{username: oops". split; reflexivity.
  - apply (readCredentialsFromFile_missing_or_malformed
             (H := Reference.runtime) Home.garbled).
    right. exists "{username: oops". split; reflexivity.
Defined.

(** ** Looking up lights and rooms by name *)

Lemma findLightByName_found `{Runtime} (w w1 : World) lights q l :
  fetchLights w = (Resolved lights, w1) ->
  findLightByName q w = (Resolved l, w1) ->
  In l lights /\ metadataName l = Some q.
Proof.
  intros Ef E. apply findLightByName_resolved in E as (lights' & Ef' & E).
  rewrite Ef in Ef'. injection Ef' as <-.
  apply find_some in E as (Hin & E). apply strictEquals_true in E. auto.
Qed.

Lemma findLightByName_first_match `{Runtime} (w w1 : World) lights q l :
  fetchLights w = (Resolved lights, w1) ->
  find (fun x => strictEquals (metadataName x) q) lights = Some l ->
  findLightByName q w = (Resolved l, w1).
Proof.
  intros Ef E. rewrite findLightByName_fetch, (bind_step _ _ _ _ _ Ef), E.
  reflexivity.
Qed.

Lemma findLightByName_not_found `{Runtime} (w w1 : World) lights q :
  fetchLights w = (Resolved lights, w1) ->
  (forall l, In l lights -> metadataName l <> Some q) ->
  findLightByName q w
    = (Rejected (NotFoundError ("Light with name '" ++ q ++ "' not found")), w1).
Proof.
  intros Ef Hno. rewrite findLightByName_fetch, (bind_step _ _ _ _ _ Ef).
  destruct (find _ lights) as [l |] eqn:E; [ | reflexivity ].
  apply find_some in E as (Hin & E). apply strictEquals_true in E.
  destruct (Hno l Hin E).
Qed.

(** A light without a display name is listed under "Light {id}" but is
    never what a lookup of that name returns. *)
Lemma findLightByName_never_returns_unnamed `{Runtime} (w w1 : World) q l :
  metadataName l = None ->
  findLightByName q w <> (Resolved l, w1).
Proof.
  intros Hn E. apply findLightByName_resolved in E as (lights & _ & E).
  apply find_some in E as (_ & E). apply strictEquals_true in E. congruence.
Qed.

(** C1, at the failing input: the bridge lists a light "light-2" without
    a display name; [listAllLights] announces it as "Light light-2", and
    [findLightByName("Light light-2")] rejects with "not found" instead of
    returning it. *)
Theorem findLightByName_misses_synthetic_name :
  fetchLights (H := Reference.runtime) Home.configured
    = (Resolved [Home.kitchen; Home.unnamed; Home.desk],
       snd (fetchLights (H := Reference.runtime) Home.configured))
  /\ nameOrDefault "Light" Home.unnamed = "Light light-2"
  /\ fst (listAllLights (H := Reference.runtime) Home.configured)
     = Resolved ["Desk"; "Kitchen"; "Light light-2"]
  /\ fst (findLightByName (H := Reference.runtime) "Light light-2" Home.configured)
     = Rejected (NotFoundError "Light with name 'Light light-2' not found").
Proof. repeat split; vm_compute; reflexivity. Qed.



(** ** Update requests *)

Lemma updateRequests_same_world {A B} (m : Async A) (m' : Async B) w :
  snd (m w) = snd (m' w) -> updateRequests m w = updateRequests m' w.
Proof. unfold updateRequests, issued. intros ->. reflexivity. Qed.

(** One update after a quiet prefix. *)
Lemma updateRequests_after_quiet {A B} (prefix : Async A) (m : Async B) w r :
  Quiet prefix ->
  trace (snd (m w)) = (trace (snd (prefix w)) ++ [r])%list ->
  isUpdate r = true ->
  updateRequests m w = [r].
Proof.
  intros Hq Et Hr. destruct (Hq w) as (t & E & F).
  unfold updateRequests.
  rewrite (issued_app m w (t ++ [r])%list).
  - rewrite filter_app, F. simpl. rewrite Hr. reflexivity.
  - rewrite Et, E, app_assoc. reflexivity.
Qed.

Lemma update_then_done rc resourceId body w :
  snd (bind (ResourceClient.update rc resourceId body) (fun _ => ret tt) w)
  = withRequest
      (mkRequest PUT
         (baseUrl (ResourceClient.axios rc) ++ ResourceClient.endpoint rc
            ++ "/" ++ resourceId)
         (Some body) (apiKey (ResourceClient.axios rc))) w.
Proof.
  unfold bind, ResourceClient.update, Axios.put.
  destruct (interceptor _) as [v | e |]; reflexivity.
Qed.

Lemma findLightByName_client `{Runtime} q w l w1 :
  findLightByName q w = (Resolved l, w1) ->
  exists c, apiClient (this w1) = Some c /\ getApiClient w1 = (Resolved c, w1).
Proof.
  intro E. apply findLightByName_resolved in E as (lights & Ef & _).
  exact (fetch_client_cached light w lights w1 Ef).
Qed.

Lemma findRoomByName_client `{Runtime} q w r w1 :
  findRoomByName q w = (Resolved r, w1) ->
  exists c, apiClient (this w1) = Some c /\ getApiClient w1 = (Resolved c, w1).
Proof.
  intro E. apply findRoomByName_resolved in E as (rooms & Ef & _).
  exact (fetch_client_cached room w rooms w1 Ef).
Qed.

(** C5: when the name resolves to a light, [turnLightOn(name, b)] issues
    exactly one update request, a PUT on that light with the body
    [{on: {on: true}, dimming: {brightness: b}}] (100 when no brightness
    is passed), and
    [turnLightOff(name)] issues exactly one update request, a PUT on that
    light with the body [{on: {on: false}}], which has no brightness. *)
Theorem turnLight_issues_one_update `{Runtime}
    (w w1 : World) (q : string) (l : Resource) (brightness : option Z) :
  findLightByName q w = (Resolved l, w1) ->
  exists c,
    apiClient (this w1) = Some c
    /\ updateRequests (turnLightOn q brightness) w
       = [mkRequest PUT (baseUrl c ++ "/resource/light" ++ "/" ++ id l)
            (Some (JsObject
                     [("on", JsObject [("on", JsBool true)]);
                      ("dimming",
                       JsObject [("brightness",
                                 JsNumber (match brightness with
                                           | Some b => b
                                           | None => 100%Z
                                           end))])]))
            (apiKey c)]
    /\ updateRequests (turnLightOff q) w
       = [mkRequest PUT (baseUrl c ++ "/resource/light" ++ "/" ++ id l)
            (Some (JsObject [("on", JsObject [("on", JsBool false)])]))
            (apiKey c)].
Proof.
  intro E. destruct (findLightByName_client q w l w1 E) as (c & Ec & Eg).
  exists c. split; [ exact Ec | ]. split.
  - apply (updateRequests_after_quiet (findLightByName q));
      [ apply Quiet_findLightByName | | reflexivity ].
    unfold turnLightOn. cbv zeta.
    rewrite (bind_step _ _ _ _ _ E), (bind_step _ _ _ _ _ Eg), E.
    unfold LightClient.turnOn. rewrite update_then_done. reflexivity.
  - apply (updateRequests_after_quiet (findLightByName q));
      [ apply Quiet_findLightByName | | reflexivity ].
    unfold turnLightOff.
    rewrite (bind_step _ _ _ _ _ E), (bind_step _ _ _ _ _ Eg), E.
    unfold LightClient.turnOff. rewrite update_then_done. reflexivity.
Qed.

Lemma turnLight_issues_one_update_witness :
  findLightByName (H := Reference.runtime) "Kitchen" Home.firstStart
    = (Resolved Home.kitchen,
       snd (findLightByName (H := Reference.runtime) "Kitchen" Home.firstStart))
  /\ exists c,
       apiClient
         (this (snd (findLightByName (H := Reference.runtime) "Kitchen"
                       Home.firstStart))) = Some c
       /\ updateRequests (turnLightOn (H := Reference.runtime) "Kitchen" (Some 40%Z))
            Home.firstStart
          = [mkRequest PUT (baseUrl c ++ "/resource/light" ++ "/" ++ id Home.kitchen)
               (Some (JsObject
                        [("on", JsObject [("on", JsBool true)]);
                         ("dimming",
                          JsObject [("brightness", JsNumber 40)])]))
               (apiKey c)]
       /\ updateRequests (turnLightOff (H := Reference.runtime) "Kitchen")
            Home.firstStart
          = [mkRequest PUT (baseUrl c ++ "/resource/light" ++ "/" ++ id Home.kitchen)
               (Some (JsObject [("on", JsObject [("on", JsBool false)])]))
               (apiKey c)].
Proof.
  split.
  - vm_compute. reflexivity.
  - apply (turnLight_issues_one_update (H := Reference.runtime)
             Home.firstStart).
    vm_compute. reflexivity.
Defined.

(** The body of the power-off request has neither a [dimming] nor a
    [brightness] property. *)
Lemma turnOff_body_has_no_brightness :
  getProp (JsObject [("on", JsObject [("on", JsBool false)])]) "dimming"
    = Some JsUndefined
  /\ getProp (JsObject [("on", JsObject [("on", JsBool false)])]) "brightness"
     = Some JsUndefined.
Proof. split; reflexivity. Qed.

Lemma findGroupedLightService_none (r : Resource) :
  (forall ss, services r = Some ss ->
              forall s, In s ss -> rtype s <> "grouped_light") ->
  findGroupedLightService r = None.
Proof.
  intro Hno. unfold findGroupedLightService.
  destruct (services r) as [ss |]; [ | reflexivity ].
  destruct (find _ ss) as [s |] eqn:E; [ | reflexivity ].
  apply find_some in E as (Hin & E). apply String.eqb_eq in E.
  destruct (Hno ss eq_refl s Hin E).
Qed.

(** C8: when the name resolves to a room none of whose services is a
    grouped light, [turnOnRoomLights] and [turnOffRoomLights] reject with
    the no-grouped-light error and issue no update request. *)
Theorem roomLights_without_grouped_light `{Runtime}
    (w w1 : World) (q : string) (r : Resource) (brightness : option Z) :
  findRoomByName q w = (Resolved r, w1) ->
  (forall ss, services r = Some ss ->
              forall s, In s ss -> rtype s <> "grouped_light") ->
  (turnOnRoomLights q brightness w
     = (Rejected (NoGroupedLightError
                    ("No grouped light service found for room '" ++ q ++ "'")), w1)
   /\ updateRequests (turnOnRoomLights q brightness) w = [])
  /\ (turnOffRoomLights q w
        = (Rejected (NoGroupedLightError
                       ("No grouped light service found for room '" ++ q ++ "'")), w1)
      /\ updateRequests (turnOffRoomLights q) w = []).
Proof.
  intros E Hno. destruct (findRoomByName_client q w r w1 E) as (c & _ & Eg).
  apply findGroupedLightService_none in Hno.
  assert (Eon : turnOnRoomLights q brightness w
                = (Rejected (NoGroupedLightError
                     ("No grouped light service found for room '" ++ q ++ "'")), w1)).
  { unfold turnOnRoomLights. cbv zeta.
    rewrite (bind_step _ _ _ _ _ E), (bind_step _ _ _ _ _ Eg), Hno.
    reflexivity. }
  assert (Eoff : turnOffRoomLights q w
                 = (Rejected (NoGroupedLightError
                      ("No grouped light service found for room '" ++ q ++ "'")), w1)).
  { unfold turnOffRoomLights. cbv zeta.
    rewrite (bind_step _ _ _ _ _ E), (bind_step _ _ _ _ _ Eg), Hno.
    reflexivity. }
  split; (split; [ assumption | ]).
  - rewrite (updateRequests_same_world _ (findRoomByName q)).
    + apply Quiet_updateRequests, Quiet_findRoomByName.
    + rewrite Eon, E. reflexivity.
  - rewrite (updateRequests_same_world _ (findRoomByName q)).
    + apply Quiet_updateRequests, Quiet_findRoomByName.
    + rewrite Eoff, E. reflexivity.
Qed.

Lemma roomLights_without_grouped_light_witness :
  (findRoomByName (H := Reference.runtime) "Office" Home.firstStart
     = (Resolved Home.office,
        snd (findRoomByName (H := Reference.runtime) "Office" Home.firstStart))
   /\ (forall ss, services Home.office = Some ss ->
                  forall s, In s ss -> rtype s <> "grouped_light"))
  /\ ((turnOnRoomLights (H := Reference.runtime) "Office" None Home.firstStart
         = (Rejected (NoGroupedLightError
                        ("No grouped light service found for room '" ++ "Office" ++ "'")),
            snd (findRoomByName (H := Reference.runtime) "Office" Home.firstStart))
       /\ updateRequests (turnOnRoomLights (H := Reference.runtime) "Office" None)
            Home.firstStart = [])
      /\ (turnOffRoomLights (H := Reference.runtime) "Office" Home.firstStart
            = (Rejected (NoGroupedLightError
                           ("No grouped light service found for room '" ++ "Office" ++ "'")),
               snd (findRoomByName (H := Reference.runtime) "Office" Home.firstStart))
          /\ updateRequests (turnOffRoomLights (H := Reference.runtime) "Office")
               Home.firstStart = [])).
Proof.
  assert (Hno : forall ss, services Home.office = Some ss ->
                           forall s, In s ss -> rtype s <> "grouped_light").
  { intros ss [= <-] s [<- | []]. discriminate. }
  split.
  - split; [ vm_compute; reflexivity | exact Hno ].
  - apply (roomLights_without_grouped_light (H := Reference.runtime)
             Home.firstStart _ "Office" Home.office None).
    + vm_compute. reflexivity.
    + exact Hno.
Defined.

(** The same error when a grouped light is listed without a usable id. *)
Lemma roomLights_grouped_light_without_rid `{Runtime}
    (w w1 : World) (q : string) (r : Resource) (brightness : option Z) :
  findRoomByName q w = (Resolved r, w1) ->
  truthyStr (groupedLightRid (findGroupedLightService r)) = false ->
  turnOnRoomLights q brightness w
    = (Rejected (NoGroupedLightError
                   ("No grouped light service found for room '" ++ q ++ "'")), w1).
Proof.
  intros E Hno. destruct (findRoomByName_client q w r w1 E) as (c & _ & Eg).
  unfold turnOnRoomLights. cbv zeta.
  rewrite (bind_step _ _ _ _ _ E), (bind_step _ _ _ _ _ Eg), Hno. reflexivity.
Qed.

(** With a grouped light the room is switched by one update request on
    the group. *)
Lemma roomLights_issue_one_update `{Runtime}
    (w w1 : World) (q : string) (r : Resource) (brightness : option Z) group :
  findRoomByName q w = (Resolved r, w1) ->
  groupedLightRid (findGroupedLightService r) = Some group ->
  group <> "" ->
  exists c,
    apiClient (this w1) = Some c
    /\ updateRequests (turnOnRoomLights q brightness) w
       = [mkRequest PUT (baseUrl c ++ "/resource/grouped_light" ++ "/" ++ group)
            (Some (JsObject
                     [("on", JsObject [("on", JsBool true)]);
                      ("dimming",
                       JsObject [("brightness", JsNumber (orDefault brightness))])]))
            (apiKey c)].
Proof.
  intros E Eg Hne. destruct (findRoomByName_client q w r w1 E) as (c & Ec & Ecl).
  exists c. split; [ exact Ec | ].
  apply (updateRequests_after_quiet (findRoomByName q));
    [ apply Quiet_findRoomByName | | reflexivity ].
  unfold turnOnRoomLights. cbv zeta.
  rewrite (bind_step _ _ _ _ _ E), (bind_step _ _ _ _ _ Ecl), E, Eg.
  apply String.eqb_neq in Hne. simpl. rewrite Hne. simpl.
  unfold GroupedLightClient.turnOn. rewrite update_then_done. reflexivity.
Qed.

(** C9: when no light (no room) of the fetched list matches the name, the
    turn-on and turn-off operations reject with the not-found error and
    issue no update request. *)
Theorem unknown_name_issues_no_update `{Runtime}
    (w w1 : World) (q : string) (brightness : option Z) :
  (forall lights,
     fetchLights w = (Resolved lights, w1) ->
     (forall l, In l lights -> metadataName l <> Some q) ->
     (turnLightOn q brightness w
        = (Rejected (NotFoundError ("Light with name '" ++ q ++ "' not found")), w1)
      /\ updateRequests (turnLightOn q brightness) w = [])
     /\ (turnLightOff q w
           = (Rejected (NotFoundError ("Light with name '" ++ q ++ "' not found")), w1)
         /\ updateRequests (turnLightOff q) w = []))
  /\ (forall rooms,
        fetchRooms w = (Resolved rooms, w1) ->
        (forall r, In r rooms ->
                   option_map toLowerCase (metadataName r) <> Some (toLowerCase q)) ->
        (turnOnRoomLights q brightness w
           = (Rejected (NotFoundError ("Room with name '" ++ q ++ "' not found")), w1)
         /\ updateRequests (turnOnRoomLights q brightness) w = [])
        /\ (turnOffRoomLights q w
              = (Rejected (NotFoundError ("Room with name '" ++ q ++ "' not found")), w1)
            /\ updateRequests (turnOffRoomLights q) w = [])).
Proof.
  split.
  - intros lights Ef Hno.
    pose proof (findLightByName_not_found w w1 lights q Ef Hno) as E.
    assert (Eon : turnLightOn q brightness w
                  = (Rejected (NotFoundError
                       ("Light with name '" ++ q ++ "' not found")), w1)).
    { unfold turnLightOn. cbv zeta. apply bind_rejected. exact E. }
    assert (Eoff : turnLightOff q w
                   = (Rejected (NotFoundError
                        ("Light with name '" ++ q ++ "' not found")), w1)).
    { unfold turnLightOff. apply bind_rejected. exact E. }
    split; (split; [ assumption | ]).
    + rewrite (updateRequests_same_world _ (findLightByName q)).
      * apply Quiet_updateRequests, Quiet_findLightByName.
      * rewrite Eon, E. reflexivity.
    + rewrite (updateRequests_same_world _ (findLightByName q)).
      * apply Quiet_updateRequests, Quiet_findLightByName.
      * rewrite Eoff, E. reflexivity.
  - intros rooms Ef Hno.
    assert (E : findRoomByName q w
                = (Rejected (NotFoundError
                     ("Room with name '" ++ q ++ "' not found")), w1)).
    { rewrite findRoomByName_fetch, (bind_step _ _ _ _ _ Ef).
      destruct (find _ rooms) as [r |] eqn:E; [ | reflexivity ].
      apply find_some in E as (Hin & E). apply strictEquals_true in E.
      destruct (Hno r Hin E). }
    assert (Eon : turnOnRoomLights q brightness w
                  = (Rejected (NotFoundError
                       ("Room with name '" ++ q ++ "' not found")), w1)).
    { unfold turnOnRoomLights. cbv zeta. apply bind_rejected. exact E. }
    assert (Eoff : turnOffRoomLights q w
                   = (Rejected (NotFoundError
                        ("Room with name '" ++ q ++ "' not found")), w1)).
    { unfold turnOffRoomLights. apply bind_rejected. exact E. }
    split; (split; [ assumption | ]).
    + rewrite (updateRequests_same_world _ (findRoomByName q)).
      * apply Quiet_updateRequests, Quiet_findRoomByName.
      * rewrite Eon, E. reflexivity.
    + rewrite (updateRequests_same_world _ (findRoomByName q)).
      * apply Quiet_updateRequests, Quiet_findRoomByName.
      * rewrite Eoff, E. reflexivity.
Qed.

Lemma unknown_name_issues_no_update_witness :
  ((fetchLights (H := Reference.runtime) Home.configured
      = (Resolved [Home.kitchen; Home.unnamed; Home.desk],
         snd (fetchLights (H := Reference.runtime) Home.configured))
    /\ (forall l, In l [Home.kitchen; Home.unnamed; Home.desk] ->
                  metadataName l <> Some "Garage"))
   /\ turnLightOn (H := Reference.runtime) "Garage" None Home.configured
      = (Rejected (NotFoundError ("Light with name '" ++ "Garage" ++ "' not found")),
         snd (fetchLights (H := Reference.runtime) Home.configured))
   /\ updateRequests (turnLightOff (H := Reference.runtime) "Garage")
        Home.configured = [])
  /\ ((fetchRooms (H := Reference.runtime) Home.configured
         = (Resolved [Home.office; Home.living],
            snd (fetchRooms (H := Reference.runtime) Home.configured))
       /\ (forall r, In r [Home.office; Home.living] ->
                     option_map Reference.lower (metadataName r)
                     <> Some (Reference.lower "Garage")))
      /\ turnOffRoomLights (H := Reference.runtime) "Garage" Home.configured
         = (Rejected (NotFoundError ("Room with name '" ++ "Garage" ++ "' not found")),
            snd (fetchRooms (H := Reference.runtime) Home.configured))
      /\ updateRequests (turnOnRoomLights (H := Reference.runtime) "Garage" None)
           Home.configured = []).
Proof.
  assert (HL : forall l, In l [Home.kitchen; Home.unnamed; Home.desk] ->
                         metadataName l <> Some "Garage").
  { intros l [<- | [<- | [<- | []]]]; discriminate. }
  assert (HR : forall r, In r [Home.office; Home.living] ->
                         option_map Reference.lower (metadataName r)
                         <> Some (Reference.lower "Garage")).
  { intros r [<- | [<- | []]]; discriminate. }
  split.
  - split; [ split; [ vm_compute; reflexivity | exact HL ] | ].
    destruct (unknown_name_issues_no_update (H := Reference.runtime)
                Home.configured
                (snd (fetchLights (H := Reference.runtime) Home.configured))
                "Garage" None) as [Lights _].
    destruct (Lights [Home.kitchen; Home.unnamed; Home.desk])
      as [[On _] [_ Off]];
      [ vm_compute; reflexivity | exact HL | ].
    split; assumption.
  - split; [ split; [ vm_compute; reflexivity | exact HR ] | ].
    destruct (unknown_name_issues_no_update (H := Reference.runtime)
                Home.configured
                (snd (fetchRooms (H := Reference.runtime) Home.configured))
                "Garage" None) as [_ Rooms].
    destruct (Rooms [Home.office; Home.living])
      as [[_ On] [Off _]];
      [ vm_compute; reflexivity | exact HR | ].
    split; assumption.
Defined.

(** ** Sorted listings *)

Lemma sortInsert_perm comparefn x l :
  Permutation (x :: l) (sortInsert comparefn x l).
Proof.
  induction l as [| y rest IH]; simpl.
  - apply Permutation_refl.
  - destruct (comparefn x y <=? 0)%Z.
    + apply Permutation_refl.
    + apply perm_trans with (y :: x :: rest).
      * apply perm_swap.
      * apply perm_skip. exact IH.
Qed.

Lemma sort_perm comparefn l : Permutation l (sort comparefn l).
Proof.
  induction l as [| x rest IH]; simpl.
  - apply perm_nil.
  - apply perm_trans with (x :: sort comparefn rest).
    + apply perm_skip. exact IH.
    + apply sortInsert_perm.
Qed.

Section SortedListings.
Context `{Runtime}.

(** [localeCompare] is a consistent comparator: any two strings are
    comparable and the order is transitive. *)
Hypothesis localeCompare_total :
  forall a b, (localeCompare a b <= 0 \/ localeCompare b a <= 0)%Z.
Hypothesis localeCompare_trans :
  forall a b c,
    (localeCompare a b <= 0 -> localeCompare b c <= 0 -> localeCompare a c <= 0)%Z.

Lemma sortInsert_HdRel a x l :
  ascending a x -> HdRel ascending a l ->
  HdRel ascending a (sortInsert localeCompare x l).
Proof.
  intros Hax Hal. destruct l as [| y rest]; simpl.
  - constructor. exact Hax.
  - destruct (localeCompare x y <=? 0)%Z.
    + constructor. exact Hax.
    + constructor. inversion Hal. assumption.
Qed.

Lemma sortInsert_Sorted x l :
  Sorted ascending l -> Sorted ascending (sortInsert localeCompare x l).
Proof.
  induction 1 as [| y rest Hs IH Hhd]; simpl.
  - repeat constructor.
  - destruct (localeCompare x y <=? 0)%Z eqn:E.
    + apply Z.leb_le in E. repeat constructor; assumption.
    + apply Z.leb_gt in E. constructor.
      * exact IH.
      * apply sortInsert_HdRel; [ | exact Hhd ].
        unfold ascending. destruct (localeCompare_total x y); [ lia | assumption ].
Qed.

Lemma sort_Sorted l : Sorted ascending (sort localeCompare l).
Proof.
  induction l as [| x rest IH]; simpl.
  - constructor.
  - apply sortInsert_Sorted. exact IH.
Qed.

Lemma sort_StronglySorted l : StronglySorted ascending (sort localeCompare l).
Proof.
  apply Sorted_StronglySorted.
  - intros a b c. apply localeCompare_trans.
  - apply sort_Sorted.
Qed.

(** C3: whatever list of lights (of rooms) the bridge returns, in whatever
    order, [listAllLights] ([listAllRooms]) resolves to the names of that
    list -- the display name, or "Light {id}" ("Room {id}") when it is
    missing or empty -- rearranged in ascending order of the comparator the
    code sorts with, [localeCompare]: every name compares lower than or equal
    to all later ones. *)
Theorem listAll_sorted_ascending (w w1 : World) (resources : list Resource) :
  (fetchLights w = (Resolved resources, w1) ->
   exists names,
     listAllLights w = (Resolved names, w1)
     /\ StronglySorted (fun a b => (localeCompare a b <= 0)%Z) names
     /\ Permutation
          (map (fun l =>
                  match metadata l with
                  | Some (mkMetadata (Some display)) =>
                      if display =? "" then "Light " ++ id l else display
                  | _ => "Light " ++ id l
                  end) resources)
          names)
  /\ (fetchRooms w = (Resolved resources, w1) ->
      exists names,
        listAllRooms w = (Resolved names, w1)
        /\ StronglySorted (fun a b => (localeCompare a b <= 0)%Z) names
        /\ Permutation
             (map (fun r =>
                     match metadata r with
                     | Some (mkMetadata (Some display)) =>
                         if display =? "" then "Room " ++ id r else display
                     | _ => "Room " ++ id r
                     end) resources)
             names).
Proof.
  assert (Hname : forall kind resource,
            nameOrDefault kind resource
            = match metadata resource with
              | Some (mkMetadata (Some display)) =>
                  if display =? "" then kind ++ " " ++ id resource else display
              | _ => kind ++ " " ++ id resource
              end).
  { intros kind [i [[[display |]] |] ss]; try reflexivity.
    unfold nameOrDefault, metadataName. simpl. destruct (display =? ""); reflexivity. }
  split; intro Ef.
  - exists (sort localeCompare (map (nameOrDefault "Light") resources)).
    split; [ | split ].
    + rewrite listAllLights_fetch, (bind_step _ _ _ _ _ Ef). reflexivity.
    + apply sort_StronglySorted.
    + rewrite <- (map_ext _ _ (Hname "Light")). apply sort_perm.
  - exists (sort localeCompare (map (nameOrDefault "Room") resources)).
    split; [ | split ].
    + rewrite listAllRooms_fetch, (bind_step _ _ _ _ _ Ef). reflexivity.
    + apply sort_StronglySorted.
    + rewrite <- (map_ext _ _ (Hname "Room")). apply sort_perm.
Qed.

(** The order in which the bridge returns the resources does not matter
    when distinct names never compare equal. *)
Lemma sort_permutation_invariant l l' :
  (forall a b, (localeCompare a b <= 0 -> localeCompare b a <= 0 -> a = b)%Z) ->
  Permutation l l' -> sort localeCompare l = sort localeCompare l'.
Proof.
  intros Hanti Hp.
  assert (Hs : forall s s', StronglySorted ascending s ->
                            StronglySorted ascending s' ->
                            Permutation s s' -> s = s').
  { induction s as [| a s IH]; intros s' Hs Hs' Hperm.
    - apply Permutation_nil in Hperm. auto.
    - destruct s' as [| a' s'].
      + apply Permutation_sym, Permutation_nil in Hperm. discriminate.
      + apply StronglySorted_inv in Hs as (Hs & Ha).
        apply StronglySorted_inv in Hs' as (Hs' & Ha').
        assert (a = a').
        { assert (Hin : In a (a' :: s'))
            by (apply (Permutation_in _ Hperm); left; reflexivity).
          assert (Hin' : In a' (a :: s))
            by (apply (Permutation_in _ (Permutation_sym Hperm)); left; reflexivity).
          destruct Hin as [-> | Hin]; [ reflexivity | ].
          destruct Hin' as [-> | Hin']; [ reflexivity | ].
          rewrite Forall_forall in Ha, Ha'.
          symmetry. apply Hanti; [ apply Ha' | apply Ha ]; assumption. }
        subst a'. f_equal. apply IH; try assumption.
        apply Permutation_cons_inv with a. exact Hperm. }
  apply Hs; try apply sort_StronglySorted.
  apply perm_trans with l; [ apply Permutation_sym, sort_perm | ].
  apply perm_trans with l'; [ exact Hp | apply sort_perm ].
Qed.
End SortedListings.

(** The reference comparator is consistent. *)
Lemma compareCodeUnits_total a b :
  (Reference.compareCodeUnits a b <= 0 \/ Reference.compareCodeUnits b a <= 0)%Z.
Proof.
  revert b. induction a as [| x a IH]; intros [| y b]; simpl; try lia.
  destruct (N.eqb_spec (N_of_ascii x) (N_of_ascii y)) as [E | E].
  - rewrite E, N.eqb_refl. apply IH.
  - destruct (N.eqb_spec (N_of_ascii y) (N_of_ascii x)) as [E' | E'];
      [ congruence | ].
    destruct (N.ltb_spec (N_of_ascii x) (N_of_ascii y));
      destruct (N.ltb_spec (N_of_ascii y) (N_of_ascii x)); lia.
Qed.

Lemma compareCodeUnits_trans a b c :
  (Reference.compareCodeUnits a b <= 0 ->
   Reference.compareCodeUnits b c <= 0 ->
   Reference.compareCodeUnits a c <= 0)%Z.
Proof.
  revert b c. induction a as [| x a IH]; intros [| y b] [| z c]; simpl; try lia.
  destruct (N.eqb_spec (N_of_ascii x) (N_of_ascii y)) as [Exy | Exy];
    destruct (N.eqb_spec (N_of_ascii y) (N_of_ascii z)) as [Eyz | Eyz];
    destruct (N.eqb_spec (N_of_ascii x) (N_of_ascii z)) as [Exz | Exz];
    destruct (N.ltb_spec (N_of_ascii x) (N_of_ascii y));
    destruct (N.ltb_spec (N_of_ascii y) (N_of_ascii z));
    destruct (N.ltb_spec (N_of_ascii x) (N_of_ascii z));
    try lia; apply IH.
Qed.

Lemma listAll_sorted_ascending_witness :
  ((forall a b, (Reference.compareCodeUnits a b <= 0
                 \/ Reference.compareCodeUnits b a <= 0)%Z)
   /\ (forall a b c, (Reference.compareCodeUnits a b <= 0 ->
                      Reference.compareCodeUnits b c <= 0 ->
                      Reference.compareCodeUnits a c <= 0)%Z))
  /\ (fetchLights (H := Reference.runtime) Home.firstStart
        = (Resolved [Home.kitchen; Home.unnamed; Home.desk],
           snd (fetchLights (H := Reference.runtime) Home.firstStart))
      /\ exists names,
           listAllLights (H := Reference.runtime) Home.firstStart
             = (Resolved names,
                snd (fetchLights (H := Reference.runtime) Home.firstStart))
           /\ StronglySorted
                (fun a b => (Reference.compareCodeUnits a b <= 0)%Z) names
           /\ Permutation ["Kitchen"; "Light light-2"; "Desk"] names)
  /\ (fetchRooms (H := Reference.runtime) Home.firstStart
        = (Resolved [Home.office; Home.living],
           snd (fetchRooms (H := Reference.runtime) Home.firstStart))
      /\ exists names,
           listAllRooms (H := Reference.runtime) Home.firstStart
             = (Resolved names,
                snd (fetchRooms (H := Reference.runtime) Home.firstStart))
           /\ StronglySorted
                (fun a b => (Reference.compareCodeUnits a b <= 0)%Z) names
           /\ Permutation ["Office"; "Living Room"] names).
Proof.
  assert (EL : fetchLights (H := Reference.runtime) Home.firstStart
               = (Resolved [Home.kitchen; Home.unnamed; Home.desk],
                  snd (fetchLights (H := Reference.runtime) Home.firstStart)))
    by (vm_compute; reflexivity).
  assert (ER : fetchRooms (H := Reference.runtime) Home.firstStart
               = (Resolved [Home.office; Home.living],
                  snd (fetchRooms (H := Reference.runtime) Home.firstStart)))
    by (vm_compute; reflexivity).
  split; [ split; [ exact compareCodeUnits_total | exact compareCodeUnits_trans ] | ].
  split.
  - split; [ exact EL | ].
    exact (proj1 (listAll_sorted_ascending (H := Reference.runtime)
                    compareCodeUnits_total compareCodeUnits_trans Home.firstStart
                    (snd (fetchLights (H := Reference.runtime) Home.firstStart))
                    [Home.kitchen; Home.unnamed; Home.desk]) EL).
  - split; [ exact ER | ].
    exact (proj2 (listAll_sorted_ascending (H := Reference.runtime)
                    compareCodeUnits_total compareCodeUnits_trans Home.firstStart
                    (snd (fetchRooms (H := Reference.runtime) Home.firstStart))
                    [Home.office; Home.living]) ER).
Defined.

(** What the two listings are on the example bridge. *)
Example listAll_on_example_bridge :
  fst (listAllLights (H := Reference.runtime) Home.firstStart)
    = Resolved ["Desk"; "Kitchen"; "Light light-2"]
  /\ fst (listAllRooms (H := Reference.runtime) Home.firstStart)
     = Resolved ["Living Room"; "Office"].
Proof. split; vm_compute; reflexivity. Qed.

(** ** Saving and loading credentials *)

Lemma withDirectories_file created path f :
  files (Fs.withDirectories created path f) path = files f path.
Proof.
  unfold Fs.withDirectories. simpl. rewrite String.eqb_refl, andb_false_r.
  reflexivity.
Qed.

(** The file that a successful save leaves behind, when the path held no
    file or a regular one. *)
Lemma saveCredentialsToFile_writes `{Runtime} (w : World) (c : HueCredentials) :
  mkdirFails (fs w) (getCredentialsPath (env w)) = false ->
  writeFails (fs w) (getCredentialsPath (env w)) = false ->
  devices (fs w) (getCredentialsPath (env w)) = false ->
  files (fs w) (getCredentialsPath (env w)) = Absent
  \/ (exists old, files (fs w) (getCredentialsPath (env w)) = Content old) ->
  exists w',
    saveCredentialsToFile c w = (Resolved tt, w')
    /\ env w' = env w
    /\ files (fs w') (getCredentialsPath (env w))
       = Content (JSON_stringify (credentialsObject c)).
Proof.
  intros Hm Hw Hd Hfile.
  unfold saveCredentialsToFile, bind, gets, tryCatch, Fs.mkdirParent, Fs.writeFile.
  cbv zeta. rewrite Hm. cbn [fs withFs env Fs.withDirectories writeFails devices].
  rewrite Hw, Hd.
  change (files
            (mkFileSystem
               (fun p =>
                  if existsb (String.eqb p)
                       (mkdirCreates (fs w) (getCredentialsPath (env w)))
                     && negb (p =? getCredentialsPath (env w))
                  then match files (fs w) p with
                       | Absent => Directory
                       | state => state
                       end
                  else files (fs w) p)
               (mkdirCreates (fs w)) (mkdirFails (fs w)) (writeFails (fs w))
               (devices (fs w)))
            (getCredentialsPath (env w)))
    with (files (Fs.withDirectories
                   (mkdirCreates (fs w) (getCredentialsPath (env w)))
                   (getCredentialsPath (env w)) (fs w))
            (getCredentialsPath (env w))).
  rewrite withDirectories_file.
  destruct Hfile as [-> | (old & ->)];
    (eexists; split; [ reflexivity | ]; split; [ reflexivity | ];
     simpl; rewrite String.eqb_refl; reflexivity).
Qed.


(** What loading returns for a file that parses. *)
Lemma readCredentialsFromFile_parsed `{Runtime} (w : World) fileContent v u k :
  files (fs w) (getCredentialsPath (env w)) = Content fileContent ->
  JSON_parse fileContent = Some v ->
  getProp v "username" = Some u ->
  getProp v "clientKey" = Some k ->
  readCredentialsFromFile w
    = (Resolved (if truthy u && truthy k then Some v else None), w).
Proof.
  intros Ef Ep Eu Ek.
  unfold readCredentialsFromFile, bind, gets, tryCatch, Fs.readFile, property.
  rewrite Ef, Ep. unfold ret at 1. rewrite Eu. unfold ret at 1.
  destruct (truthy u); [ | reflexivity ].
  rewrite Ek. unfold ret at 1. destruct (truthy k); reflexivity.
Qed.

(** C6, as the code has it: when both fields of the credentials are
    non-empty, the directory can be made and the file written, and the path
    holds no file or a readable one and is no device (so that what is
    written reads back), saving the credentials and then loading from the same path yields
    an object equal to them.  [JSON.parse] and [JSON.stringify] are the
    runtime's: the theorem takes from ECMA-262 that the first reads back what
    the second printed for these credentials. *)
Theorem credentials_roundtrip `{Runtime} (w : World) (c : HueCredentials) :
  username c <> "" ->
  clientKey c <> "" ->
  mkdirFails (fs w) (getCredentialsPath (env w)) = false ->
  writeFails (fs w) (getCredentialsPath (env w)) = false ->
  devices (fs w) (getCredentialsPath (env w)) = false ->
  files (fs w) (getCredentialsPath (env w)) = Absent
  \/ (exists old, files (fs w) (getCredentialsPath (env w)) = Content old) ->
  JSON_parse
    (JSON_stringify (JsObject [("username", JsString (username c));
                               ("clientKey", JsString (clientKey c))]))
  = Some (JsObject [("username", JsString (username c));
                    ("clientKey", JsString (clientKey c))]) ->
  exists w',
    saveCredentialsToFile c w = (Resolved tt, w')
    /\ readCredentialsFromFile w'
       = (Resolved
            (Some (JsObject [("username", JsString (username c));
                             ("clientKey", JsString (clientKey c))])),
          w').
Proof.
  intros Hu Hk Hm Hw Hd Hfile Hjson.
  destruct (saveCredentialsToFile_writes w c Hm Hw Hd Hfile)
    as (w' & Es & Eenv & Efile).
  exists w'. split; [ exact Es | ].
  rewrite <- Eenv in Efile.
  rewrite (readCredentialsFromFile_parsed w' _ (credentialsObject c)
             (JsString (username c)) (JsString (clientKey c)) Efile Hjson);
    try reflexivity.
  apply String.eqb_neq in Hu, Hk. simpl. rewrite Hu, Hk. reflexivity.
Qed.

Lemma credentials_roundtrip_witness :
  (username (mkHueCredentials "user-1" "key-1") <> ""
   /\ clientKey (mkHueCredentials "user-1" "key-1") <> ""
   /\ mkdirFails (fs Home.firstStart)
        (getCredentialsPath (env Home.firstStart)) = false
   /\ writeFails (fs Home.firstStart)
        (getCredentialsPath (env Home.firstStart)) = false
   /\ devices (fs Home.firstStart)
        (getCredentialsPath (env Home.firstStart)) = false
   /\ files (fs Home.firstStart) (getCredentialsPath (env Home.firstStart)) = Absent
   /\ JSON_parse (Runtime := Reference.runtime)
        (JSON_stringify (Runtime := Reference.runtime)
           (JsObject [("username", JsString "user-1");
                      ("clientKey", JsString "key-1")]))
      = Some (JsObject [("username", JsString "user-1");
                        ("clientKey", JsString "key-1")]))
  /\ exists w',
       saveCredentialsToFile (H := Reference.runtime)
         (mkHueCredentials "user-1" "key-1") Home.firstStart = (Resolved tt, w')
       /\ readCredentialsFromFile (H := Reference.runtime) w'
          = (Resolved
               (Some (JsObject [("username", JsString "user-1");
                                ("clientKey", JsString "key-1")])),
             w').
Proof.
  split.
  - repeat split; try discriminate; vm_compute; reflexivity.
  - apply (credentials_roundtrip (H := Reference.runtime) Home.firstStart
             (mkHueCredentials "user-1" "key-1")).
    + discriminate.
    + discriminate.
    + reflexivity.
    + reflexivity.
    + reflexivity.
    + left. reflexivity.
    + vm_compute. reflexivity.
Defined.

(** C6 as stated fails: credentials with an empty field are written but
    load as [null]; on a path that cannot be written the save is swallowed
    and nothing is there to load; and a file that may be written but not
    read, or the device [/dev/null], takes the save and still loads as
    [null]. *)
Lemma credentials_roundtrip_counterexample :
  (fst (bind (saveCredentialsToFile (H := Reference.runtime)
                (mkHueCredentials "" ""))
          (fun _ => readCredentialsFromFile (H := Reference.runtime))
          Home.firstStart)
     = Resolved None
   /\ fst (bind (saveCredentialsToFile (H := Reference.runtime)
                   (mkHueCredentials "" ""))
             (fun _ => readCredentialsFromFile (H := Reference.runtime))
             Home.firstStart)
      <> Resolved (Some (JsObject [("username", JsString "");
                                   ("clientKey", JsString "")])))
  /\ (fst (bind (saveCredentialsToFile (H := Reference.runtime)
                   (mkHueCredentials "user-1" "key-1"))
             (fun _ => readCredentialsFromFile (H := Reference.runtime))
             Home.readOnlyHome)
        = Resolved None
      /\ fst (bind (saveCredentialsToFile (H := Reference.runtime)
                      (mkHueCredentials "user-1" "key-1"))
                (fun _ => readCredentialsFromFile (H := Reference.runtime))
                Home.readOnlyHome)
         <> Resolved (Some (JsObject [("username", JsString "user-1");
                                      ("clientKey", JsString "key-1")])))
  /\ (fst (bind (saveCredentialsToFile (H := Reference.runtime)
                   (mkHueCredentials "user-1" "key-1"))
             (fun _ => readCredentialsFromFile (H := Reference.runtime))
             Cases.writeOnlyFile)
        = Resolved None
      /\ fst (bind (saveCredentialsToFile (H := Reference.runtime)
                      (mkHueCredentials "user-1" "key-1"))
                (fun _ => readCredentialsFromFile (H := Reference.runtime))
                Cases.writeOnlyFile)
         <> Resolved (Some (JsObject [("username", JsString "user-1");
                                      ("clientKey", JsString "key-1")])))
  /\ (fst (bind (saveCredentialsToFile (H := Reference.runtime)
                   (mkHueCredentials "user-1" "key-1"))
             (fun _ => readCredentialsFromFile (H := Reference.runtime))
             Cases.nullDevice)
        = Resolved None
      /\ fst (bind (saveCredentialsToFile (H := Reference.runtime)
                      (mkHueCredentials "user-1" "key-1"))
                (fun _ => readCredentialsFromFile (H := Reference.runtime))
                Cases.nullDevice)
         <> Resolved (Some (JsObject [("username", JsString "user-1");
                                      ("clientKey", JsString "key-1")]))).
Proof.
  assert (E1 : fst (bind (saveCredentialsToFile (H := Reference.runtime)
                            (mkHueCredentials "" ""))
                      (fun _ => readCredentialsFromFile (H := Reference.runtime))
                      Home.firstStart) = Resolved None)
    by (vm_compute; reflexivity).
  assert (E2 : fst (bind (saveCredentialsToFile (H := Reference.runtime)
                            (mkHueCredentials "user-1" "key-1"))
                      (fun _ => readCredentialsFromFile (H := Reference.runtime))
                      Home.readOnlyHome) = Resolved None)
    by (vm_compute; reflexivity).
  assert (E3 : fst (bind (saveCredentialsToFile (H := Reference.runtime)
                            (mkHueCredentials "user-1" "key-1"))
                      (fun _ => readCredentialsFromFile (H := Reference.runtime))
                      Cases.writeOnlyFile) = Resolved None)
    by (vm_compute; reflexivity).
  assert (E4 : fst (bind (saveCredentialsToFile (H := Reference.runtime)
                            (mkHueCredentials "user-1" "key-1"))
                      (fun _ => readCredentialsFromFile (H := Reference.runtime))
                      Cases.nullDevice) = Resolved None)
    by (vm_compute; reflexivity).
  repeat split; try assumption.
  - rewrite E1. discriminate.
  - rewrite E2. discriminate.
  - rewrite E3. discriminate.
  - rewrite E4. discriminate.
Qed.

(** ** The reference runtime reads back the credentials it prints *)

Lemma parseStringBody_escapeChar c tail :
  Reference.parseStringBody (Reference.escapeChar c ++ tail)
  = Reference.consChar c (Reference.parseStringBody tail).
Proof. destruct c as [[] [] [] [] [] [] [] []]; reflexivity. Qed.

Lemma append_assoc (a b c : string) : (a ++ b) ++ c = a ++ (b ++ c).
Proof. induction a as [| x a IH]; simpl; congruence. Qed.

Lemma parseStringBody_escape s rest :
  Reference.parseStringBody (Reference.escape s ++ String Reference.quoteChar rest)
  = Some (s, rest).
Proof.
  induction s as [| c s IH].
  - reflexivity.
  - cbn [Reference.escape].
    rewrite append_assoc, parseStringBody_escapeChar, IH. reflexivity.
Qed.

Lemma stringify_credentials u k :
  Reference.stringify (credentialsObject (mkHueCredentials u k))
  = Reference.credentialsText u k.
Proof.
  unfold Reference.stringify, credentialsObject, Reference.credentialsText,
    Reference.quote.
  cbn. rewrite !append_assoc. cbn. rewrite !append_assoc. reflexivity.
Qed.

Lemma parseValue_credentials n u k :
  Reference.parseValue (4 + n) (Reference.credentialsText u k)
  = Some (credentialsObject (mkHueCredentials u k), "").
Proof.
  unfold Reference.credentialsText, credentialsObject. cbn.
  change (Ascii false true false false false true false false)
    with Reference.quoteChar.
  rewrite parseStringBody_escape. cbn.
  change (Ascii false true false false false true false false)
    with Reference.quoteChar.
  rewrite parseStringBody_escape. reflexivity.
Qed.

Lemma parse_stringify_credentials (c : HueCredentials) :
  Reference.parse (Reference.stringify (credentialsObject c))
  = Some (credentialsObject c).
Proof.
  destruct c as [u k]. rewrite stringify_credentials. unfold Reference.parse.
  replace (2 * String.length (Reference.credentialsText u k) + 2)
    with (4 + 2 * (String.length (Reference.credentialsText u k) - 1))
    by (unfold Reference.credentialsText; simpl String.length; lia).
  rewrite parseValue_credentials. reflexivity.
Qed.

(** On the reference runtime the round trip needs no assumption on JSON. *)
Corollary credentials_roundtrip_reference (w : World) (c : HueCredentials) :
  username c <> "" ->
  clientKey c <> "" ->
  mkdirFails (fs w) (getCredentialsPath (env w)) = false ->
  writeFails (fs w) (getCredentialsPath (env w)) = false ->
  devices (fs w) (getCredentialsPath (env w)) = false ->
  files (fs w) (getCredentialsPath (env w)) = Absent
  \/ (exists old, files (fs w) (getCredentialsPath (env w)) = Content old) ->
  exists w',
    saveCredentialsToFile (H := Reference.runtime) c w = (Resolved tt, w')
    /\ readCredentialsFromFile (H := Reference.runtime) w'
       = (Resolved (Some (credentialsObject c)), w').
Proof.
  intros Hu Hk Hm Hw Hd Hfile.
  destruct (saveCredentialsToFile_writes (H := Reference.runtime) w c Hm Hw Hd
              Hfile)
    as (w' & Es & Eenv & Efile).
  exists w'. split; [ exact Es | ].
  rewrite <- Eenv in Efile.
  rewrite (readCredentialsFromFile_parsed (H := Reference.runtime) w' _
             (credentialsObject c)
             (JsString (username c)) (JsString (clientKey c)) Efile
             (parse_stringify_credentials c));
    try reflexivity.
  apply String.eqb_neq in Hu, Hk. simpl. rewrite Hu, Hk. reflexivity.
Qed.

(** Registration touches neither the file system nor the environment. *)
Lemma createNewHueUser_frame `{Runtime} (w w' : World) (c : HueCredentials) :
  createNewHueUser w = (Resolved c, w') ->
  fs w' = fs w /\ env w' = env w.
Proof.
  unfold createNewHueUser. intro Ec.
  apply bind_resolved in Ec as (ip & wa & Ea & Ec).
  unfold gets in Ea. injection Ea as _ <-.
  apply bind_resolved in Ec as (? & wb & Eb & Ec).
  assert (fs wb = fs w /\ env wb = env w) as (Fb & Vb).
  { destruct (truthyStr ip).
    - unfold ret in Eb. injection Eb as _ <-. auto.
    - unfold discoverBridge, bind, gets in Eb.
      destruct (truthyStr (bridgeIp (this w))).
      + unfold ret in Eb. injection Eb as _ <-. auto.
      + destruct (mdns w); try discriminate Eb.
        simpl in Eb. injection Eb as _ <-. auto. }
  apply bind_resolved in Ec as (ip' & wc & Ecc & Ec).
  unfold gets in Ecc. injection Ecc as _ <-.
  destruct (negb (truthyStr _)); [ discriminate Ec | ].
  apply tryCatch_resolved in Ec as [Ec | (e & wd & _ & Ec)]; [ | discriminate Ec ].
  apply bind_resolved in Ec as (uc & wd & Ed & Ec).
  assert (wd = wb) as ->.
  { unfold user, UserClient.new in Ed.
    destruct (URL_hostname _); [ | discriminate Ed ].
    unfold ret in Ed. injection Ed as _ <-. reflexivity. }
  apply bind_resolved in Ec as (response & we & Ee & Ec).
  assert (fs we = fs wb /\ env we = env wb) as (Fe & Ve).
  { unfold UserClient.createUser, Axios.post in Ee.
    injection Ee as _ <-. auto. }
  destruct (nth_error response 0) as [entry |]; [ | discriminate Ec ].
  destruct (error entry); [ discriminate Ec | ].
  cbv zeta in Ec. destruct (negb (truthyStr _)); [ discriminate Ec | ].
  unfold ret in Ec. injection Ec as _ <-.
  rewrite Fe, Ve. auto.
Qed.

(** X9: the credentials that a first start registers and saves are the
    ones that the next start loads (registered credentials are never empty):
    when the credentials file is missing and is no device, its directory can
    be made and the file written, and [JSON.parse] reads back what [JSON.stringify] printed,
    loading after [getHueCredentials] returns what it returned. *)
Lemma bootstrap_then_load `{Runtime} (w w' : World) v :
  files (fs w) (getCredentialsPath (env w)) = Absent ->
  getHueCredentials w = (Resolved v, w') ->
  mkdirFails (fs w) (getCredentialsPath (env w)) = false ->
  writeFails (fs w) (getCredentialsPath (env w)) = false ->
  devices (fs w) (getCredentialsPath (env w)) = false ->
  JSON_parse (JSON_stringify v) = Some v ->
  readCredentialsFromFile w' = (Resolved (Some v), w').
Proof.
  intros Ea E Hm Hw Hd Hjson.
  assert (Er : readCredentialsFromFile w = (Resolved None, w)).
  { unfold readCredentialsFromFile, bind, gets, tryCatch, Fs.readFile.
    rewrite Ea. reflexivity. }
  unfold getHueCredentials in E. rewrite (bind_step _ _ _ _ _ Er) in E.
  apply bind_resolved in E as (c & w2 & Ec & E).
  destruct (createNewHueUser_resolved _ _ _ Ec) as (registered & Hne & ->).
  destruct (createNewHueUser_frame _ _ _ Ec) as (Efs & Eenv).
  apply bind_resolved in E as ([] & w3 & Es & E).
  unfold ret in E. injection E as <- <-.
  rewrite <- Efs, <- Eenv in Hm, Hw, Hd, Ea.
  destruct (saveCredentialsToFile_writes w2 (mkHueCredentials registered registered)
              Hm Hw Hd (or_introl Ea)) as (w4 & Es' & Eenv' & Efile).
  rewrite Es in Es'. injection Es' as <-.
  rewrite <- Eenv' in Efile.
  rewrite (readCredentialsFromFile_parsed w3 _
             (credentialsObject (mkHueCredentials registered registered))
             (JsString registered) (JsString registered) Efile Hjson);
    try reflexivity.
  apply String.eqb_neq in Hne. simpl. rewrite Hne. reflexivity.
Qed.

(** * Further properties of the code *)

(** ** Obtaining the API client *)

(** X1: once [getApiClient] has resolved, calling it again resolves to the
    same client and leaves the world as it is: the service state, the file
    system and the trace of requests are unchanged. *)
Theorem getApiClient_idempotent `{Runtime} (w w1 : World) (c : HueApiClient) :
  getApiClient w = (Resolved c, w1) ->
  getApiClient w1 = (Resolved c, w1).
Proof.
  intro E. apply getApiClient_cached. exact (getApiClient_caches w c w1 E).
Qed.

Lemma getApiClient_idempotent_witness :
  getApiClient (H := Reference.runtime) Home.firstStart
    = (Resolved (newHueApiClient "192.168.1.2" (JsString "user-83b7780291a6")),
       snd (getApiClient (H := Reference.runtime) Home.firstStart))
  /\ getApiClient (H := Reference.runtime)
       (snd (getApiClient (H := Reference.runtime) Home.firstStart))
     = (Resolved (newHueApiClient "192.168.1.2" (JsString "user-83b7780291a6")),
        snd (getApiClient (H := Reference.runtime) Home.firstStart)).
Proof.
  split.
  - vm_compute. reflexivity.
  - apply (getApiClient_idempotent (H := Reference.runtime) Home.firstStart).
    vm_compute. reflexivity.
Defined.

(** X2: a client that [getApiClient] creates is built from the service's
    own state afterwards: the bridge address is known and non-empty, the
    client key is truthy, the base URL is [https://{address}/clip/v2] and
    the key sent is the client key (the username is not used). *)
Theorem getApiClient_built_from_state `{Runtime} (w w1 : World) (c : HueApiClient) :
  apiClient (this w) = None ->
  getApiClient w = (Resolved c, w1) ->
  exists ip,
    bridgeIp (this w1) = Some ip
    /\ ip <> ""
    /\ truthy (hueClientKey (this w1)) = true
    /\ c = mkHueApiClient ("https://" ++ ip ++ "/clip/v2") (hueClientKey (this w1)).
Proof.
  unfold getApiClient. intros Ec E.
  apply bind_resolved in E as (cached & w0 & E0 & E).
  unfold gets in E0. injection E0 as <- <-. rewrite Ec in E.
  apply bind_resolved in E as (ip & w2 & _ & E).
  apply bind_resolved in E as (? & w3 & _ & E).
  apply bind_resolved in E as (s & w4 & _ & E).
  apply bind_resolved in E as (? & w5 & _ & E).
  apply bind_resolved in E as (s' & w6 & E6 & E).
  unfold gets in E6. injection E6 as <- <-.
  destruct (bridgeIp (this w5)) as [address |] eqn:Eip; [ | discriminate E ].
  simpl in E. destruct (address =? "") eqn:Ea; [ discriminate E | ].
  destruct (truthy (hueClientKey (this w5))) eqn:Ek; [ | discriminate E ].
  simpl in E.
  apply bind_resolved in E as (? & w7 & E7 & E).
  unfold modify in E7. injection E7 as _ <-.
  unfold ret in E. injection E as <- <-.
  exists address. simpl. rewrite Eip, Ek.
  repeat split. apply String.eqb_neq. exact Ea.
Qed.

Lemma getApiClient_built_from_state_witness :
  (apiClient (this Home.firstStart) = None
   /\ getApiClient (H := Reference.runtime) Home.firstStart
      = (Resolved (newHueApiClient "192.168.1.2" (JsString "user-83b7780291a6")),
         snd (getApiClient (H := Reference.runtime) Home.firstStart)))
  /\ exists ip,
       bridgeIp (this (snd (getApiClient (H := Reference.runtime) Home.firstStart)))
         = Some ip
       /\ ip <> ""
       /\ truthy (hueClientKey
                    (this (snd (getApiClient (H := Reference.runtime)
                                  Home.firstStart)))) = true
       /\ newHueApiClient "192.168.1.2" (JsString "user-83b7780291a6")
          = mkHueApiClient ("https://" ++ ip ++ "/clip/v2")
              (hueClientKey
                 (this (snd (getApiClient (H := Reference.runtime)
                               Home.firstStart)))).
Proof.
  split.
  - split; vm_compute; reflexivity.
  - apply (getApiClient_built_from_state (H := Reference.runtime) Home.firstStart).
    + reflexivity.
    + vm_compute. reflexivity.
Defined.



(** X4: when no client is cached yet, the bridge address is known and
    non-empty, the username or the client key is missing from the service
    (for instance only [HUE_USERNAME] is set) and the credentials file holds
    an object with truthy [username] and [clientKey], [getApiClient] takes
    both from the file, overwriting what the service had, and resolves to the
    client for that address with the file's client key; it issues no
    request. *)
Theorem getApiClient_takes_file_credentials `{Runtime}
    (w : World) (ip fileContent : string) (v u k : JsValue) :
  apiClient (this w) = None ->
  bridgeIp (this w) = Some ip ->
  ip <> "" ->
  truthy (hueUsername (this w)) = false \/ truthy (hueClientKey (this w)) = false ->
  files (fs w) (getCredentialsPath (env w)) = Content fileContent ->
  JSON_parse fileContent = Some v ->
  getProp v "username" = Some u -> truthy u = true ->
  getProp v "clientKey" = Some k -> truthy k = true ->
  exists w1,
    getApiClient w = (Resolved (newHueApiClient ip k), w1)
    /\ hueUsername (this w1) = u
    /\ hueClientKey (this w1) = k
    /\ issued getApiClient w = [].
Proof.
  intros Ec Eip Hne Hmiss Ef Ep Eu Tu Ek Tk. apply String.eqb_neq in Hne.
  pose proof (readCredentialsFromFile_parsed w fileContent v u k Ef Ep Eu Ek) as Er.
  rewrite Tu, Tk in Er. simpl in Er.
  assert (Hcond : negb (truthy (hueUsername (this w)))
                  || negb (truthy (hueClientKey (this w))) = true).
  { destruct Hmiss as [-> | ->]; [ reflexivity | apply orb_true_r ]. }
  assert (E : getApiClient w
              = (Resolved (newHueApiClient ip k),
                 setApiClient (newHueApiClient ip k) (setCredentials u k w))).
  { unfold getApiClient, bind at 1, gets at 1. rewrite Ec.
    unfold bind at 1, gets at 1. rewrite Eip. simpl truthyStr. rewrite Hne.
    simpl negb. unfold bind at 1, ret at 1.
    unfold bind at 1, gets at 1. rewrite Hcond.
    unfold bind at 1. unfold bind at 1. unfold getHueCredentials at 1.
    unfold bind at 1. rewrite Er. unfold ret at 1.
    unfold bind at 1, property at 1. rewrite Eu. unfold ret at 1.
    unfold bind at 1, property at 1. rewrite Ek. unfold ret at 1.
    unfold modify at 1. unfold bind at 1, gets at 1.
    simpl. rewrite Eip. simpl. rewrite Hne, Tk. reflexivity. }
  eexists. split; [ exact E | ]. repeat split.
  apply issued_app. rewrite E. simpl. rewrite app_nil_r. reflexivity.
Qed.

Lemma getApiClient_takes_file_credentials_witness :
  (apiClient (this Cases.secondStart) = None
   /\ bridgeIp (this Cases.secondStart) = Some "192.168.1.2"
   /\ "192.168.1.2" <> ""
   /\ hueUsername (this Cases.secondStart) = JsString "user-from-env"
   /\ truthy (hueClientKey (this Cases.secondStart)) = false
   /\ files (fs Cases.secondStart) (getCredentialsPath (env Cases.secondStart))
      = Content Cases.savedText
   /\ JSON_parse (Runtime := Reference.runtime) Cases.savedText
      = Some (credentialsObject (mkHueCredentials "user-9" "key-9")))
  /\ exists w1,
       getApiClient (H := Reference.runtime) Cases.secondStart
         = (Resolved (newHueApiClient "192.168.1.2" (JsString "key-9")), w1)
       /\ hueUsername (this w1) = JsString "user-9"
       /\ hueClientKey (this w1) = JsString "key-9"
       /\ issued (getApiClient (H := Reference.runtime)) Cases.secondStart = [].
Proof.
  split.
  - repeat split; try discriminate; vm_compute; reflexivity.
  - apply (getApiClient_takes_file_credentials (H := Reference.runtime)
             Cases.secondStart "192.168.1.2" Cases.savedText
             (credentialsObject (mkHueCredentials "user-9" "key-9"))
             (JsString "user-9") (JsString "key-9"));
      first [ reflexivity | discriminate | right; reflexivity
            | vm_compute; reflexivity ].
Defined.

(** ** The credentials file *)

(** X5: what [readCredentialsFromFile] returns is what the file holds:
    a non-null result is the value the file's content parses to, and its
    [username] and [clientKey] are both truthy; the world is unchanged. *)
Theorem readCredentialsFromFile_sound `{Runtime} (w w' : World) (v : JsValue) :
  readCredentialsFromFile w = (Resolved (Some v), w') ->
  w' = w
  /\ exists fileContent u k,
       files (fs w) (getCredentialsPath (env w)) = Content fileContent
       /\ JSON_parse fileContent = Some v
       /\ getProp v "username" = Some u /\ truthy u = true
       /\ getProp v "clientKey" = Some k /\ truthy k = true.
Proof.
  unfold readCredentialsFromFile, bind, gets, tryCatch, Fs.readFile, property,
    ret, throw.
  destruct (files (fs w) _) as [ | | reason | fileContent ] eqn:Ef;
    try discriminate.
  destruct (JSON_parse fileContent) as [v0 |] eqn:Ep; [ | discriminate ].
  destruct (getProp v0 "username") as [u |] eqn:Eu; [ | discriminate ].
  destruct (truthy u) eqn:Tu; [ | discriminate ].
  destruct (getProp v0 "clientKey") as [k |] eqn:Ek; [ | discriminate ].
  destruct (truthy k) eqn:Tk; [ | discriminate ].
  intros [= <- <-]. split; [ reflexivity | ].
  exists fileContent, u, k. repeat split; assumption.
Qed.

Lemma readCredentialsFromFile_sound_witness :
  readCredentialsFromFile (H := Reference.runtime) Cases.secondStart
    = (Resolved (Some (credentialsObject (mkHueCredentials "user-9" "key-9"))),
       Cases.secondStart)
  /\ (Cases.secondStart = Cases.secondStart
      /\ exists fileContent u k,
           files (fs Cases.secondStart) (getCredentialsPath (env Cases.secondStart))
             = Content fileContent
           /\ JSON_parse (Runtime := Reference.runtime) fileContent
              = Some (credentialsObject (mkHueCredentials "user-9" "key-9"))
           /\ getProp (credentialsObject (mkHueCredentials "user-9" "key-9"))
                "username" = Some u
           /\ truthy u = true
           /\ getProp (credentialsObject (mkHueCredentials "user-9" "key-9"))
                "clientKey" = Some k
           /\ truthy k = true).
Proof.
  split.
  - vm_compute. reflexivity.
  - apply (readCredentialsFromFile_sound (H := Reference.runtime) Cases.secondStart).
    vm_compute. reflexivity.
Defined.

Lemma withDirectories_other created path f p :
  ~ In p created -> files (Fs.withDirectories created path f) p = files f p.
Proof.
  intro Hno. unfold Fs.withDirectories. simpl.
  destruct (existsb (String.eqb p) created) eqn:E; [ | reflexivity ].
  apply existsb_exists in E as (d & Hd & E). apply String.eqb_eq in E. subst d.
  destruct (Hno Hd).
Qed.

Lemma withDirectories_created created path f d :
  In d created -> d <> path -> files f d = Absent ->
  files (Fs.withDirectories created path f) d = Directory.
Proof.
  intros Hd Hne Ea. unfold Fs.withDirectories. simpl.
  assert (E : existsb (String.eqb d) created = true).
  { apply existsb_exists. exists d. split; [ exact Hd | apply String.eqb_refl ]. }
  apply String.eqb_neq in Hne. rewrite E, Hne, Ea. reflexivity.
Qed.

(** Where a save leaves the world, whether it wrote or not. *)
Lemma saveCredentialsToFile_result `{Runtime} (w : World) (c : HueCredentials) :
  exists w',
    saveCredentialsToFile c w = (Resolved tt, w')
    /\ env w' = env w
    /\ this w' = this w
    /\ trace w' = trace w
    /\ forall p, p <> getCredentialsPath (env w) ->
         files (fs w') p
         = files (Fs.withDirectories
                    (mkdirCreates (fs w) (getCredentialsPath (env w)))
                    (getCredentialsPath (env w)) (fs w)) p.
Proof.
  unfold saveCredentialsToFile, bind, gets, tryCatch, Fs.mkdirParent, Fs.writeFile,
    ret.
  cbv zeta.
  destruct (mkdirFails (fs w) _); [ eexists; repeat split; reflexivity | ].
  cbn [fs withFs env writeFails devices Fs.withDirectories].
  destruct (writeFails (fs w) _); [ eexists; repeat split; reflexivity | ].
  match goal with
  | |- context [match ?state with Absent => _ | _ => _ end] =>
      destruct state; try (eexists; repeat split; reflexivity)
  end;
    (destruct (devices (fs w) _); [ eexists; repeat split; reflexivity | ];
     eexists; split; [ reflexivity | ]; repeat split;
     intros p Hp; apply String.eqb_neq in Hp; simpl; rewrite Hp; reflexivity).
Qed.

(** X6: [saveCredentialsToFile] never rejects and touches nothing but the
    credentials file and the parent directories that [mkdir] creates: the
    service state and the trace of requests are as before, every other path
    holds what it held, and a missing directory that [mkdir] created is a
    directory afterwards. *)
Theorem saveCredentialsToFile_frame `{Runtime} (w : World) (c : HueCredentials) :
  exists w',
    saveCredentialsToFile c w = (Resolved tt, w')
    /\ this w' = this w
    /\ trace w' = trace w
    /\ (forall p, p <> getCredentialsPath (env w) ->
                  ~ In p (mkdirCreates (fs w) (getCredentialsPath (env w))) ->
                  files (fs w') p = files (fs w) p)
    /\ (forall d, In d (mkdirCreates (fs w) (getCredentialsPath (env w))) ->
                  d <> getCredentialsPath (env w) ->
                  files (fs w) d = Absent ->
                  files (fs w') d = Directory).
Proof.
  destruct (saveCredentialsToFile_result w c) as (w' & Es & _ & Et & Er & Hf).
  exists w'. repeat split; try assumption.
  - intros p Hp Hno. rewrite (Hf p Hp). apply withDirectories_other. exact Hno.
  - intros d Hd Hne Ha. rewrite (Hf d Hne).
    apply withDirectories_created; assumption.
Qed.

(** X7: when the credentials file holds an object with truthy [username]
    and [clientKey], [getHueCredentials] returns that object and registers no
    user: the world, and with it the trace of requests, is unchanged. *)
Theorem getHueCredentials_prefers_file `{Runtime}
    (w : World) (fileContent : string) (v u k : JsValue) :
  files (fs w) (getCredentialsPath (env w)) = Content fileContent ->
  JSON_parse fileContent = Some v ->
  getProp v "username" = Some u -> truthy u = true ->
  getProp v "clientKey" = Some k -> truthy k = true ->
  getHueCredentials w = (Resolved v, w).
Proof.
  intros Ef Ep Eu Tu Ek Tk.
  pose proof (readCredentialsFromFile_parsed w fileContent v u k Ef Ep Eu Ek) as Er.
  rewrite Tu, Tk in Er. simpl in Er.
  unfold getHueCredentials. rewrite (bind_step _ _ _ _ _ Er). reflexivity.
Qed.

Lemma getHueCredentials_prefers_file_witness :
  (files (fs Cases.secondStart) (getCredentialsPath (env Cases.secondStart))
     = Content Cases.savedText
   /\ JSON_parse (Runtime := Reference.runtime) Cases.savedText
      = Some (credentialsObject (mkHueCredentials "user-9" "key-9"))
   /\ truthy (JsString "user-9") = true
   /\ truthy (JsString "key-9") = true)
  /\ getHueCredentials (H := Reference.runtime) Cases.secondStart
     = (Resolved (credentialsObject (mkHueCredentials "user-9" "key-9")),
        Cases.secondStart).
Proof.
  split.
  - repeat split; vm_compute; reflexivity.
  - apply (getHueCredentials_prefers_file (H := Reference.runtime)
             Cases.secondStart Cases.savedText
             (credentialsObject (mkHueCredentials "user-9" "key-9"))
             (JsString "user-9") (JsString "key-9"));
      first [ reflexivity | vm_compute; reflexivity ].
Defined.




Lemma bootstrap_then_load_witness :
  (files (fs Home.firstStart) (getCredentialsPath (env Home.firstStart)) = Absent
   /\ getHueCredentials (H := Reference.runtime) Home.firstStart
      = (Resolved (credentialsObject
                     (mkHueCredentials "user-83b7780291a6" "user-83b7780291a6")),
         snd (getHueCredentials (H := Reference.runtime) Home.firstStart))
   /\ mkdirFails (fs Home.firstStart) (getCredentialsPath (env Home.firstStart))
      = false
   /\ writeFails (fs Home.firstStart) (getCredentialsPath (env Home.firstStart))
      = false
   /\ devices (fs Home.firstStart) (getCredentialsPath (env Home.firstStart))
      = false
   /\ JSON_parse (Runtime := Reference.runtime)
        (JSON_stringify (Runtime := Reference.runtime)
           (credentialsObject
              (mkHueCredentials "user-83b7780291a6" "user-83b7780291a6")))
      = Some (credentialsObject
                (mkHueCredentials "user-83b7780291a6" "user-83b7780291a6")))
  /\ readCredentialsFromFile (H := Reference.runtime)
       (snd (getHueCredentials (H := Reference.runtime) Home.firstStart))
     = (Resolved (Some (credentialsObject
                          (mkHueCredentials "user-83b7780291a6"
                             "user-83b7780291a6"))),
        snd (getHueCredentials (H := Reference.runtime) Home.firstStart)).
Proof.
  split.
  - repeat split; vm_compute; reflexivity.
  - apply (bootstrap_then_load (H := Reference.runtime) Home.firstStart);
      vm_compute; reflexivity.
Defined.

(** ** Registration *)

Lemma createNewHueUser_reaches_post `{Runtime} (w : World) (ip host : string) :
  bridgeIp (this w) = Some ip ->
  ip <> "" ->
  URL_hostname ("https://" ++ ip ++ "/clip/v2") = Some host ->
  createNewHueUser w
  = tryCatch
      (response <- UserClient.createUser
                     (UserClient.mk (newHueApiClient ip (JsString ""))
                        ("http://" ++ host ++ "/api"))
                     "hue-mcp-server#server" ;;
       match nth_error response 0 with
       | None =>
           throw (RuntimeTypeError
                    "Cannot read properties of undefined (reading 'error')")
       | Some entry =>
           match error entry with
           | Some failure =>
               throw (RegistrationError
                        ("Failed to create Hue user: "
                           ++ templateStr (description failure)))
           | None =>
               let registered :=
                 match success entry with
                 | Some s => success_username s
                 | None => None
                 end in
               if negb (truthyStr registered) then
                 throw (RegistrationError
                          "Failed to create Hue user: Unexpected response format")
               else
                 ret (mkHueCredentials (templateStr registered)
                                       (templateStr registered))
           end
       end)
      (fun e =>
         throw (RegistrationError ("Failed to create Hue user: " ++ message e))) w.
Proof.
  intros Eip Hne Eh. apply String.eqb_neq in Hne.
  unfold createNewHueUser, tryCatch, bind, gets, user, UserClient.new, ret.
  rewrite Eip. unfold truthyStr. rewrite Hne. cbn [negb].
  rewrite Eip. rewrite Hne. cbn [negb templateStr newHueApiClient baseUrl].
  rewrite Eh. reflexivity.
Qed.

(** X10: with a known bridge address, [createNewHueUser] issues exactly
    one request whatever the bridge answers: a POST to [http://{host}/api]
    with the body [{devicetype: 'hue-mcp-server#server'}] and an empty
    application key. *)
Theorem createNewHueUser_posts_once `{Runtime} (w : World) (ip host : string) :
  bridgeIp (this w) = Some ip ->
  ip <> "" ->
  URL_hostname ("https://" ++ ip ++ "/clip/v2") = Some host ->
  issued createNewHueUser w
  = [mkRequest POST ("http://" ++ host ++ "/api")
       (Some (JsObject [("devicetype", JsString "hue-mcp-server#server")]))
       (JsString "")].
Proof.
  intros Eip Hne Eh. apply issued_app.
  rewrite (createNewHueUser_reaches_post w ip host Eip Hne Eh).
  unfold tryCatch, bind, UserClient.createUser, Axios.post.
  simpl. destruct (postResponse (bridge w) _ _) as [response | | | |]; simpl;
    try reflexivity.
  destruct response as [| entry rest]; simpl; [ reflexivity | ].
  destruct (error entry); simpl; [ reflexivity | ].
  destruct (negb (truthyStr _)); reflexivity.
Qed.

Lemma createNewHueUser_posts_once_witness :
  (bridgeIp (this Cases.locked) = Some "192.168.1.2"
   /\ "192.168.1.2" <> ""
   /\ URL_hostname (Runtime := Reference.runtime)
        ("https://" ++ "192.168.1.2" ++ "/clip/v2") = Some "192.168.1.2")
  /\ issued (createNewHueUser (H := Reference.runtime)) Cases.locked
     = [mkRequest POST ("http://" ++ "192.168.1.2" ++ "/api")
          (Some (JsObject [("devicetype", JsString "hue-mcp-server#server")]))
          (JsString "")].
Proof.
  split.
  - repeat split; try discriminate; vm_compute; reflexivity.
  - apply (createNewHueUser_posts_once (H := Reference.runtime) Cases.locked
             "192.168.1.2" "192.168.1.2").
    + reflexivity.
    + discriminate.
    + vm_compute. reflexivity.
Defined.

(** X11: when the bridge answers the registration with an error entry
    (the link button was not pressed), [createNewHueUser] rejects, and the
    message carries the prefix twice, because the error thrown inside the
    [try] is caught and wrapped again:
    "Failed to create Hue user: Failed to create Hue user: {description}". *)
Theorem createNewHueUser_error_entry `{Runtime}
    (w : World) (ip host : string) entry rest failure :
  bridgeIp (this w) = Some ip ->
  ip <> "" ->
  URL_hostname ("https://" ++ ip ++ "/clip/v2") = Some host ->
  postResponse (bridge w) ("http://" ++ host ++ "/api")
    (JsObject [("devicetype", JsString "hue-mcp-server#server")])
  = Http2xx (entry :: rest) ->
  error entry = Some failure ->
  fst (createNewHueUser w)
  = Rejected (RegistrationError
                ("Failed to create Hue user: Failed to create Hue user: "
                   ++ templateStr (description failure))).
Proof.
  intros Eip Hne Eh Ep Ee.
  rewrite (createNewHueUser_reaches_post w ip host Eip Hne Eh).
  unfold tryCatch, bind, UserClient.createUser, Axios.post.
  cbn [UserClient.v1BaseUrl UserClient.axios].
  rewrite Ep. simpl. rewrite Ee. reflexivity.
Qed.

Lemma createNewHueUser_error_entry_witness :
  (bridgeIp (this Cases.locked) = Some "192.168.1.2"
   /\ "192.168.1.2" <> ""
   /\ URL_hostname (Runtime := Reference.runtime)
        ("https://" ++ "192.168.1.2" ++ "/clip/v2") = Some "192.168.1.2"
   /\ postResponse (bridge Cases.locked) ("http://" ++ "192.168.1.2" ++ "/api")
        (JsObject [("devicetype", JsString "hue-mcp-server#server")])
      = Http2xx [mkRegistrationEntry
                   (Some (mkRegistrationFailure (Some "link button not pressed")))
                   None])
  /\ fst (createNewHueUser (H := Reference.runtime) Cases.locked)
     = Rejected (RegistrationError
                   ("Failed to create Hue user: Failed to create Hue user: "
                      ++ templateStr
                           (description
                              (mkRegistrationFailure
                                 (Some "link button not pressed"))))).
Proof.
  split.
  - repeat split; try discriminate; vm_compute; reflexivity.
  - apply (createNewHueUser_error_entry (H := Reference.runtime) Cases.locked
             "192.168.1.2" "192.168.1.2"
             (mkRegistrationEntry
                (Some (mkRegistrationFailure (Some "link button not pressed")))
                None) []).
    + reflexivity.
    + discriminate.
    + vm_compute. reflexivity.
    + reflexivity.
    + reflexivity.
Defined.

(** ** The tools and the failures they report *)

Lemma bind_pending {A B} (m : Async A) (k : A -> Async B) w w1 :
  m w = (Pending, w1) -> bind m k w = (Pending, w1).
Proof. unfold bind. intros ->. reflexivity. Qed.

(** X12: no tool ever rejects: whatever the world, a tool handler resolves
    to a text result or does not settle; every error of the service is turned
    into text. *)
Theorem tools_never_reject `{Runtime}
    (w : World) (name : string) (brightness : option Z) (e : HueError) :
  fst (Tools.turnLightOn name w) <> Rejected e
  /\ fst (Tools.turnLightOff name w) <> Rejected e
  /\ fst (Tools.listAllLights w) <> Rejected e
  /\ fst (Tools.listAllRooms w) <> Rejected e
  /\ fst (Tools.turnRoomLightsOn name brightness w) <> Rejected e
  /\ fst (Tools.turnRoomLightsOff name w) <> Rejected e.
Proof.
  unfold Tools.turnLightOn, Tools.turnLightOff, Tools.listAllLights,
    Tools.listAllRooms, Tools.turnRoomLightsOn, Tools.turnRoomLightsOff,
    tryCatch, bind.
  repeat split.
  - destruct (turnLightOn name None w) as [[[] | e' |] w']; discriminate.
  - destruct (turnLightOff name w) as [[[] | e' |] w']; discriminate.
  - destruct (listAllLights w) as [[l | e' |] w']; discriminate.
  - destruct (listAllRooms w) as [[l | e' |] w']; discriminate.
  - destruct (turnOnRoomLights name brightness w) as [[[] | e' |] w']; discriminate.
  - destruct (turnOffRoomLights name w) as [[[] | e' |] w']; discriminate.
Qed.

(** Each tool's answer when the service operation rejects. *)
Ltac tool_rejected E :=
  unfold tryCatch; rewrite (bind_rejected _ _ _ _ _ E); reflexivity.

(** X13: when no API client can be obtained (discovery fails, the
    registration is refused, no address or key is available), every tool
    answers with its own failure text followed by the message of that
    error, and no request to the bridge's resources has been made beyond
    what [getApiClient] did. *)
Theorem tools_report_client_failure `{Runtime}
    (w w' : World) (name : string) (brightness : option Z) (e : HueError) :
  getApiClient w = (Rejected e, w') ->
  Tools.turnLightOn name w
    = (Resolved (mkToolResult [mkContentItem "text" ("Failed to turn on light: " ++ message e)]), w')
  /\ Tools.turnLightOff name w
     = (Resolved (mkToolResult [mkContentItem "text" ("Failed to turn off light: " ++ message e)]), w')
  /\ Tools.listAllLights w
     = (Resolved (mkToolResult [mkContentItem "text" ("Failed to list lights: " ++ message e)]), w')
  /\ Tools.listAllRooms w
     = (Resolved (mkToolResult [mkContentItem "text" ("Failed to list rooms: " ++ message e)]), w')
  /\ Tools.turnRoomLightsOn name brightness w
     = (Resolved (mkToolResult [mkContentItem "text" ("Failed to turn on room lights: " ++ message e)]), w')
  /\ Tools.turnRoomLightsOff name w
     = (Resolved (mkToolResult [mkContentItem "text" ("Failed to turn off room lights: " ++ message e)]), w').
Proof.
  intro E.
  assert (EL : forall q, findLightByName q w = (Rejected e, w'))
    by (intro q; apply bind_rejected; exact E).
  assert (ER : forall q, findRoomByName q w = (Rejected e, w'))
    by (intro q; apply bind_rejected; exact E).
  assert (E1 : turnLightOn name None w = (Rejected e, w'))
    by (apply bind_rejected, EL).
  assert (E2 : turnLightOff name w = (Rejected e, w'))
    by (apply bind_rejected, EL).
  assert (E3 : listAllLights w = (Rejected e, w'))
    by (apply bind_rejected; exact E).
  assert (E4 : listAllRooms w = (Rejected e, w'))
    by (apply bind_rejected; exact E).
  assert (E5 : turnOnRoomLights name brightness w = (Rejected e, w'))
    by (apply bind_rejected, ER).
  assert (E6 : turnOffRoomLights name w = (Rejected e, w'))
    by (apply bind_rejected, ER).
  repeat split.
  - unfold Tools.turnLightOn. tool_rejected E1.
  - unfold Tools.turnLightOff. tool_rejected E2.
  - unfold Tools.listAllLights. tool_rejected E3.
  - unfold Tools.listAllRooms. tool_rejected E4.
  - unfold Tools.turnRoomLightsOn. tool_rejected E5.
  - unfold Tools.turnRoomLightsOff. tool_rejected E6.
Qed.

Lemma tools_report_client_failure_witness :
  getApiClient (H := Reference.runtime) Cases.brokenBrowser
    = (Rejected (DiscoveryError "Failed to discover bridge: socket closed"),
       Cases.brokenBrowser)
  /\ Tools.listAllLights (H := Reference.runtime) Cases.brokenBrowser
     = (Resolved (mkToolResult [mkContentItem "text"
                    ("Failed to list lights: "
                       ++ message (DiscoveryError
                                     "Failed to discover bridge: socket closed"))]),
        Cases.brokenBrowser)
  /\ Tools.turnRoomLightsOn (H := Reference.runtime) "Office" None
       Cases.brokenBrowser
     = (Resolved (mkToolResult [mkContentItem "text"
                    ("Failed to turn on room lights: "
                       ++ message (DiscoveryError
                                     "Failed to discover bridge: socket closed"))]),
        Cases.brokenBrowser).
Proof.
  split; [ vm_compute; reflexivity | ].
  destruct (tools_report_client_failure (H := Reference.runtime)
              Cases.brokenBrowser Cases.brokenBrowser "Office" None
              (DiscoveryError "Failed to discover bridge: socket closed"))
    as (_ & _ & Lights & _ & On & _).
  - vm_compute. reflexivity.
  - split; assumption.
Defined.

Lemma getApiClient_pending `{Runtime} (w : World) :
  apiClient (this w) = None ->
  truthyStr (bridgeIp (this w)) = false ->
  mdns w = NoAnnouncement ->
  getApiClient w = (Pending, w).
Proof.
  intros Ec Eip Em.
  unfold getApiClient, bind, gets, discoverBridge. rewrite Ec, Eip. simpl.
  unfold bind, gets. rewrite Eip, Em. reflexivity.
Qed.

(** X14: discovery has no time limit: when no bridge address is
    configured and the DNS-SD browser neither announces a bridge nor reports
    an error, no tool ever answers, and nothing is sent or written. *)
Theorem tools_wait_forever_for_discovery `{Runtime}
    (w : World) (name : string) (brightness : option Z) :
  apiClient (this w) = None ->
  truthyStr (bridgeIp (this w)) = false ->
  mdns w = NoAnnouncement ->
  Tools.turnLightOn name w = (Pending, w)
  /\ Tools.turnLightOff name w = (Pending, w)
  /\ Tools.listAllLights w = (Pending, w)
  /\ Tools.listAllRooms w = (Pending, w)
  /\ Tools.turnRoomLightsOn name brightness w = (Pending, w)
  /\ Tools.turnRoomLightsOff name w = (Pending, w).
Proof.
  intros Ec Eip Em.
  pose proof (getApiClient_pending w Ec Eip Em) as E.
  assert (EL : forall q, findLightByName q w = (Pending, w))
    by (intro q; apply bind_pending; exact E).
  assert (ER : forall q, findRoomByName q w = (Pending, w))
    by (intro q; apply bind_pending; exact E).
  assert (E1 : turnLightOn name None w = (Pending, w))
    by (apply bind_pending, EL).
  assert (E2 : turnLightOff name w = (Pending, w))
    by (apply bind_pending, EL).
  assert (E3 : listAllLights w = (Pending, w))
    by (apply bind_pending; exact E).
  assert (E4 : listAllRooms w = (Pending, w))
    by (apply bind_pending; exact E).
  assert (E5 : turnOnRoomLights name brightness w = (Pending, w))
    by (apply bind_pending, ER).
  assert (E6 : turnOffRoomLights name w = (Pending, w))
    by (apply bind_pending, ER).
  repeat split.
  - unfold Tools.turnLightOn, tryCatch.
    rewrite (bind_pending _ _ _ _ E1). reflexivity.
  - unfold Tools.turnLightOff, tryCatch.
    rewrite (bind_pending _ _ _ _ E2). reflexivity.
  - unfold Tools.listAllLights, tryCatch.
    rewrite (bind_pending _ _ _ _ E3). reflexivity.
  - unfold Tools.listAllRooms, tryCatch.
    rewrite (bind_pending _ _ _ _ E4). reflexivity.
  - unfold Tools.turnRoomLightsOn, tryCatch.
    rewrite (bind_pending _ _ _ _ E5). reflexivity.
  - unfold Tools.turnRoomLightsOff, tryCatch.
    rewrite (bind_pending _ _ _ _ E6). reflexivity.
Qed.

Lemma tools_wait_forever_for_discovery_witness :
  (apiClient (this Cases.silentNetwork) = None
   /\ truthyStr (bridgeIp (this Cases.silentNetwork)) = false
   /\ mdns Cases.silentNetwork = NoAnnouncement)
  /\ (Tools.turnLightOn (H := Reference.runtime) "Kitchen" Cases.silentNetwork
        = (Pending, Cases.silentNetwork)
      /\ Tools.turnLightOff (H := Reference.runtime) "Kitchen" Cases.silentNetwork
         = (Pending, Cases.silentNetwork)
      /\ Tools.listAllLights (H := Reference.runtime) Cases.silentNetwork
         = (Pending, Cases.silentNetwork)
      /\ Tools.listAllRooms (H := Reference.runtime) Cases.silentNetwork
         = (Pending, Cases.silentNetwork)
      /\ Tools.turnRoomLightsOn (H := Reference.runtime) "Kitchen" None
           Cases.silentNetwork
         = (Pending, Cases.silentNetwork)
      /\ Tools.turnRoomLightsOff (H := Reference.runtime) "Kitchen"
           Cases.silentNetwork
         = (Pending, Cases.silentNetwork)).
Proof.
  split.
  - repeat split.
  - apply (tools_wait_forever_for_discovery (H := Reference.runtime)
             Cases.silentNetwork "Kitchen" None); reflexivity.
Defined.

(** ** Switching lights and rooms *)

Lemma update_then_done_outcome rc resourceId body w :
  bind (ResourceClient.update rc resourceId body) (fun _ => ret tt) w
  = (settle (interceptor
               (putResponse (bridge w)
                  (baseUrl (ResourceClient.axios rc) ++ ResourceClient.endpoint rc
                     ++ "/" ++ resourceId) body)),
     withRequest
       (mkRequest PUT
          (baseUrl (ResourceClient.axios rc) ++ ResourceClient.endpoint rc
             ++ "/" ++ resourceId)
          (Some body) (apiKey (ResourceClient.axios rc))) w).
Proof.
  unfold bind, ResourceClient.update, Axios.put.
  destruct (interceptor _) as [v | e |]; reflexivity.
Qed.

Lemma turnLightOn_found `{Runtime} q brightness w l w1 c :
  findLightByName q w = (Resolved l, w1) ->
  apiClient (this w1) = Some c ->
  turnLightOn q brightness w
  = bind (ResourceClient.update (light c) (id l)
            (JsObject
               [("on", JsObject [("on", JsBool true)]);
                ("dimming",
                 JsObject [("brightness", JsNumber (orDefault brightness))])]))
      (fun _ => ret tt) w1.
Proof.
  intros E Ec. unfold turnLightOn. cbv zeta.
  rewrite (bind_step _ _ _ _ _ E),
    (bind_step _ _ _ _ _ (getApiClient_cached w1 c Ec)).
  reflexivity.
Qed.

Lemma tool_world {A} (m : Async A) (ok : A -> ToolResult)
    (failed : HueError -> ToolResult) w :
  snd (tryCatch (bind m (fun x => ret (ok x))) (fun e => ret (failed e)) w)
  = snd (m w).
Proof.
  unfold tryCatch, bind. destruct (m w) as [[a | e |] w']; reflexivity.
Qed.

(** X15: the [turnLightOn] tool has no brightness argument, so a light it
    switches on is always set to brightness 100: when the name resolves, the
    tool's only update request is the PUT on that light with
    [{on: {on: true}, dimming: {brightness: 100}}]. *)
Theorem turnLightOn_tool_sets_full_brightness `{Runtime}
    (w w1 : World) (q : string) (l : Resource) (c : HueApiClient) :
  findLightByName q w = (Resolved l, w1) ->
  apiClient (this w1) = Some c ->
  updateRequests (Tools.turnLightOn q) w
  = [mkRequest PUT (baseUrl c ++ "/resource/light" ++ "/" ++ id l)
       (Some (JsObject
                [("on", JsObject [("on", JsBool true)]);
                 ("dimming", JsObject [("brightness", JsNumber 100)])]))
       (apiKey c)].
Proof.
  intros E Ec.
  rewrite (updateRequests_same_world _ (turnLightOn q None));
    [ | apply (tool_world (turnLightOn q None)) ].
  apply (updateRequests_after_quiet (findLightByName q));
    [ apply Quiet_findLightByName | | reflexivity ].
  rewrite (turnLightOn_found q None w l w1 c E Ec), update_then_done, E.
  reflexivity.
Qed.

Lemma turnLightOn_tool_sets_full_brightness_witness :
  (findLightByName (H := Reference.runtime) "Desk" Home.configured
     = (Resolved Home.desk,
        snd (findLightByName (H := Reference.runtime) "Desk" Home.configured))
   /\ apiClient (this (snd (findLightByName (H := Reference.runtime) "Desk"
                              Home.configured)))
      = Some (newHueApiClient "192.168.1.2" (JsString "key-1")))
  /\ updateRequests (Tools.turnLightOn (H := Reference.runtime) "Desk")
       Home.configured
     = [mkRequest PUT
          (baseUrl (newHueApiClient "192.168.1.2" (JsString "key-1"))
             ++ "/resource/light" ++ "/" ++ id Home.desk)
          (Some (JsObject
                   [("on", JsObject [("on", JsBool true)]);
                    ("dimming", JsObject [("brightness", JsNumber 100)])]))
          (apiKey (newHueApiClient "192.168.1.2" (JsString "key-1")))].
Proof.
  split.
  - split; vm_compute; reflexivity.
  - apply (turnLightOn_tool_sets_full_brightness (H := Reference.runtime)
             Home.configured
             (snd (findLightByName (H := Reference.runtime) "Desk" Home.configured))).
    + vm_compute. reflexivity.
    + vm_compute. reflexivity.
Defined.

(** X16: an update that the bridge refuses is not retried and is not
    hidden: when the name resolves and the bridge answers the PUT with an
    error status, [turnLightOn] rejects with the [HueApiError] carrying that
    status and body, after exactly that one update request, and the tool
    reports "Failed to turn on light: Hue API Error: {status} {text}". *)
Theorem turnLightOn_update_refused `{Runtime}
    (w w1 : World) (q : string) (l : Resource) (c : HueApiClient)
    (brightness : option Z) (status : Z) (statusText : string) (body : JsValue) :
  findLightByName q w = (Resolved l, w1) ->
  apiClient (this w1) = Some c ->
  putResponse (bridge w1) (baseUrl c ++ "/resource/light" ++ "/" ++ id l)
    (JsObject [("on", JsObject [("on", JsBool true)]);
               ("dimming",
                JsObject [("brightness",
                          JsNumber (match brightness with
                                    | Some b => b
                                    | None => 100%Z
                                    end))])])
  = HttpStatus status statusText body ->
  fst (turnLightOn q brightness w)
    = Rejected (HueApiError
                  ("Hue API Error: " ++ numberToString status ++ " " ++ statusText)
                  status body)
  /\ List.length (updateRequests (turnLightOn q brightness) w) = 1%nat
  /\ (brightness = None ->
      fst (Tools.turnLightOn q w)
      = Resolved (mkToolResult [mkContentItem "text"
                    ("Failed to turn on light: Hue API Error: "
                       ++ numberToString status ++ " " ++ statusText)])).
Proof.
  intros E Ec Ep.
  pose proof (turnLightOn_found q brightness w l w1 c E Ec) as Eon.
  rewrite update_then_done_outcome in Eon.
  cbn [light LightClient.new ResourceClient.axios ResourceClient.endpoint] in Eon.
  unfold orDefault in Eon. rewrite Ep in Eon. cbn [interceptor settle] in Eon.
  split; [ rewrite Eon; reflexivity | ]. split.
  - assert (Hu : exists r, updateRequests (turnLightOn q brightness) w = [r]).
    { eexists. eapply (updateRequests_after_quiet (findLightByName q));
        [ apply Quiet_findLightByName | rewrite Eon, E; reflexivity
        | reflexivity ]. }
    destruct Hu as (r & ->). reflexivity.
  - intros ->. unfold Tools.turnLightOn, tryCatch.
    rewrite (bind_rejected _ _ _ _ _ Eon). reflexivity.
Qed.

Lemma turnLightOn_update_refused_witness :
  (findLightByName (H := Reference.runtime) "Kitchen" Cases.locked
     = (Resolved Home.kitchen,
        snd (findLightByName (H := Reference.runtime) "Kitchen" Cases.locked))
   /\ apiClient (this (snd (findLightByName (H := Reference.runtime) "Kitchen"
                              Cases.locked)))
      = Some (newHueApiClient "192.168.1.2" (JsString "key-1"))
   /\ putResponse
        (bridge (snd (findLightByName (H := Reference.runtime) "Kitchen"
                        Cases.locked)))
        (baseUrl (newHueApiClient "192.168.1.2" (JsString "key-1"))
           ++ "/resource/light" ++ "/" ++ id Home.kitchen)
        (JsObject [("on", JsObject [("on", JsBool true)]);
                   ("dimming",
                    JsObject [("brightness", JsNumber 100)])])
      = HttpStatus 503 "Service Unavailable" JsNull)
  /\ (fst (turnLightOn (H := Reference.runtime) "Kitchen" None Cases.locked)
        = Rejected (HueApiError
                      ("Hue API Error: " ++ numberToString 503 ++ " "
                         ++ "Service Unavailable") 503 JsNull)
      /\ List.length
           (updateRequests (turnLightOn (H := Reference.runtime) "Kitchen" None)
              Cases.locked) = 1%nat
      /\ (@None Z = None ->
          fst (Tools.turnLightOn (H := Reference.runtime) "Kitchen" Cases.locked)
          = Resolved (mkToolResult [mkContentItem "text"
                        ("Failed to turn on light: Hue API Error: "
                           ++ numberToString 503 ++ " " ++ "Service Unavailable")]))).
Proof.
  split.
  - repeat split; vm_compute; reflexivity.
  - apply (turnLightOn_update_refused (H := Reference.runtime) Cases.locked
             (snd (findLightByName (H := Reference.runtime) "Kitchen" Cases.locked))
             "Kitchen" Home.kitchen
             (newHueApiClient "192.168.1.2" (JsString "key-1")) None).
    + vm_compute. reflexivity.
    + vm_compute. reflexivity.
    + reflexivity.
Defined.

Lemma roomLights_found `{Runtime} q w r w1 c group :
  findRoomByName q w = (Resolved r, w1) ->
  apiClient (this w1) = Some c ->
  groupedLightRid (findGroupedLightService r) = Some group ->
  group <> "" ->
  (forall brightness,
     turnOnRoomLights q brightness w
     = bind (ResourceClient.update (groupedLight c) group
               (JsObject
                  [("on", JsObject [("on", JsBool true)]);
                   ("dimming",
                    JsObject [("brightness", JsNumber (orDefault brightness))])]))
         (fun _ => ret tt) w1)
  /\ turnOffRoomLights q w
     = bind (ResourceClient.update (groupedLight c) group
               (JsObject [("on", JsObject [("on", JsBool false)])]))
         (fun _ => ret tt) w1.
Proof.
  intros E Ec Eg Hne. apply String.eqb_neq in Hne.
  pose proof (getApiClient_cached w1 c Ec) as Ecl.
  split; [ intro brightness | ].
  - unfold turnOnRoomLights. cbv zeta.
    rewrite (bind_step _ _ _ _ _ E), (bind_step _ _ _ _ _ Ecl), Eg.
    unfold truthyStr. rewrite Hne. reflexivity.
  - unfold turnOffRoomLights. cbv zeta.
    rewrite (bind_step _ _ _ _ _ E), (bind_step _ _ _ _ _ Ecl), Eg.
    unfold truthyStr. rewrite Hne. reflexivity.
Qed.

(** X17: a room is switched by one request, not by one per light: when
    the name resolves to a room whose first grouped-light service has a
    non-empty id, [turnOnRoomLights] and [turnOffRoomLights] each issue
    exactly one update request, a PUT on [/resource/grouped_light/{rid}],
    with power on and the brightness (100 when omitted), respectively power
    off and no brightness. *)
Theorem roomLights_switch_group_once `{Runtime}
    (w w1 : World) (q : string) (r : Resource) (c : HueApiClient)
    (brightness : option Z) (group : string) :
  findRoomByName q w = (Resolved r, w1) ->
  apiClient (this w1) = Some c ->
  groupedLightRid (findGroupedLightService r) = Some group ->
  group <> "" ->
  updateRequests (turnOnRoomLights q brightness) w
    = [mkRequest PUT (baseUrl c ++ "/resource/grouped_light" ++ "/" ++ group)
         (Some (JsObject
                  [("on", JsObject [("on", JsBool true)]);
                   ("dimming",
                    JsObject [("brightness",
                              JsNumber (match brightness with
                                        | Some b => b
                                        | None => 100%Z
                                        end))])]))
         (apiKey c)]
  /\ updateRequests (turnOffRoomLights q) w
     = [mkRequest PUT (baseUrl c ++ "/resource/grouped_light" ++ "/" ++ group)
          (Some (JsObject [("on", JsObject [("on", JsBool false)])]))
          (apiKey c)].
Proof.
  intros E Ec Eg Hne.
  destruct (roomLights_found q w r w1 c group E Ec Eg Hne) as (Eon & Eoff).
  split.
  - apply (updateRequests_after_quiet (findRoomByName q));
      [ apply Quiet_findRoomByName | | reflexivity ].
    rewrite Eon, update_then_done, E. reflexivity.
  - apply (updateRequests_after_quiet (findRoomByName q));
      [ apply Quiet_findRoomByName | | reflexivity ].
    rewrite Eoff, update_then_done, E. reflexivity.
Qed.

Lemma roomLights_switch_group_once_witness :
  (findRoomByName (H := Reference.runtime) "living room" Home.configured
     = (Resolved Home.living,
        snd (findRoomByName (H := Reference.runtime) "living room" Home.configured))
   /\ apiClient (this (snd (findRoomByName (H := Reference.runtime) "living room"
                              Home.configured)))
      = Some (newHueApiClient "192.168.1.2" (JsString "key-1"))
   /\ groupedLightRid (findGroupedLightService Home.living) = Some "group-2"
   /\ "group-2" <> "")
  /\ (updateRequests (turnOnRoomLights (H := Reference.runtime) "living room"
                        (Some 25%Z)) Home.configured
        = [mkRequest PUT
             (baseUrl (newHueApiClient "192.168.1.2" (JsString "key-1"))
                ++ "/resource/grouped_light" ++ "/" ++ "group-2")
             (Some (JsObject
                      [("on", JsObject [("on", JsBool true)]);
                       ("dimming",
                        JsObject [("brightness", JsNumber 25)])]))
             (apiKey (newHueApiClient "192.168.1.2" (JsString "key-1")))]
      /\ updateRequests (turnOffRoomLights (H := Reference.runtime) "living room")
           Home.configured
         = [mkRequest PUT
              (baseUrl (newHueApiClient "192.168.1.2" (JsString "key-1"))
                 ++ "/resource/grouped_light" ++ "/" ++ "group-2")
              (Some (JsObject [("on", JsObject [("on", JsBool false)])]))
              (apiKey (newHueApiClient "192.168.1.2" (JsString "key-1")))]).
Proof.
  split.
  - repeat split; try discriminate; vm_compute; reflexivity.
  - apply (roomLights_switch_group_once (H := Reference.runtime) Home.configured
             (snd (findRoomByName (H := Reference.runtime) "living room"
                     Home.configured))
             "living room" Home.living).
    + vm_compute. reflexivity.
    + vm_compute. reflexivity.
    + reflexivity.
    + discriminate.
Defined.

(** X18: a grouped-light service without a usable id counts as none: when
    the first service of type [grouped_light] of the resolved room has a
    missing or empty [rid], both room operations reject with the
    no-grouped-light error and issue no update request, even if a later
    grouped-light service has an id. *)
Theorem roomLights_grouped_light_without_id `{Runtime}
    (w w1 : World) (q : string) (r : Resource) (brightness : option Z)
    (service : Service) :
  findRoomByName q w = (Resolved r, w1) ->
  findGroupedLightService r = Some service ->
  truthyStr (rid service) = false ->
  (turnOnRoomLights q brightness w
     = (Rejected (NoGroupedLightError
                    ("No grouped light service found for room '" ++ q ++ "'")), w1)
   /\ updateRequests (turnOnRoomLights q brightness) w = [])
  /\ (turnOffRoomLights q w
        = (Rejected (NoGroupedLightError
                       ("No grouped light service found for room '" ++ q ++ "'")), w1)
      /\ updateRequests (turnOffRoomLights q) w = []).
Proof.
  intros E Es Hno. destruct (findRoomByName_client q w r w1 E) as (c & _ & Eg).
  assert (Eon : turnOnRoomLights q brightness w
                = (Rejected (NoGroupedLightError
                     ("No grouped light service found for room '" ++ q ++ "'")), w1)).
  { unfold turnOnRoomLights. cbv zeta.
    rewrite (bind_step _ _ _ _ _ E), (bind_step _ _ _ _ _ Eg), Es.
    cbn [groupedLightRid]. rewrite Hno. reflexivity. }
  assert (Eoff : turnOffRoomLights q w
                 = (Rejected (NoGroupedLightError
                      ("No grouped light service found for room '" ++ q ++ "'")), w1)).
  { unfold turnOffRoomLights. cbv zeta.
    rewrite (bind_step _ _ _ _ _ E), (bind_step _ _ _ _ _ Eg), Es.
    cbn [groupedLightRid]. rewrite Hno. reflexivity. }
  split; (split; [ assumption | ]).
  - rewrite (updateRequests_same_world _ (findRoomByName q)).
    + apply Quiet_updateRequests, Quiet_findRoomByName.
    + rewrite Eon, E. reflexivity.
  - rewrite (updateRequests_same_world _ (findRoomByName q)).
    + apply Quiet_updateRequests, Quiet_findRoomByName.
    + rewrite Eoff, E. reflexivity.
Qed.

Lemma roomLights_grouped_light_without_id_witness :
  (findRoomByName (H := Reference.runtime) "HALL" Cases.reordered
     = (Resolved Cases.hall,
        snd (findRoomByName (H := Reference.runtime) "HALL" Cases.reordered))
   /\ findGroupedLightService Cases.hall = Some (mkService "grouped_light" None)
   /\ truthyStr (rid (mkService "grouped_light" None)) = false)
  /\ ((turnOnRoomLights (H := Reference.runtime) "HALL" None Cases.reordered
         = (Rejected (NoGroupedLightError
                        ("No grouped light service found for room '" ++ "HALL" ++ "'")),
            snd (findRoomByName (H := Reference.runtime) "HALL" Cases.reordered))
       /\ updateRequests (turnOnRoomLights (H := Reference.runtime) "HALL" None)
            Cases.reordered = [])
      /\ (turnOffRoomLights (H := Reference.runtime) "HALL" Cases.reordered
            = (Rejected (NoGroupedLightError
                           ("No grouped light service found for room '" ++ "HALL" ++ "'")),
               snd (findRoomByName (H := Reference.runtime) "HALL" Cases.reordered))
          /\ updateRequests (turnOffRoomLights (H := Reference.runtime) "HALL")
               Cases.reordered = [])).
Proof.
  split.
  - repeat split; vm_compute; reflexivity.
  - apply (roomLights_grouped_light_without_id (H := Reference.runtime)
             Cases.reordered _ "HALL" Cases.hall None
             (mkService "grouped_light" None)).
    + vm_compute. reflexivity.
    + reflexivity.
    + reflexivity.
Defined.

(** ** Lookups and listings *)

Lemma find_first {A} (f : A -> bool) (l : list A) (x : A) :
  find f l = Some x
  <-> exists before after,
        l = (before ++ x :: after)%list
        /\ f x = true
        /\ forall y, In y before -> f y = false.
Proof.
  induction l as [| a l IH]; simpl.
  - split; [ discriminate | ].
    intros (before & after & E & _). destruct before; discriminate E.
  - destruct (f a) eqn:Ea.
    + split.
      * intros [= ->]. exists [], l. repeat split; auto. intros y [].
      * intros (before & after & E & Ex & Hb). destruct before as [| b before].
        -- injection E as -> _. reflexivity.
        -- injection E as <- _. rewrite (Hb a (or_introl eq_refl)) in Ea.
           discriminate Ea.
    + rewrite IH. split.
      * intros (before & after & -> & Ex & Hb).
        exists (a :: before), after. repeat split; auto.
        intros y [<- | Hy]; auto.
      * intros (before & after & E & Ex & Hb). destruct before as [| b before].
        -- injection E as -> _. rewrite Ex in Ea. discriminate Ea.
        -- injection E as _ ->. exists before, after. repeat split; auto.
           intros y Hy. apply Hb. right. exact Hy.
Qed.

Lemma strictEquals_false o s : strictEquals o s = false <-> o <> Some s.
Proof.
  rewrite <- strictEquals_true. destruct (strictEquals o s); split; intro E;
    try discriminate; try reflexivity; try (intro; discriminate).
  destruct E. reflexivity.
Qed.

(** X19: among several lights (rooms) that match, the lookup returns the
    one the bridge lists first: on a fetched list, [findLightByName] resolves
    to a light exactly when its display name equals the query and no light
    before it in the list has that name; [findRoomByName] likewise, comparing
    lower-cased names. *)
Theorem find_by_name_returns_first_match `{Runtime}
    (w w1 : World) (resources : list Resource) (q : string) (x : Resource) :
  (fetchLights w = (Resolved resources, w1) ->
   (findLightByName q w = (Resolved x, w1)
    <-> exists before after,
          resources = (before ++ x :: after)%list
          /\ metadataName x = Some q
          /\ forall y, In y before -> metadataName y <> Some q))
  /\ (fetchRooms w = (Resolved resources, w1) ->
      (findRoomByName q w = (Resolved x, w1)
       <-> exists before after,
             resources = (before ++ x :: after)%list
             /\ option_map toLowerCase (metadataName x) = Some (toLowerCase q)
             /\ forall y, In y before ->
                          option_map toLowerCase (metadataName y)
                          <> Some (toLowerCase q))).
Proof.
  split; intro Ef.
  - rewrite findLightByName_fetch, (bind_step _ _ _ _ _ Ef).
    destruct (find _ resources) as [l |] eqn:E.
    + apply find_first in E as (before & after & -> & Ex & Hb). split.
      * intros [= <-]. exists before, after. repeat split.
        -- apply strictEquals_true. exact Ex.
        -- intros y Hy. apply strictEquals_false. apply Hb. exact Hy.
      * intros (before' & after' & E' & Ex' & Hb').
        assert (Ef' : find (fun l0 => strictEquals (metadataName l0) q)
                        (before ++ l :: after) = Some x).
        { rewrite E'. apply find_first. exists before', after'. repeat split.
          - apply strictEquals_true. exact Ex'.
          - intros y Hy. apply strictEquals_false. apply Hb'. exact Hy. }
        assert (Ef'' : find (fun l0 => strictEquals (metadataName l0) q)
                         (before ++ l :: after) = Some l).
        { apply find_first. exists before, after. auto. }
        rewrite Ef' in Ef''. injection Ef'' as ->. reflexivity.
    + split; [ discriminate | ].
      intros (before & after & -> & Ex & _).
      pose proof (find_none _ _ E x) as Hn. simpl in Hn.
      rewrite (proj2 (strictEquals_true _ _) Ex) in Hn.
      discriminate Hn. apply in_elt.
  - rewrite findRoomByName_fetch, (bind_step _ _ _ _ _ Ef).
    destruct (find _ resources) as [l |] eqn:E.
    + apply find_first in E as (before & after & -> & Ex & Hb). split.
      * intros [= <-]. exists before, after. repeat split.
        -- apply strictEquals_true. exact Ex.
        -- intros y Hy. apply strictEquals_false. apply Hb. exact Hy.
      * intros (before' & after' & E' & Ex' & Hb').
        assert (Ef' : find (fun r => strictEquals
                                       (option_map toLowerCase (metadataName r))
                                       (toLowerCase q))
                        (before ++ l :: after) = Some x).
        { rewrite E'. apply find_first. exists before', after'. repeat split.
          - apply strictEquals_true. exact Ex'.
          - intros y Hy. apply strictEquals_false. apply Hb'. exact Hy. }
        assert (Ef'' : find (fun r => strictEquals
                                        (option_map toLowerCase (metadataName r))
                                        (toLowerCase q))
                         (before ++ l :: after) = Some l).
        { apply find_first. exists before, after. auto. }
        rewrite Ef' in Ef''. injection Ef'' as ->. reflexivity.
    + split; [ discriminate | ].
      intros (before & after & -> & Ex & _).
      pose proof (find_none _ _ E x) as Hn. simpl in Hn.
      rewrite (proj2 (strictEquals_true _ _) Ex) in Hn.
      discriminate Hn. apply in_elt.
Qed.

Lemma nameOrDefault_not_empty kind r : nameOrDefault kind r <> "".
Proof.
  unfold nameOrDefault. destruct (metadataName r) as [n |]; simpl.
  - destruct (n =? "") eqn:E; simpl.
    + destruct kind; discriminate.
    + apply String.eqb_neq. exact E.
  - destruct kind; discriminate.
Qed.

(** X20: the listings name every resource once and never with an empty
    name: when [listAllLights] ([listAllRooms]) resolves, its result has as
    many entries as the bridge returned lights (rooms), and none is the
    empty string, since a missing or empty display name is replaced by
    "Light {id}" ("Room {id}"). *)
Theorem listAll_names_complete_and_not_empty `{Runtime}
    (w w1 : World) (names : list string) :
  (listAllLights w = (Resolved names, w1) ->
   (forall n, In n names -> n <> "")
   /\ exists lights,
        fetchLights w = (Resolved lights, w1)
        /\ List.length names = List.length lights)
  /\ (listAllRooms w = (Resolved names, w1) ->
      (forall n, In n names -> n <> "")
      /\ exists rooms,
           fetchRooms w = (Resolved rooms, w1)
           /\ List.length names = List.length rooms).
Proof.
  split.
  - rewrite listAllLights_fetch. intro E.
    apply bind_resolved in E as (lights & w0 & Ef & E).
    unfold ret in E. injection E as <- <-. split.
    + intros n Hn.
      apply (Permutation_in _ (Permutation_sym (sort_perm _ _))) in Hn.
      apply in_map_iff in Hn as (r & <- & _). apply nameOrDefault_not_empty.
    + exists lights. split; [ exact Ef | ].
      rewrite <- (Permutation_length (sort_perm _ _)). apply length_map.
  - rewrite listAllRooms_fetch. intro E.
    apply bind_resolved in E as (rooms & w0 & Ef & E).
    unfold ret in E. injection E as <- <-. split.
    + intros n Hn.
      apply (Permutation_in _ (Permutation_sym (sort_perm _ _))) in Hn.
      apply in_map_iff in Hn as (r & <- & _). apply nameOrDefault_not_empty.
    + exists rooms. split; [ exact Ef | ].
      rewrite <- (Permutation_length (sort_perm _ _)). apply length_map.
Qed.

Lemma find_by_name_returns_first_match_witness :
  (fetchLights (H := Reference.runtime) Home.configured
     = (Resolved [Home.kitchen; Home.unnamed; Home.desk],
        snd (fetchLights (H := Reference.runtime) Home.configured))
   /\ findLightByName (H := Reference.runtime) "Desk" Home.configured
      = (Resolved Home.desk,
         snd (fetchLights (H := Reference.runtime) Home.configured)))
  /\ exists before after,
       [Home.kitchen; Home.unnamed; Home.desk] = (before ++ Home.desk :: after)%list
       /\ metadataName Home.desk = Some "Desk"
       /\ forall y, In y before -> metadataName y <> Some "Desk".
Proof.
  assert (Ef : fetchLights (H := Reference.runtime) Home.configured
               = (Resolved [Home.kitchen; Home.unnamed; Home.desk],
                  snd (fetchLights (H := Reference.runtime) Home.configured)))
    by (vm_compute; reflexivity).
  assert (El : findLightByName (H := Reference.runtime) "Desk" Home.configured
               = (Resolved Home.desk,
                  snd (fetchLights (H := Reference.runtime) Home.configured)))
    by (vm_compute; reflexivity).
  split; [ split; assumption | ].
  destruct (find_by_name_returns_first_match (H := Reference.runtime)
              Home.configured
              (snd (fetchLights (H := Reference.runtime) Home.configured))
              [Home.kitchen; Home.unnamed; Home.desk] "Desk" Home.desk)
    as [Lights _].
  exact (proj1 (Lights Ef) El).
Defined.

Lemma listAll_names_complete_and_not_empty_witness :
  listAllLights (H := Reference.runtime) Home.configured
    = (Resolved ["Desk"; "Kitchen"; "Light light-2"],
       snd (listAllLights (H := Reference.runtime) Home.configured))
  /\ ((forall n, In n ["Desk"; "Kitchen"; "Light light-2"] -> n <> "")
      /\ exists lights,
           fetchLights (H := Reference.runtime) Home.configured
             = (Resolved lights,
                snd (listAllLights (H := Reference.runtime) Home.configured))
           /\ List.length ["Desk"; "Kitchen"; "Light light-2"] = List.length lights).
Proof.
  split.
  - vm_compute. reflexivity.
  - apply (listAll_names_complete_and_not_empty (H := Reference.runtime)
             Home.configured).
    vm_compute. reflexivity.
Defined.

Lemma sorted_unique_on `{Runtime} (s s' : list string) :
  StronglySorted ascending s ->
  StronglySorted ascending s' ->
  Permutation s s' ->
  (forall a b, In a s -> In b s ->
               (localeCompare a b <= 0 -> localeCompare b a <= 0 -> a = b)%Z) ->
  s = s'.
Proof.
  revert s'. induction s as [| a s IH]; intros s' Hs Hs' Hperm Hanti.
  - apply Permutation_nil in Hperm. auto.
  - destruct s' as [| a' s'].
    + apply Permutation_sym, Permutation_nil in Hperm. discriminate.
    + apply StronglySorted_inv in Hs as (Hs & Ha).
      apply StronglySorted_inv in Hs' as (Hs' & Ha').
      assert (a = a').
      { assert (Hin : In a (a' :: s'))
          by (apply (Permutation_in _ Hperm); left; reflexivity).
        assert (Hin' : In a' (a :: s))
          by (apply (Permutation_in _ (Permutation_sym Hperm)); left; reflexivity).
        destruct Hin as [-> | Hin]; [ reflexivity | ].
        destruct Hin' as [-> | Hin']; [ reflexivity | ].
        rewrite Forall_forall in Ha, Ha'.
        apply Hanti; [ left; reflexivity | right; exact Hin'
                     | apply Ha; exact Hin' | apply Ha'; exact Hin ]. }
      subst a'. f_equal. apply IH; try assumption.
      * apply Permutation_cons_inv with a. exact Hperm.
      * intros x y Hx Hy. apply Hanti; right; assumption.
Qed.

(** X21: the order in which the bridge returns the resources does not
    show in the listings when the names listed are told apart by the
    comparator: for a consistent [localeCompare], if two fetched lists are
    permutations of each other and no two different names of the first
    listing compare equal, the second listing is the same. *)
Theorem listAll_order_independent `{Runtime}
    (w w1 w' w1' : World) (resources resources' : list Resource)
    (names : list string) :
  (forall a b, (localeCompare a b <= 0 \/ localeCompare b a <= 0)%Z) ->
  (forall a b c,
     (localeCompare a b <= 0 -> localeCompare b c <= 0 -> localeCompare a c <= 0)%Z) ->
  Permutation resources resources' ->
  (forall a b, In a names -> In b names ->
               (localeCompare a b <= 0 -> localeCompare b a <= 0 -> a = b)%Z) ->
  (fetchLights w = (Resolved resources, w1) ->
   fetchLights w' = (Resolved resources', w1') ->
   fst (listAllLights w) = Resolved names ->
   fst (listAllLights w') = Resolved names)
  /\ (fetchRooms w = (Resolved resources, w1) ->
      fetchRooms w' = (Resolved resources', w1') ->
      fst (listAllRooms w) = Resolved names ->
      fst (listAllRooms w') = Resolved names).
Proof.
  intros Htotal Htrans Hp Hanti. split; intros Ef Ef'.
  - rewrite !listAllLights_fetch.
    rewrite (bind_step _ _ _ _ _ Ef), (bind_step _ _ _ _ _ Ef'). simpl.
    intros [= <-]. f_equal. symmetry.
    apply sorted_unique_on; try (apply sort_StronglySorted; assumption);
      [ | exact Hanti ].
    apply perm_trans with (map (nameOrDefault "Light") resources);
      [ apply Permutation_sym, sort_perm | ].
    apply perm_trans with (map (nameOrDefault "Light") resources');
      [ apply Permutation_map; exact Hp | apply sort_perm ].
  - rewrite !listAllRooms_fetch.
    rewrite (bind_step _ _ _ _ _ Ef), (bind_step _ _ _ _ _ Ef'). simpl.
    intros [= <-]. f_equal. symmetry.
    apply sorted_unique_on; try (apply sort_StronglySorted; assumption);
      [ | exact Hanti ].
    apply perm_trans with (map (nameOrDefault "Room") resources);
      [ apply Permutation_sym, sort_perm | ].
    apply perm_trans with (map (nameOrDefault "Room") resources');
      [ apply Permutation_map; exact Hp | apply sort_perm ].
Qed.

Lemma N_of_ascii_injective x y : N_of_ascii x = N_of_ascii y -> x = y.
Proof.
  intro E. rewrite <- (ascii_N_embedding x), <- (ascii_N_embedding y), E.
  reflexivity.
Qed.

Lemma compareCodeUnits_antisym a b :
  (Reference.compareCodeUnits a b <= 0 ->
   Reference.compareCodeUnits b a <= 0 -> a = b)%Z.
Proof.
  revert b. induction a as [| x a IH]; intros [| y b]; simpl; try lia.
  - reflexivity.
  - destruct (N.eqb_spec (N_of_ascii x) (N_of_ascii y)) as [E | E].
    + rewrite E, N.eqb_refl. intros Hab Hba.
      apply N_of_ascii_injective in E. subst y. f_equal. apply IH; assumption.
    + destruct (N.eqb_spec (N_of_ascii y) (N_of_ascii x)) as [E' | E'];
        [ congruence | ].
      destruct (N.ltb_spec (N_of_ascii x) (N_of_ascii y));
        destruct (N.ltb_spec (N_of_ascii y) (N_of_ascii x)); lia.
Qed.

Lemma listAll_order_independent_witness :
  (Permutation [Home.kitchen; Home.unnamed; Home.desk]
     [Home.desk; Home.kitchen; Home.unnamed]
   /\ fetchLights (H := Reference.runtime) Home.configured
      = (Resolved [Home.kitchen; Home.unnamed; Home.desk],
         snd (fetchLights (H := Reference.runtime) Home.configured))
   /\ fetchLights (H := Reference.runtime) Cases.reordered
      = (Resolved [Home.desk; Home.kitchen; Home.unnamed],
         snd (fetchLights (H := Reference.runtime) Cases.reordered))
   /\ fst (listAllLights (H := Reference.runtime) Home.configured)
      = Resolved ["Desk"; "Kitchen"; "Light light-2"])
  /\ fst (listAllLights (H := Reference.runtime) Cases.reordered)
     = Resolved ["Desk"; "Kitchen"; "Light light-2"].
Proof.
  assert (Hp : Permutation [Home.kitchen; Home.unnamed; Home.desk]
                 [Home.desk; Home.kitchen; Home.unnamed])
    by (apply Permutation_sym,
          (Permutation_cons_append [Home.kitchen; Home.unnamed] Home.desk)).
  split.
  - split; [ exact Hp | repeat split; vm_compute; reflexivity ].
  - destruct (listAll_order_independent (H := Reference.runtime)
                Home.configured
                (snd (fetchLights (H := Reference.runtime) Home.configured))
                Cases.reordered
                (snd (fetchLights (H := Reference.runtime) Cases.reordered))
                [Home.kitchen; Home.unnamed; Home.desk]
                [Home.desk; Home.kitchen; Home.unnamed]
                ["Desk"; "Kitchen"; "Light light-2"]
                compareCodeUnits_total compareCodeUnits_trans Hp) as [Lights _].
    + intros a b _ _. apply compareCodeUnits_antisym.
    + apply Lights; vm_compute; reflexivity.
Defined.

(** ** Client operations outside the service *)

(** X22: [RoomClient.getLights] returns the room's services of type
    [light], in their order, and nothing else: when the bridge answers the
    GET on the room with a room that has services, the result is exactly those
    of them whose [rtype] is "light"; one GET is issued, carrying the custom
    key if one is given and non-empty and the client's key otherwise. *)
Theorem getLights_returns_light_services
    (w : World) (rc : ResourceClient.t) (roomId : string)
    (customApiKey : option string) (r : Resource) (rest : list Resource)
    (all : list Service) :
  getResponse (bridge w)
    (baseUrl (ResourceClient.axios rc) ++ ResourceClient.endpoint rc
       ++ "/" ++ roomId)
  = Http2xx (r :: rest) ->
  services r = Some all ->
  exists lights w',
    Api.getLights rc roomId customApiKey w = (Resolved lights, w')
    /\ (forall s, In s lights <-> In s all /\ rtype s = "light")
    /\ (lights = all <-> forall s, In s all -> rtype s = "light")
    /\ issued (Api.getLights rc roomId customApiKey) w
       = [mkRequest GET
            (baseUrl (ResourceClient.axios rc) ++ ResourceClient.endpoint rc
               ++ "/" ++ roomId)
            None
            (if truthyStr customApiKey then JsString (templateStr customApiKey)
             else apiKey (ResourceClient.axios rc))].
Proof.
  intros Eg Es.
  assert (E : Api.getLights rc roomId customApiKey w
              = (Resolved (filter (fun service => rtype service =? "light") all),
                 withRequest
                   (mkRequest GET
                      (baseUrl (ResourceClient.axios rc) ++ ResourceClient.endpoint rc
                         ++ "/" ++ roomId)
                      None (Api.getConfig (ResourceClient.axios rc) customApiKey)) w)).
  { unfold Api.getLights, Api.getById, Api.get, bind. rewrite Eg. simpl.
    rewrite Es. reflexivity. }
  eexists. eexists. split; [ exact E | ]. split; [ | split ].
  - intro s. rewrite filter_In, String.eqb_eq. reflexivity.
  - split.
    + intros Eall s Hs. rewrite <- Eall in Hs.
      apply filter_In in Hs as (_ & Hs). apply String.eqb_eq. exact Hs.
    + intro Hall. clear - Hall. induction all as [| s all IH]; simpl.
      * reflexivity.
      * rewrite (proj2 (String.eqb_eq _ _) (Hall s (or_introl eq_refl))).
        f_equal. apply IH. intros s' Hs'. apply Hall. right. exact Hs'.
  - apply issued_app. rewrite E. unfold Api.getConfig.
    destruct (truthyStr customApiKey); reflexivity.
Qed.

Lemma getLights_returns_light_services_witness :
  (getResponse (bridge Cases.reordered)
     (baseUrl (ResourceClient.axios Cases.roomClient)
        ++ ResourceClient.endpoint Cases.roomClient ++ "/" ++ "room-3")
   = Http2xx [Cases.hall]
   /\ services Cases.hall
      = Some [mkService "light" (Some "light-1");
              mkService "grouped_light" None;
              mkService "light" (Some "light-3")])
  /\ exists lights w',
       Api.getLights Cases.roomClient "room-3" (Some "") Cases.reordered
         = (Resolved lights, w')
       /\ (forall s, In s lights
                     <-> In s [mkService "light" (Some "light-1");
                               mkService "grouped_light" None;
                               mkService "light" (Some "light-3")]
                         /\ rtype s = "light")
       /\ (lights = [mkService "light" (Some "light-1");
                     mkService "grouped_light" None;
                     mkService "light" (Some "light-3")]
           <-> forall s, In s [mkService "light" (Some "light-1");
                               mkService "grouped_light" None;
                               mkService "light" (Some "light-3")] ->
                         rtype s = "light")
       /\ issued (Api.getLights Cases.roomClient "room-3" (Some "")) Cases.reordered
          = [mkRequest GET
               (baseUrl (ResourceClient.axios Cases.roomClient)
                  ++ ResourceClient.endpoint Cases.roomClient ++ "/" ++ "room-3")
               None
               (if truthyStr (Some "") then JsString (templateStr (Some ""))
                else apiKey (ResourceClient.axios Cases.roomClient))].
Proof.
  split.
  - split; vm_compute; reflexivity.
  - apply (getLights_returns_light_services Cases.reordered Cases.roomClient
             "room-3" (Some "") Cases.hall []).
    + vm_compute. reflexivity.
    + reflexivity.
Defined.

(** X23: [RoomClient.getLights] does not guard against a missing room or
    missing services (the service's own room operations do, with [?.]): when
    the bridge answers with an empty [data] array, or with a room that has
    no [services], it rejects with a [TypeError] after its one GET. *)
Theorem getLights_rejects_without_services
    (w : World) (rc : ResourceClient.t) (roomId : string)
    (customApiKey : option string) (answer : list Resource) :
  getResponse (bridge w)
    (baseUrl (ResourceClient.axios rc) ++ ResourceClient.endpoint rc
       ++ "/" ++ roomId)
  = Http2xx answer ->
  answer = [] \/ (exists r rest, answer = r :: rest /\ services r = None) ->
  (exists reason,
     fst (Api.getLights rc roomId customApiKey w)
     = Rejected (RuntimeTypeError reason))
  /\ List.length (issued (Api.getLights rc roomId customApiKey) w) = 1%nat.
Proof.
  intros Eg Hbad. unfold issued.
  unfold Api.getLights, Api.getById, Api.get, bind. rewrite Eg. simpl.
  destruct Hbad as [-> | (r & rest & -> & Es)]; simpl.
  - split; [ eexists; reflexivity | ].
    rewrite skipn_app, skipn_all, Nat.sub_diag. reflexivity.
  - rewrite Es. simpl. split; [ eexists; reflexivity | ].
    rewrite skipn_app, skipn_all, Nat.sub_diag. reflexivity.
Qed.

Lemma getLights_rejects_without_services_witness :
  (getResponse (bridge Cases.reordered)
     (baseUrl (ResourceClient.axios Cases.roomClient)
        ++ ResourceClient.endpoint Cases.roomClient ++ "/" ++ "room-4")
   = Http2xx [Cases.attic]
   /\ ([Cases.attic] = []
       \/ exists r rest, [Cases.attic] = r :: rest /\ services r = None))
  /\ ((exists reason,
         fst (Api.getLights Cases.roomClient "room-4" None Cases.reordered)
         = Rejected (RuntimeTypeError reason))
      /\ List.length
           (issued (Api.getLights Cases.roomClient "room-4" None) Cases.reordered)
         = 1%nat).
Proof.
  assert (Hbad : [Cases.attic] = []
                 \/ exists r rest, [Cases.attic] = r :: rest /\ services r = None).
  { right. exists Cases.attic, []. split; reflexivity. }
  split.
  - split; [ vm_compute; reflexivity | exact Hbad ].
  - apply (getLights_rejects_without_services Cases.reordered Cases.roomClient
             "room-4" None [Cases.attic]).
    + vm_compute. reflexivity.
    + exact Hbad.
Defined.

(** X24: [LightClient.setColor] always sends its one PUT, whatever the
    options: with [xy] the body is [{color: {xy: {x, y}}}] even if hue and
    saturation are given too; without [xy] and with both hue and saturation
    it is [{color: {hue, saturation}}]; without [xy] and with only one of hue
    and saturation, or none, the body is the empty object. *)
Theorem setColor_request_bodies
    (w : World) (rc : ResourceClient.t) (lightId : string)
    (options : Api.ColorOptions) (customApiKey : option string) :
  exists body,
    issued (Api.setColor rc lightId options customApiKey) w
    = [mkRequest PUT
         (baseUrl (ResourceClient.axios rc) ++ ResourceClient.endpoint rc
            ++ "/" ++ lightId)
         (Some (JsObject body))
         (Api.getConfig (ResourceClient.axios rc) customApiKey)]
    /\ (forall x y, Api.xy options = Some (x, y) ->
          body = [("color",
                   JsObject [("xy", JsObject [("x", JsNumber x); ("y", JsNumber y)])])])
    /\ (forall h s, Api.xy options = None ->
          Api.hue options = Some h -> Api.saturation options = Some s ->
          body = [("color",
                   JsObject [("hue", JsNumber h); ("saturation", JsNumber s)])])
    /\ (Api.xy options = None ->
        Api.hue options = None \/ Api.saturation options = None ->
        body = []).
Proof.
  eexists. split.
  - apply issued_app. unfold Api.setColor, Api.update, Api.put. cbv zeta.
    reflexivity.
  - destruct options as [[[x0 y0] |] [h0 |] [s0 |]]; simpl;
      repeat split; intros; try discriminate; try congruence;
      match goal with
      | Hd : _ \/ _ |- _ => destruct Hd; discriminate
      | _ => idtac
      end.
Qed.

Lemma setColor_request_bodies_witness :
  exists body,
    issued (Api.setColor Cases.lightClient "light-1"
              (Api.mkColorOptions None (Some 120%Z) None) None) Home.configured
    = [mkRequest PUT
         (baseUrl (ResourceClient.axios Cases.lightClient)
            ++ ResourceClient.endpoint Cases.lightClient ++ "/" ++ "light-1")
         (Some (JsObject body))
         (Api.getConfig (ResourceClient.axios Cases.lightClient) None)]
    /\ body = [].
Proof.
  destruct (setColor_request_bodies Home.configured Cases.lightClient "light-1"
              (Api.mkColorOptions None (Some 120%Z) None) None)
    as (body & Ei & _ & _ & Hempty).
  exists body. split; [ exact Ei | ].
  apply Hempty; [ reflexivity | right; reflexivity ].
Defined.

Lemma saveCredentialsToFile_frame_witness :
  exists w',
    saveCredentialsToFile (H := Reference.runtime)
      (mkHueCredentials "user-1" "key-1") Cases.freshPath = (Resolved tt, w')
    /\ this w' = this Cases.freshPath
    /\ trace w' = trace Cases.freshPath
    /\ files (fs w') "/etc/hosts" = files (fs Cases.freshPath) "/etc/hosts"
    /\ files (fs w') "/srv/hue/state" = Directory.
Proof.
  destruct (saveCredentialsToFile_frame (H := Reference.runtime) Cases.freshPath
              (mkHueCredentials "user-1" "key-1"))
    as (w' & Es & Et & Er & Hsame & Hmade).
  exists w'. repeat split; try assumption.
  - apply Hsame; [ discriminate | ].
    intros [E | [E | []]]; discriminate E.
  - apply Hmade; [ right; left; reflexivity | discriminate | reflexivity ].
Defined.

(** X25: discovery uses the first announced address and nothing else:
    with credentials in the service and no address configured, a bridge
    announced with addresses [a :: _] ([a] non-empty) makes [getApiClient]
    resolve to the client for [https://{a}/clip/v2] and remember [a]; a bridge
    announced without any address makes it reject with "Bridge IP or API key
    not available. Please ensure they are provided.".  No request is issued
    in either case. *)
Theorem getApiClient_uses_first_announced_address `{Runtime}
    (w : World) (serviceName : string) (addresses : list string) :
  apiClient (this w) = None ->
  truthyStr (bridgeIp (this w)) = false ->
  truthy (hueUsername (this w)) = true ->
  truthy (hueClientKey (this w)) = true ->
  mdns w = ServiceUp serviceName addresses ->
  (forall a rest, addresses = a :: rest -> a <> "" ->
     fst (getApiClient w) = Resolved (newHueApiClient a (hueClientKey (this w)))
     /\ bridgeIp (this (snd (getApiClient w))) = Some a)
  /\ (addresses = [] ->
      fst (getApiClient w)
      = Rejected (ConfigurationError
                    "Bridge IP or API key not available. Please ensure they are provided."))
  /\ issued getApiClient w = [].
Proof.
  intros Ec Eip Eu Ek Em.
  destruct addresses as [| a0 rest0].
  - assert (E : getApiClient w
                = (Rejected (ConfigurationError
                     "Bridge IP or API key not available. Please ensure they are provided."),
                   setBridgeIp None w)).
    { unfold getApiClient, bind, gets, discoverBridge. rewrite Ec, Eip. simpl.
      unfold bind, gets. rewrite Eip, Em. simpl. rewrite Eu, Ek. reflexivity. }
    split; [ intros a rest [=] | split ].
    + intros _. rewrite E. reflexivity.
    + apply issued_app. rewrite E. simpl. rewrite app_nil_r. reflexivity.
  - assert (E : getApiClient w
                = (if a0 =? "" then
                     (Rejected (ConfigurationError
                        "Bridge IP or API key not available. Please ensure they are provided."),
                      setBridgeIp (Some a0) w)
                   else
                     (Resolved (newHueApiClient a0 (hueClientKey (this w))),
                      setApiClient (newHueApiClient a0 (hueClientKey (this w)))
                        (setBridgeIp (Some a0) w)))).
    { unfold getApiClient, bind, gets, discoverBridge. rewrite Ec, Eip. simpl.
      unfold bind, gets. rewrite Eip, Em. simpl. rewrite Eu, Ek. simpl.
      destruct (a0 =? ""); simpl; [ reflexivity | ]. rewrite Ek. reflexivity. }
    split; [ | split ].
    + intros a rest [= <- <-] Hne. apply String.eqb_neq in Hne.
      rewrite E, Hne. split; reflexivity.
    + discriminate.
    + apply issued_app. rewrite E.
      destruct (a0 =? ""); simpl; rewrite app_nil_r; reflexivity.
Qed.

Lemma getApiClient_uses_first_announced_address_witness :
  (apiClient (this Cases.announced) = None
   /\ truthyStr (bridgeIp (this Cases.announced)) = false
   /\ truthy (hueUsername (this Cases.announced)) = true
   /\ truthy (hueClientKey (this Cases.announced)) = true
   /\ mdns Cases.announced
      = ServiceUp "Hue Bridge" ["192.168.1.2"; "fe80::217:88ff:fe01:2"])
  /\ (fst (getApiClient (H := Reference.runtime) Cases.announced)
        = Resolved (newHueApiClient "192.168.1.2"
                      (hueClientKey (this Cases.announced)))
      /\ bridgeIp (this (snd (getApiClient (H := Reference.runtime)
                                Cases.announced))) = Some "192.168.1.2")
  /\ issued (getApiClient (H := Reference.runtime)) Cases.announced = [].
Proof.
  split; [ repeat split | ].
  destruct (getApiClient_uses_first_announced_address (H := Reference.runtime)
              Cases.announced "Hue Bridge"
              ["192.168.1.2"; "fe80::217:88ff:fe01:2"])
    as (First & _ & NoRequest); try reflexivity.
  split; [ | exact NoRequest ].
  apply (First "192.168.1.2" ["fe80::217:88ff:fe01:2"]);
    [ reflexivity | discriminate ].
Defined.
